(** * Dive into Deep Learning (JAX): synthetic regression data and its
    minibatch loaders

    A shallow embedding of the notebook "Synthetic Regression Data": the
    class [SyntheticRegressionData], its hand-written [get_dataloader], and
    the library-backed [get_tensorloader] and [get_dataloader] that replace
    it, together with the properties that the design document of the
    repository states about them, and further properties that the code
    itself shows.  The custom initializer [MyInit] of the notebook
    "Parameter Initialization" (TensorFlow) and the save and load cells of
    the notebook "File I/O" are embedded as well.

    Conventions.
    - Python integers are [Z]; positions inside a Rocq list are [nat].
    - A Python exception is a value of [exn]; code that may raise returns
      a [result].
    - [float32] values are [spec_float] with precision 24 and maximal
      exponent 128 (IEEE 754 binary32), operated on by [SFadd] and [SFmul].
      Inside [jnp.matmul] the order and the rounding of the operations are
      the library's: the inner product it computes is an interface
      ([MatmulArithmetic]).
    - A two-dimensional array is the list of its rows together with its
      column count.
    - Randomness is explicit.  A generator with hidden state (Python's
      [random], the iterator of a shuffled [tf.data] dataset) is a tape of
      the outcomes of its successive draws; JAX's key-based generator is an
      interface ([JaxRandom]) implemented outside the notebook, and so is
      TensorFlow's uniform sampler ([TfRandom]). *)

From Stdlib Require Import ZArith Lia Bool.
From Stdlib Require Import Floats.SpecFloat.
From Stdlib Require String.
From stdpp Require Import base list numbers.
Import String.StringSyntax.

Local Open Scope Z_scope.
Delimit Scope string_scope with string.

(* ===================================================================== *)
(** ** Python built-ins used by the notebook *)
(* ===================================================================== *)

(** The exceptions that the modelled code paths can raise, named after the
    condition that triggers them. *)
Inductive exn : Type :=
| RangeStepZero         (* range() arg 3 must not be zero *)
| TupleIndexOutOfRange  (* w.shape[0] on a zero-dimensional array *)
| NegativeDimension     (* a shape with a negative entry *)
| ContractionMismatch   (* matmul: inner dimensions differ *)
| SlicesDiffer          (* from_tensor_slices: components of different length *)
| BufferSizeNotPositive (* Dataset.shuffle(buffer_size <= 0) *)
| BatchSizeNotPositive  (* Dataset.batch(batch_size <= 0) *).

Inductive result (A : Type) : Type :=
| Ok (a : A)
| Raise (e : exn).
Arguments Ok {A} a.
Arguments Raise {A} e.

Definition bind {A B} (r : result A) (k : A -> result B) : result B :=
  match r with
  | Ok a => k a
  | Raise e => Raise e
  end.

Notation "'attempt' x ':=' r 'in' k" := (bind r (fun x => k))
  (at level 10, x name, r at level 100, k at level 200).

(** [len(range(start, stop, step))], as CPython computes it. *)
Definition range_length (start stop step : Z) : Z :=
  if 0 <? step then
    if start <? stop then (stop - start - 1) / step + 1 else 0
  else if step <? 0 then
    if stop <? start then (start - stop - 1) / (- step) + 1 else 0
  else 0.

(** The items of [range(start, stop, step)] for a non-zero step. *)
Definition range_items (start stop step : Z) : list Z :=
  (fun k : nat => start + Z.of_nat k * step)
    <$> seq 0 (Z.to_nat (range_length start stop step)).

(** [range(start, stop, step)]: a zero step raises [ValueError]. *)
Definition range (start stop step : Z) : result (list Z) :=
  if step =? 0 then Raise RangeStepZero
  else Ok (range_items start stop step).

(** [list(range(start, stop))]. *)
Definition range2 (start stop : Z) : list Z := range_items start stop 1.

(** How a slice bound [i] is brought into [0 .. len]: a negative bound
    counts from the end, and every bound is clipped. *)
Definition slice_bound (len i : Z) : Z :=
  if i <? 0 then Z.max 0 (i + len) else Z.min i len.

(** A slice object [slice(start, stop)]; [None] as stop means "to the end". *)
Definition slice : Type := Z * option Z.

(** [l[start:stop]]. *)
Definition getslice {A} (l : list A) (s : slice) : list A :=
  let len := Z.of_nat (length l) in
  let lo := slice_bound len (fst s) in
  let hi := match snd s with
            | Some stop => slice_bound len stop
            | None => len
            end in
  take (Z.to_nat (hi - lo)) (drop (Z.to_nat lo) l).

(* ===================================================================== *)
(** ** Python's [random] module *)
(* ===================================================================== *)

(** The state of a generator: the outcomes of the draws to come.  A draw
    below [n] takes the next outcome, reduced into [0 .. n-1]; an exhausted
    tape keeps answering 0. *)
Definition rng : Type := list nat.

Definition randbelow (n : nat) (g : rng) : nat * rng :=
  match g with
  | [] => (0%nat, [])
  | r :: g' => ((r mod n)%nat, g')
  end.

(** [x[i], x[j] = x[j], x[i]]: both reads happen before the writes. *)
Definition swap {A} (x : list A) (i j : nat) : list A :=
  match x !! i, x !! j with
  | Some xi, Some xj => <[j := xi]> (<[i := xj]> x)
  | _, _ => x
  end.

(** The loop of [random.shuffle(x)]:
    [for i in reversed(range(1, len(x))): j = randbelow(i + 1); swap],
    entered at index [i]. *)
Fixpoint shuffle_from {A} (i : nat) (x : list A) (g : rng) : list A * rng :=
  match i with
  | O => (x, g)
  | S i' =>
      let '(j, g') := randbelow (S i) g in
      shuffle_from i' (swap x i j) g'
  end.

Definition shuffle {A} (x : list A) (g : rng) : list A * rng :=
  shuffle_from (length x - 1)%nat x g.

(* ===================================================================== *)
(** ** Arrays *)
(* ===================================================================== *)

Definition float32 : Type := spec_float.
Definition f32_add : float32 -> float32 -> float32 := SFadd 24 128.
Definition f32_mul : float32 -> float32 -> float32 := SFmul 24 128.

(** A two-dimensional array of shape [(length rows, ncols)]. *)
Record matrix : Type := Matrix {
  ncols : nat;
  rows : list (list float32)
}.

(** [a.shape[0]] of a two-dimensional array. *)
Definition nrows (a : matrix) : nat := length (rows a).

(** An array of arbitrary rank: its shape and its entries in row-major
    order.  This is the type of the weight argument [w]. *)
Record ndarray : Type := NdArray {
  shape : list nat;
  data : list float32
}.

(** The position that index [i] denotes along an axis of length [len]:
    negative indices count from the end, and JAX clamps what is still out
    of bounds. *)
Definition axis_index (len : nat) (i : Z) : nat :=
  let i' := if i <? 0 then i + Z.of_nat len else i in
  Z.to_nat (Z.max 0 (Z.min i' (Z.of_nat len - 1))).

(** [a[i]] for an integer [i]: the row at that index. *)
Definition row_at (a : matrix) (i : Z) : list float32 :=
  default [] (rows a !! axis_index (nrows a) i).

(** [a[batch_indices]] for an integer index array: the rows at those
    indices, in the order of the indices. *)
Definition getitem (a : matrix) (batch_indices : list Z) : matrix :=
  {| ncols := ncols a; rows := row_at a <$> batch_indices |}.

(** [a[indices]] for a slice object: the rows in the slice. *)
Definition getitem_slice (a : matrix) (indices : slice) : matrix :=
  {| ncols := ncols a; rows := getslice (rows a) indices |}.

(* ===================================================================== *)
(** ** The data module *)
(* ===================================================================== *)

(** An instance of [SyntheticRegressionData]: the hyperparameters kept by
    [save_hyperparameters()] and the generated arrays. *)
Record SyntheticRegressionData : Type := {
  w : ndarray;
  b : float32;
  noise : float32;
  num_train : Z;
  num_val : Z;
  batch_size : Z;
  X : matrix;
  y : matrix
}.

(** A minibatch: features and labels. *)
Abbreviation batch := (matrix * matrix)%type.

(* ===================================================================== *)
(** ** The hand-written loader *)
(* ===================================================================== *)

Module Manual.

(** The list [indices] that [get_dataloader] builds before it starts to
    yield. *)
Definition epoch_indices (self : SyntheticRegressionData) (train : bool)
    (g : rng) : list Z * rng :=
  if train then
    shuffle (range2 0 (num_train self)) g
  else
    (range2 (num_train self) (num_train self + num_val self), g).

(** The values that [batch_indices] takes in the loop
    [for i in range(0, len(indices), self.batch_size)]. *)
Definition batch_index_lists (indices : list Z) (batch_size : Z)
    : result (list (list Z)) :=
  attempt starts := range 0 (Z.of_nat (length indices)) batch_size in
  Ok ((fun i => getslice indices (i, Some (i + batch_size))) <$> starts).

(** What one turn of the loop yields:
    [self.X[batch_indices], self.y[batch_indices]]. *)
Definition yielded (self : SyntheticRegressionData) (batch_indices : list Z)
    : batch :=
  (getitem (X self) batch_indices, getitem (y self) batch_indices).

(** [get_dataloader(self, train)], run to exhaustion: the batches it
    yields and the state in which it leaves the generator. *)
Definition get_dataloader (self : SyntheticRegressionData) (train : bool)
    (g : rng) : result (list batch) * rng :=
  let '(indices, g') := epoch_indices self train g in
  (attempt chunks := batch_index_lists indices (batch_size self) in
   Ok (yielded self <$> chunks),
   g').

End Manual.

(* ===================================================================== *)
(** ** The external dataset utility ([tf.data]) *)
(* ===================================================================== *)

(** The notebook delegates shuffling and batching to TensorFlow's
    [tf.data.Dataset]; it is not code of the notebook.  The model below
    follows the library's documented behaviour: a dataset knows its
    cardinality (what [len()] reports) and, given a generator state, the
    elements of one pass over it. *)
Module TFData.

(** One example of a two-component dataset: a feature row and a label row. *)
Abbreviation example := (list float32 * list float32)%type.

Record Dataset (A : Type) : Type := {
  element_spec : nat * nat;       (* column counts of the two components *)
  cardinality : Z;
  iterate : rng -> list A * rng
}.
Arguments element_spec {A} _.
Arguments cardinality {A} _.
Arguments iterate {A} _ _.

(** [tf.data.Dataset.from_tensor_slices((a, c))]: the rows of [a] paired
    with the rows of [c]; the components must have the same length. *)
Definition from_tensor_slices (tensors : matrix * matrix)
    : result (Dataset example) :=
  let '(a, c) := tensors in
  if (nrows a =? nrows c)%nat then
    Ok {| element_spec := (ncols a, ncols c);
          cardinality := Z.of_nat (nrows a);
          iterate := fun g => (zip (rows a) (rows c), g) |}
  else Raise SlicesDiffer.

(** The iterator of a shuffled dataset.  It keeps [buffer_size] elements
    buffered; each step tops the buffer up from the input, picks a buffered
    element at random, emits it and lets the front element take its place.
    [fuel] bounds the number of elements emitted. *)
Fixpoint shuffle_elements {A} (fuel buffer_size : nat)
    (buffer input : list A) (g : rng) : list A * rng :=
  match fuel with
  | O => ([], g)
  | S fuel' =>
      let room := (buffer_size - length buffer)%nat in
      let buffer1 := buffer ++ take room input in
      let input1 := drop room input in
      match buffer1 with
      | [] => ([], g)
      | front :: _ =>
          let '(r, g1) := randbelow (length buffer1) g in
          let chosen := default front (buffer1 !! r) in
          let buffer2 := drop 1 (<[r := front]> buffer1) in
          let '(out, g2) :=
            shuffle_elements fuel' buffer_size buffer2 input1 g1 in
          (chosen :: out, g2)
      end
  end.

(** [ds.shuffle(buffer_size)]. *)
Definition shuffle {A} (ds : Dataset A) (buffer_size : Z)
    : result (Dataset A) :=
  if buffer_size <=? 0 then Raise BufferSizeNotPositive
  else
    Ok {| element_spec := element_spec ds;
          cardinality := cardinality ds;
          iterate := fun g =>
            let '(input, g1) := iterate ds g in
            shuffle_elements (length input) (Z.to_nat buffer_size)
              [] input g1 |}.

(** Consecutive groups of [n] elements; the last group holds what is left.
    [fuel] bounds the number of groups. *)
Fixpoint groups {A} (fuel n : nat) (l : list A) : list (list A) :=
  match fuel with
  | O => []
  | S fuel' =>
      match l with
      | [] => []
      | _ :: _ => take n l :: groups fuel' n (drop n l)
      end
  end.

(** A group of examples stacked into a feature array and a label array. *)
Definition stack (spec : nat * nat) (group : list example) : batch :=
  ({| ncols := fst spec; rows := fst <$> group |},
   {| ncols := snd spec; rows := snd <$> group |}).

(** [ds.batch(batch_size)] (with [drop_remainder=False]). *)
Definition batch (ds : Dataset example) (batch_size : Z)
    : result (Dataset batch) :=
  if batch_size <=? 0 then Raise BatchSizeNotPositive
  else
    Ok {| element_spec := element_spec ds;
          cardinality :=
            let n := cardinality ds in
            n / batch_size + (if n mod batch_size =? 0 then 0 else 1);
          iterate := fun g =>
            let '(input, g1) := iterate ds g in
            (stack (element_spec ds)
               <$> groups (length input) (Z.to_nat batch_size) input, g1) |}.

(** [tfds.as_numpy(ds)]: the same dataset, its elements as NumPy arrays. *)
Definition as_numpy {A} (ds : Dataset A) : Dataset A := ds.

(** [len(ds)]. *)
Definition len {A} (ds : Dataset A) : Z := cardinality ds.

End TFData.

(* ===================================================================== *)
(** ** The library-backed loader *)
(* ===================================================================== *)

Module Concise.

(** [get_tensorloader(self, tensors, train, indices=slice(0, None))]. *)
Definition get_tensorloader (self : SyntheticRegressionData)
    (tensors : matrix * matrix) (train : bool) (indices : slice)
    : result (TFData.Dataset batch) :=
  let tensors := (getitem_slice (fst tensors) indices,
                  getitem_slice (snd tensors) indices) in
  let shuffle_buffer :=
    if train then Z.of_nat (nrows (fst tensors)) else 1 in
  attempt slices := TFData.from_tensor_slices tensors in
  attempt shuffled := TFData.shuffle slices shuffle_buffer in
  attempt batched := TFData.batch shuffled (batch_size self) in
  Ok (TFData.as_numpy batched).

(** The second [get_dataloader(self, train)], which replaces the
    hand-written one. *)
Definition get_dataloader (self : SyntheticRegressionData) (train : bool)
    : result (TFData.Dataset batch) :=
  let i := if train then (0, Some (num_train self))
           else (num_train self, None) in
  get_tensorloader self (X self, y self) train i.

End Concise.

(* ===================================================================== *)
(** ** The generator *)
(* ===================================================================== *)

(** [jax.random]: keys, splitting, and normal sampling of an array of a
    given two-dimensional shape.  The sampler is a pure function of the
    key. *)
Class JaxRandom : Type := {
  key : Type;
  PRNGKey : Z -> key;
  split : key -> key * key;
  normal : key -> nat -> nat -> matrix
}.

(** [a.shape[0]]. *)
Definition shape0 (a : ndarray) : result nat :=
  match shape a with
  | [] => Raise TupleIndexOutOfRange
  | d :: _ => Ok d
  end.

(** [jax.random.normal(key, (n, d))], where [n] is a Python integer. *)
Definition random_normal `{JaxRandom} (k : key) (n : Z) (d : nat)
    : result matrix :=
  if n <? 0 then Raise NegativeDimension
  else Ok (normal k (Z.to_nat n) d).

(** [a.reshape((-1, 1))]: all entries, one per row. *)
Definition reshape_column (a : ndarray) : matrix :=
  {| ncols := 1; rows := (fun v => [v]) <$> data a |}.

Definition f32_zero : float32 := S754_zero false.

(** The arithmetic of [jnp.matmul]: [dot r c] is the inner product of a
    row with a column as the library computes it.  In which order the
    terms are added, and whether a product and a sum are rounded together
    (a fused multiply-add) or one after the other, is the library's
    choice and differs between backends; it is not written in the
    notebook. *)
Class MatmulArithmetic : Type := {
  dot : list float32 -> list float32 -> float32
}.

(** Column [j] of a two-dimensional array. *)
Definition column (j : nat) (a : matrix) : list float32 :=
  (fun r => default f32_zero (r !! j)) <$> rows a.

(** [jnp.matmul(a, c)] for two-dimensional arrays. *)
Definition matmul `{MatmulArithmetic} (a c : matrix) : result matrix :=
  if (ncols a =? nrows c)%nat then
    Ok {| ncols := ncols c;
          rows := (fun r => (fun j => dot r (column j c)) <$> seq 0 (ncols c))
                    <$> rows a |}
  else Raise ContractionMismatch.

(** [a + s] and [a * s] for a scalar [s] (broadcast over the array). *)
Definition add_scalar (a : matrix) (s : float32) : matrix :=
  {| ncols := ncols a;
     rows := (fun r : list float32 => (fun v => f32_add v s) <$> r)
               <$> rows a |}.

Definition mul_scalar (a : matrix) (s : float32) : matrix :=
  {| ncols := ncols a;
     rows := (fun r : list float32 => (fun v => f32_mul v s) <$> r)
               <$> rows a |}.

(** [a + c] for arrays of the same shape. *)
Definition add (a c : matrix) : matrix :=
  {| ncols := ncols a;
     rows := zip_with (zip_with f32_add) (rows a) (rows c) |}.

(** [SyntheticRegressionData.__init__(self, w, b, noise, num_train,
    num_val, batch_size)]: the constructed object, or the exception. *)
Definition __init__ `{JaxRandom} `{MatmulArithmetic} (w : ndarray)
    (b noise : float32)
    (num_train num_val batch_size : Z) : result SyntheticRegressionData :=
  let n := num_train + num_val in
  let key := PRNGKey 0 in
  let '(key1, key2) := split key in
  attempt d := shape0 w in
  attempt X := random_normal key1 n d in
  attempt eps := random_normal key2 n 1%nat in
  let noise_term := mul_scalar eps noise in
  attempt Xw := matmul X (reshape_column w) in
  Ok {| w := w; b := b; noise := noise;
        num_train := num_train; num_val := num_val;
        batch_size := batch_size;
        X := X;
        y := add (add_scalar Xw b) noise_term |}.

(* ===================================================================== *)
(** ** A custom initializer (notebook "Parameter Initialization") *)
(* ===================================================================== *)

(** [tf.random]: a generator with hidden state; [random_uniform] is
    [tf.random.uniform(shape, minval, maxval, dtype=tf.float32)] and
    returns the tensor drawn and the state it leaves. *)
Class TfRandom : Type := {
  tf_state : Type;
  random_uniform :
    list nat -> float32 -> float32 -> tf_state -> ndarray * tf_state
}.

(** A tensor of booleans. *)
Record mask : Type := Mask {
  mask_shape : list nat;
  mask_data : list bool
}.

Definition f32_one : float32 := S754_finite false 8388608 (-23).

(** [tf.abs(a)]. *)
Definition tf_abs (a : ndarray) : ndarray :=
  {| shape := shape a; data := SFabs <$> data a |}.

(** [a >= c] for a scalar [c], entry by entry; the comparison is false
    where the entry is a NaN. *)
Definition greater_equal (a : ndarray) (c : float32) : mask :=
  {| mask_shape := shape a;
     mask_data := (fun v : float32 => SFleb c v) <$> data a |}.

(** [tf.cast(m, tf.float32)]: [True] becomes [1.0] and [False] [0.0]. *)
Definition cast_float32 (m : mask) : ndarray :=
  {| shape := mask_shape m;
     data := (fun c : bool => if c then f32_one else f32_zero)
               <$> mask_data m |}.

(** [a * c] for tensors of the same shape. *)
Definition multiply (a c : ndarray) : ndarray :=
  {| shape := shape a; data := zip_with f32_mul (data a) (data c) |}.

Module MyInit.

(** The literals [-10], [10] and [5] as [float32] values. *)
Definition minus_ten : float32 := S754_finite true 10485760 (-20).
Definition ten : float32 := S754_finite false 10485760 (-20).
Definition five : float32 := S754_finite false 10485760 (-21).

(** [MyInit.__call__(self, shape, dtype)], as Keras calls it for a
    [float32] layer: the tensor returned and the state in which it leaves
    the generator. *)
Definition __call__ `{TfRandom} (sh : list nat) (st : tf_state)
    : ndarray * tf_state :=
  let '(drawn, st') := random_uniform sh minus_ten ten st in
  let factor := greater_equal (tf_abs drawn) five in
  let factor := cast_float32 factor in
  (multiply drawn factor, st').

End MyInit.

(* ===================================================================== *)
(** ** Saving and loading (notebook "File I/O") *)
(* ===================================================================== *)

(** The cells of the notebook call [jnp.save] and [jnp.load], that is
    NumPy's [save] and [load]; what these do is not written in the
    notebook.  Modelled from NumPy's documentation and from the outputs
    that the notebook records: [save] writes the array that
    [np.asanyarray] makes of its argument (an array is kept as it is,
    any other object is wrapped in a zero-dimensional array of dtype
    [object]) to a file whose name ends with [.npy]; [load] returns the
    array of the file, an object array only if pickles are allowed.  The
    serialisation itself is taken to be lossless. *)
Module FileIO.

(** The Python values of the cells: a tensor, a dict with string keys, and
    the zero-dimensional object array that wraps a value. *)
#[warnings="-register-all"]
Inductive pyobj (tensor : Type) : Type :=
| Tensor (t : tensor)
| Dict (items : list (String.string * pyobj tensor))
| ObjectArray (o : pyobj tensor).
Arguments Tensor {tensor} t.
Arguments Dict {tensor} items.
Arguments ObjectArray {tensor} o.

Inductive io_exn : Type :=
| FileNotFound          (* load: no such file *)
| ObjectArrayNotAllowed (* load: object arrays need allow_pickle=True *).

Inductive outcome (A : Type) : Type :=
| Returns (a : A)
| Raises (e : io_exn).
Arguments Returns {A} a.
Arguments Raises {A} e.

(** The files of the working directory: the array stored under each
    name. *)
Definition files (tensor : Type) : Type :=
  String.string -> option (pyobj tensor).

Definition no_files {tensor} : files tensor := fun _ => None.

(** [np.asanyarray(o)]. *)
Definition asanyarray {tensor} (o : pyobj tensor) : pyobj tensor :=
  match o with
  | Dict _ => ObjectArray o
  | Tensor _ | ObjectArray _ => o
  end.

(** The name of the file that [save] writes: [.npy] is appended to a name
    that does not end with it. *)
Definition npy_name (file : String.string) : String.string :=
  if String.eqb
       (String.substring (String.length file - 4)%nat 4 file) ".npy"%string
  then file
  else String.append file ".npy"%string.

(** [jnp.save(file, arr)]. *)
Definition save {tensor} (file : String.string) (arr : pyobj tensor)
    (fs : files tensor) : files tensor :=
  fun name =>
    if String.eqb name (npy_name file) then Some (asanyarray arr)
    else fs name.

(** [jnp.load(file, allow_pickle=...)]. *)
Definition load {tensor} (file : String.string) (allow_pickle : bool)
    (fs : files tensor) : outcome (pyobj tensor) :=
  match fs file with
  | None => Raises FileNotFound
  | Some (ObjectArray o) =>
      if allow_pickle then Returns (ObjectArray o)
      else Raises ObjectArrayNotAllowed
  | Some a => Returns a
  end.

(** The element that a zero-dimensional object array holds ([a.item()]). *)
Definition element {tensor} (a : pyobj tensor) : option (pyobj tensor) :=
  match a with
  | ObjectArray o => Some o
  | _ => None
  end.

(** [d[key]] for a dict. *)
Fixpoint lookup_key {tensor} (items : list (String.string * pyobj tensor))
    (key : String.string) : option (pyobj tensor) :=
  match items with
  | [] => None
  | (k, v) :: rest =>
      match lookup_key rest key with
      | Some v' => Some v'
      | None => if String.eqb k key then Some v else None
      end
  end.

End FileIO.

(* ===================================================================== *)
(** ** Vocabulary of the properties *)
(* ===================================================================== *)

(** The ceiling of [a / c] for a positive [c]. *)
Definition ceil_div (a c : Z) : Z := (a + c - 1) / c.

(** The size of a minibatch: the number of its feature rows. *)
Definition batch_len (bt : batch) : nat := nrows (fst bt).

(** The invariant of a constructed data module: the counts are counts,
    and features and labels have one row per example. *)
Definition well_formed (self : SyntheticRegressionData) : Prop :=
  0 <= num_train self /\ 0 <= num_val self /\
  Z.of_nat (nrows (X self)) = num_train self + num_val self /\
  nrows (y self) = nrows (X self).

(** The tapes that hold exactly the draws of one [shuffle] of [n] items,
    each already within the bound of its draw: draw number [k] (counted
    from 0) is made below [n - k]. *)
Definition shuffle_draws (n : nat) (d : rng) : Prop :=
  length d = (n - 1)%nat /\
  forall k r : nat, d !! k = Some r -> (r + k <= n - 1)%nat.

(** [chunks] cuts [l] into contiguous chunks of [n] items, the last of
    which may be short (but not empty). *)
Definition contiguous_chunks {A} (n : Z) (l : list A)
    (chunks : list (list A)) : Prop :=
  concat chunks = l /\
  forall (k : nat) (c : list A), chunks !! k = Some c ->
    1 <= Z.of_nat (length c) <= n /\
    ((S k < length chunks)%nat -> Z.of_nat (length c) = n).

(** The batch [bt] holds the rows of [X] and of [y] at the indices [c], in
    the order of [c]: it has as many feature rows and as many label rows
    as [c] has indices, of the widths of [X] and of [y], and at every
    position the feature row and the label row are those stored at the
    index found at that position of [c] (for an index inside the
    array). *)
Definition holds_rows_at (self : SyntheticRegressionData) (c : list Z)
    (bt : batch) : Prop :=
  ncols bt.1 = ncols (X self) /\ ncols bt.2 = ncols (y self) /\
  nrows bt.1 = length c /\ nrows bt.2 = length c /\
  forall (j : nat) (i : Z), c !! j = Some i ->
    (0 <= i < Z.of_nat (nrows (X self)) ->
     rows bt.1 !! j = rows (X self) !! Z.to_nat i) /\
    (0 <= i < Z.of_nat (nrows (y self)) ->
     rows bt.2 !! j = rows (y self) !! Z.to_nat i).

(** The loader cuts [indices] into contiguous chunks of [batch_size],
    yields one batch per chunk, in the order of the chunks, each holding
    the rows at the indices of its chunk, and leaves the generator in
    state [g']. *)
Definition loads_chunks_of (self : SyntheticRegressionData) (train : bool)
    (g : rng) (indices : list Z) (g' : rng) : Prop :=
  exists (chunks : list (list Z)) (bts : list batch),
    contiguous_chunks (batch_size self) indices chunks /\
    Manual.get_dataloader self train g = (Ok bts, g') /\
    Forall2 (holds_rows_at self) chunks bts.

(** The positions of a split inside the data module: from the first
    component (included) to the second (excluded). *)
Definition split_bounds (self : SyntheticRegressionData) (train : bool)
    : Z * Z :=
  if train then (0, num_train self)
  else (num_train self, num_train self + num_val self).

(** The rows of [a] that belong to the training split (the first
    [num_train]) or to the validation split (the others). *)
Definition split_rows (self : SyntheticRegressionData) (train : bool)
    (a : matrix) : list (list float32) :=
  if train then take (Z.to_nat (num_train self)) (rows a)
  else drop (Z.to_nat (num_train self)) (rows a).

(** The examples of a split: each feature row with its label row. *)
Definition split_examples (self : SyntheticRegressionData) (train : bool)
    : list TFData.example :=
  zip (split_rows self train (X self)) (split_rows self train (y self)).

(** At every position of the batch, the feature row and the label row are
    those of one and the same example of the split. *)
Definition rows_paired (self : SyntheticRegressionData) (train : bool)
    (bt : batch) : Prop :=
  nrows bt.1 = nrows bt.2 /\
  forall (k : nat) (xr yr : list float32),
    rows bt.1 !! k = Some xr -> rows bt.2 !! k = Some yr ->
    exists i : nat,
      (split_bounds self train).1 <= Z.of_nat i
        < (split_bounds self train).2 /\
      rows (X self) !! i = Some xr /\ rows (y self) !! i = Some yr.

(** What a test harness observes of one pass: the sizes of the batches in
    the order in which they are yielded, for either loader, and
    [len(data.train_dataloader())] of the notebook. *)
Definition manual_batch_sizes (self : SyntheticRegressionData)
    (train : bool) (g : rng) : result (list nat) :=
  attempt bt := (Manual.get_dataloader self train g).1 in
  Ok (batch_len <$> bt).

Definition concise_batch_sizes (self : SyntheticRegressionData)
    (train : bool) (g : rng) : result (list nat) :=
  attempt ds := Concise.get_dataloader self train in
  Ok (batch_len <$> (TFData.iterate ds g).1).

Definition concise_len (self : SyntheticRegressionData) (train : bool)
    : result Z :=
  attempt ds := Concise.get_dataloader self train in
  Ok (TFData.len ds).

(** The sizes of the consecutive groups of [n] among [len] items. *)
Fixpoint chunk_sizes (fuel n len : nat) : list nat :=
  match fuel with
  | O => []
  | S fuel' =>
      match len with
      | O => []
      | S _ => (n `min` len)%nat :: chunk_sizes fuel' n (len - n)%nat
      end
  end.

(** [len(w)], for an array with at least one axis. *)
Definition len (a : ndarray) : option nat := head (shape a).

(** An array holds as many entries as its shape says. *)
Definition consistent (a : ndarray) : Prop :=
  length (data a) = foldr Nat.mul 1%nat (shape a).

(** A finite [float32]: neither an infinity nor a NaN. *)
Definition finite32 (v : float32) : bool :=
  match v with
  | S754_zero _ | S754_finite _ _ _ => true
  | S754_infinity _ | S754_nan => false
  end.

(** What the notebook relies on from [jax.random.normal(key, (n, d))]: an
    array of shape [(n, d)] whose entries are finite. *)
Definition sampler_well_behaved (J : JaxRandom) : Prop :=
  forall (k : key) (n d : nat),
    ncols (normal k n d) = d /\ nrows (normal k n d) = n /\
    Forall (fun r : list float32 =>
              length r = d /\ Forall (fun v => finite32 v = true) r)
      (rows (normal k n d)).

(** The same number: identical values, or two zeros (IEEE 754 equality
    does not tell the zeros apart). *)
Definition same_number (u v : float32) : Prop :=
  u = v \/ exists s t : bool, u = S754_zero s /\ v = S754_zero t.

(** The [float32] value of an integer. *)
Definition f32_of_Z (z : Z) : float32 := binary_normalize 24 128 z 0 false.

(** A row of integers as [float32] values, the inner product of two rows
    of integers, and rows of small integers. *)
Definition int_row (zs : list Z) : list float32 := f32_of_Z <$> zs.

Fixpoint inner_product (zs ws : list Z) : Z :=
  match zs, ws with
  | z :: zs', w :: ws' => z * w + inner_product zs' ws'
  | _, _ => 0
  end.

Definition small_integers (zs : list Z) : Prop :=
  Forall (fun z : Z => -4 <= z <= 4) zs.

(** What the notebook relies on from the arithmetic of [jnp.matmul]: on
    rows of at most 16 small integers, where every product and every
    partial sum is an integer that [float32] holds exactly, so that
    nothing is rounded in whatever order and grouping the terms are
    taken, [dot] returns the inner product. *)
Definition matmul_well_behaved (L : MatmulArithmetic) : Prop :=
  forall zs ws : list Z,
    length zs = length ws -> (length zs <= 16)%nat ->
    small_integers zs -> small_integers ws ->
    same_number (dot (int_row zs) (int_row ws))
      (f32_of_Z (inner_product zs ws)).

(** [same_number], decided. *)
Definition same_numberb (u v : float32) : bool :=
  match u, v with
  | S754_zero _, S754_zero _ => true
  | S754_infinity s, S754_infinity t => Bool.eqb s t
  | S754_nan, S754_nan => true
  | S754_finite s m e, S754_finite t n f =>
      Bool.eqb s t && Pos.eqb m n && Z.eqb e f
  | _, _ => false
  end.

Definition is_zerob (v : float32) : bool :=
  match v with
  | S754_zero _ => true
  | _ => false
  end.

(** The values that are the same number as the integer [z]. *)
Definition variants (z : Z) : list float32 :=
  f32_of_Z z ::
  (if is_zerob (f32_of_Z z) then [S754_zero false; S754_zero true] else []).

(** Exhaustive checks of [float32] arithmetic on small integers: the
    product of two integers between -4 and 4, and the sum of an integer
    between -256 and 256 and one between -16 and 16, are exact. *)
Definition mul_check : bool :=
  forallb (fun z =>
    forallb (fun w =>
      same_numberb (f32_mul (f32_of_Z z) (f32_of_Z w)) (f32_of_Z (z * w)))
      (seqZ (-4) 9))
    (seqZ (-4) 9).

Definition add_check : bool :=
  forallb (fun s =>
    forallb (fun p =>
      forallb (fun acc =>
        forallb (fun q => same_numberb (f32_add acc q) (f32_of_Z (s + p)))
          (variants p))
        (variants s))
      (seqZ (-16) 33))
    (seqZ (-256) 513).

(** The example stored at index [i] of the data module: its feature row
    and its label row. *)
Definition example_at (self : SyntheticRegressionData) (i : Z)
    : TFData.example :=
  (row_at (X self) i, row_at (y self) i).

(** An array of shape [(n, d)], and a minibatch of at most [bs] examples
    over [d] features: features of shape [(m, d)] and labels of shape
    [(m, 1)] with [1 <= m <= bs]. *)
Definition has_shape (a : matrix) (n d : nat) : Prop :=
  nrows a = n /\ ncols a = d /\
  Forall (fun r : list float32 => length r = d) (rows a).

Definition batch_shaped (bs : Z) (d : nat) (bt : batch) : Prop :=
  exists m : nat,
    1 <= Z.of_nat m <= bs /\ has_shape bt.1 m d /\ has_shape bt.2 m 1.

(** The indices of a split, in ascending order. *)
Definition split_indices (self : SyntheticRegressionData) (train : bool)
    : list Z :=
  if train then seqZ 0 (num_train self)
  else seqZ (num_train self) (num_val self).

(** The examples of a batch, and those of the batches of a pass in the
    order in which they are yielded. *)
Definition batch_examples (bt : batch) : list TFData.example :=
  zip (rows bt.1) (rows bt.2).

Definition pass_examples (bts : list batch) : list TFData.example :=
  concat (batch_examples <$> bts).

(** What the initializer relies on from
    [tf.random.uniform(shape, minval, maxval)]: a tensor of the requested
    shape whose entries are [float32] values in [[minval, maxval)]. *)
Definition uniform_well_behaved (T : TfRandom) (lo hi : float32) : Prop :=
  forall (sh : list nat) (st : tf_state),
    shape (random_uniform sh lo hi st).1 = sh /\
    Forall (fun v : float32 =>
              valid_binary 24 128 v = true /\
              SFleb lo v = true /\ SFltb v hi = true)
      (data (random_uniform sh lo hi st).1).

(** A zero of either sign. *)
Definition is_zero (v : float32) : Prop := exists s : bool, v = S754_zero s.

(* ===================================================================== *)
(** ** Concrete inputs *)
(* ===================================================================== *)

(** A deterministic stand-in for [jax.random], used to run the model on
    concrete inputs: keys are integers, and the entries drawn from a key
    are small integers that depend on the key and on the position. *)
Definition counter_random : JaxRandom :=
  {| key := Z;
     PRNGKey := fun seed => seed;
     split := fun k => (2 * k + 1, 2 * k + 2);
     normal := fun k n d =>
       {| ncols := d;
          rows :=
            (fun i : nat =>
               (fun j : nat =>
                  f32_of_Z ((k + 3 * Z.of_nat i + 5 * Z.of_nat j) mod 7 - 3))
                 <$> seq 0 d)
              <$> seq 0 n |} |}.

(** One arithmetic for [jnp.matmul], used to run the model on concrete
    inputs: every product and every sum is rounded on its own, and the
    terms are added from left to right. *)
Definition sequential_dot (r c : list float32) : float32 :=
  foldl (fun acc p => f32_add acc (f32_mul (fst p) (snd p))) f32_zero
    (zip r c).

Definition sequential_arithmetic : MatmulArithmetic :=
  {| dot := sequential_dot |}.

(** The notebook's arguments: [w = [2, -3.4]], [b = 4.2], and the default
    [noise = 0.01], each rounded to [float32]. *)
Definition w_true : ndarray :=
  {| shape := [2%nat];
     data := [S754_finite false 8388608 (-22);
              S754_finite true 14260634 (-22)] |}.
Definition b_true : float32 := S754_finite false 8808038 (-21).
Definition noise_default : float32 := S754_finite false 10737418 (-30).

(** Integer weights [w = [2, -3]] and the bias [b = 4]. *)
Definition w_integers : ndarray :=
  {| shape := [2%nat]; data := int_row [2; -3] |}.
Definition b_integer : float32 := f32_of_Z 4.

(** A weight array of shape [(2, 3)]: six entries for a feature width of
    two. *)
Definition w_matrix : ndarray :=
  {| shape := [2%nat; 3%nat];
     data := f32_of_Z <$> [1; 2; 3; -1; -2; -3] |}.

(** A zero-dimensional weight array. *)
Definition w_scalar : ndarray := {| shape := []; data := [f32_of_Z 2] |}.

(** A data module without examples, and the object that a construction
    returns (the empty module if it raised). *)
Definition no_data : SyntheticRegressionData :=
  {| w := w_true; b := b_true; noise := noise_default;
     num_train := 0; num_val := 0; batch_size := 1;
     X := {| ncols := 2; rows := [] |};
     y := {| ncols := 1; rows := [] |} |}.

Definition constructed (r : result SyntheticRegressionData)
    : SyntheticRegressionData :=
  match r with
  | Ok d => d
  | Raise _ => no_data
  end.

(** A generator state: the outcomes of its next ten draws. *)
Definition ten_draws : rng := [3; 1; 4; 1; 5; 9; 2; 6; 5; 3]%nat.

(** [SyntheticRegressionData(w, b)] with the notebook's defaults, and a
    small instance with ten training and three validation examples in
    batches of four. *)
Definition notebook_data : SyntheticRegressionData :=
  constructed (@__init__ counter_random sequential_arithmetic
      w_true b_true noise_default
                 1000 1000 32).

Definition small_data : SyntheticRegressionData :=
  constructed (@__init__ counter_random sequential_arithmetic
      w_true b_true noise_default 10 3 4).

(** The tensors of the notebook "File I/O": [x = jnp.arange(4)], of dtype
    [int32], and [y = jnp.zeros(4)], of dtype [float32]. *)
Inductive jax_array : Type :=
| Int32Array (entries : list Z)
| Float32Array (a : ndarray).

Definition x_arange : jax_array := Int32Array [0; 1; 2; 3].
Definition y_zeros : jax_array :=
  Float32Array {| shape := [4%nat]; data := replicate 4 f32_zero |}.

(** [SyntheticRegressionData(w, b, num_train=0, num_val=3, batch_size=4)]:
    a data module whose training split is empty. *)
Definition no_training_data : SyntheticRegressionData :=
  constructed (@__init__ counter_random sequential_arithmetic
                 w_true b_true noise_default 0 3 4).

(** The small instance with integer weights and bias. *)
Definition integer_data : SyntheticRegressionData :=
  constructed (@__init__ counter_random sequential_arithmetic
                 w_integers b_integer noise_default 10 3 4).

(** The small instance again, built with [batch_size = 0] and with
    [batch_size = -4]. *)
Definition zero_batch_data : SyntheticRegressionData :=
  constructed (@__init__ counter_random sequential_arithmetic
      w_true b_true noise_default 10 3 0).

Definition negative_batch_data : SyntheticRegressionData :=
  constructed (@__init__ counter_random sequential_arithmetic
      w_true b_true noise_default
                 10 3 (-4)).

(** A deterministic stand-in for [tf.random.uniform(shape, -10, 10)]:
    the state is a counter, and the entries are the integers from [-10]
    to [9] in turn, starting from the counter. *)
Definition counter_uniform : TfRandom :=
  {| tf_state := Z;
     random_uniform := fun sh _ _ st =>
       ({| shape := sh;
           data := (fun i : nat => f32_of_Z ((st + Z.of_nat i) mod 20 - 10))
                     <$> seq 0 (foldr Nat.mul 1%nat sh) |},
        st + Z.of_nat (foldr Nat.mul 1%nat sh)) |}.

(* ===================================================================== *)
(** ** Facts about ranges, slices and groups *)
(* ===================================================================== *)

Lemma range2_seqZ (start stop : Z) :
  range2 start stop = seqZ start (stop - start).
Proof.
  unfold range2, range_items, range_length, seqZ.
  replace (0 <? 1) with true by reflexivity.
  destruct (Z.ltb_spec start stop) as [Hlt | Hge].
  - rewrite Z.div_1_r.
    replace (stop - start - 1 + 1) with (stop - start) by lia.
    apply list_fmap_ext. intros _ k _. lia.
  - rewrite (Z2Nat.nonpos (stop - start)) by lia. reflexivity.
Qed.

Lemma length_range2 (start stop : Z) :
  length (range2 start stop) = Z.to_nat (stop - start).
Proof. rewrite range2_seqZ. apply length_seqZ. Qed.

Lemma range_length_lt (len step k : Z) :
  0 < step -> 0 <= len -> 0 <= k ->
  k < range_length 0 len step <-> k * step < len.
Proof.
  intros Hstep Hlen Hk. unfold range_length.
  destruct (Z.ltb_spec 0 step) as [_ | ?]; [| lia].
  destruct (Z.ltb_spec 0 len) as [Hpos | Hzero].
  - replace (len - 0 - 1) with (len - 1) by lia.
    split; intros H.
    + assert (k <= (len - 1) / step) as Hle by lia.
      pose proof (Z.mul_div_le (len - 1) step Hstep). nia.
    + assert (k <= (len - 1) / step); [| lia].
      apply Z.div_le_lower_bound; lia.
  - split; intros H; nia.
Qed.

Lemma range_length_ceil (len step : Z) :
  0 < step -> 0 <= len -> range_length 0 len step = ceil_div len step.
Proof.
  intros Hstep Hlen. unfold range_length, ceil_div.
  destruct (Z.ltb_spec 0 step) as [_ | ?]; [| lia].
  destruct (Z.ltb_spec 0 len) as [Hpos | Hzero].
  - replace (len + step - 1) with (len - 0 - 1 + 1 * step) by lia.
    rewrite Z.div_add by lia. reflexivity.
  - replace len with 0 by lia. symmetry. apply Z.div_small. lia.
Qed.

(** The ceiling is characterised by [c * (q - 1) < a <= c * q]. *)
Lemma ceil_div_spec (a c : Z) :
  0 < c -> c * (ceil_div a c - 1) < a <= c * ceil_div a c.
Proof.
  intros Hc. unfold ceil_div.
  pose proof (Z.div_mod (a + c - 1) c ltac:(lia)).
  pose proof (Z.mod_pos_bound (a + c - 1) c Hc). lia.
Qed.

Lemma getslice_chunk {A} (l : list A) (i step : Z) :
  0 <= i -> 0 < step ->
  getslice l (i, Some (i + step)) = take (Z.to_nat step) (drop (Z.to_nat i) l).
Proof.
  intros Hi Hstep. unfold getslice, slice_bound. cbn [fst snd].
  destruct (Z.ltb_spec i 0) as [? | _]; [lia |].
  destruct (Z.ltb_spec (i + step) 0) as [? | _]; [lia |].
  destruct (Z_lt_le_dec i (Z.of_nat (length l))) as [Hin | Hout].
  - rewrite (Z.min_l i) by lia.
    destruct (Z_le_gt_dec (i + step) (Z.of_nat (length l))) as [Hfull | Hshort].
    + rewrite Z.min_l by lia. do 2 f_equal. lia.
    + rewrite Z.min_r by lia.
      rewrite (take_ge _ (Z.to_nat step)) by (rewrite length_drop; lia).
      apply take_ge. rewrite length_drop. lia.
  - rewrite (Z.min_r i) by lia. rewrite Nat2Z.id.
    rewrite !drop_ge by lia. by rewrite !take_nil.
Qed.

Lemma getslice_prefix {A} (l : list A) (stop : Z) :
  0 <= stop -> getslice l (0, Some stop) = take (Z.to_nat stop) l.
Proof.
  intros Hstop. destruct (Z.eq_dec stop 0) as [-> | Hne].
  - unfold getslice, slice_bound. cbn [fst snd].
    replace (0 <? 0) with false by reflexivity.
    rewrite Z.min_l by lia. reflexivity.
  - replace stop with (0 + stop) at 1 by lia.
    rewrite getslice_chunk by lia. reflexivity.
Qed.

Lemma getslice_suffix {A} (l : list A) (start : Z) :
  0 <= start -> getslice l (start, None) = drop (Z.to_nat start) l.
Proof.
  intros Hstart. unfold getslice, slice_bound. cbn [fst snd].
  destruct (Z.ltb_spec start 0) as [? | _]; [lia |].
  destruct (Z_le_gt_dec start (Z.of_nat (length l))) as [Hin | Hout].
  - rewrite Z.min_l by lia. apply take_ge. rewrite length_drop. lia.
  - rewrite Z.min_r by lia. rewrite Nat2Z.id.
    rewrite !drop_ge by lia. by rewrite take_nil.
Qed.

Section Groups.
Context {A : Type}.
Implicit Types (l : list A) (n fuel k : nat).

Lemma groups_lookup fuel n l k :
  (0 < n)%nat -> (length l <= fuel)%nat ->
  TFData.groups fuel n l !! k =
    if decide (k * n < length l)%nat then Some (take n (drop (k * n) l))
    else None.
Proof.
  intros Hn. revert l k.
  induction fuel as [| fuel IH]; intros l k Hfuel.
  - destruct l; [| cbn in Hfuel; lia]. cbn.
    case_decide; [lia | done].
  - destruct l as [| a l'].
    + cbn. case_decide; [lia | done].
    + cbn [TFData.groups]. destruct k as [| k].
      * cbn [lookup list_lookup]. rewrite decide_True by (cbn; lia).
        reflexivity.
      * change ((take n (a :: l') :: TFData.groups fuel n (drop n (a :: l')))
                  !! S k)
          with (TFData.groups fuel n (drop n (a :: l')) !! k).
        rewrite IH by (rewrite length_drop; cbn in *; lia).
        rewrite length_drop, drop_drop.
        replace (n + k * n)%nat with (S k * n)%nat by lia.
        repeat case_decide; try lia; reflexivity.
Qed.

Lemma groups_concat fuel n l :
  (0 < n)%nat -> (length l <= fuel)%nat ->
  concat (TFData.groups fuel n l) = l.
Proof.
  intros Hn. revert l.
  induction fuel as [| fuel IH]; intros l Hfuel.
  - destruct l; [done | cbn in Hfuel; lia].
  - destruct l as [| a l']; [done |].
    cbn [TFData.groups concat].
    rewrite IH by (rewrite length_drop; cbn in *; lia).
    apply take_drop.
Qed.

Lemma groups_length fuel n l :
  (0 < n)%nat -> (length l <= fuel)%nat ->
  Z.of_nat (length (TFData.groups fuel n l)) =
    ceil_div (Z.of_nat (length l)) (Z.of_nat n).
Proof.
  intros Hn Hfuel.
  pose proof (ceil_div_spec (Z.of_nat (length l)) (Z.of_nat n) ltac:(lia))
    as Hceil.
  set (q := ceil_div _ _) in *.
  set (m := length (TFData.groups fuel n l)).
  assert (forall k, (k < m)%nat <-> (k * n < length l)%nat) as Hk.
  { intros k. unfold m. rewrite <- lookup_lt_is_Some.
    rewrite groups_lookup by done.
    case_decide; split; intros H'; try done; try lia. }
  assert (0 <= q) as Hq by nia.
  destruct (Z_lt_le_dec (Z.of_nat m) q) as [Hlt | Hge].
  - assert (~ (m < m)%nat) as Hirr by lia.
    exfalso. apply Hirr. apply Hk. nia.
  - destruct (Z.eq_dec (Z.of_nat m) q) as [? | Hne]; [done |].
    assert (Z.to_nat q < m)%nat as Hin by lia.
    apply Hk in Hin. nia.
Qed.

(** Every group but the last is full; the last one is not empty. *)
Lemma groups_sizes fuel n l k c :
  (0 < n)%nat -> (length l <= fuel)%nat ->
  TFData.groups fuel n l !! k = Some c ->
  (1 <= length c <= n)%nat /\
  ((S k < length (TFData.groups fuel n l))%nat -> length c = n).
Proof.
  intros Hn Hfuel Hc.
  rewrite groups_lookup in Hc by done.
  case_decide as Hk; [| done]. injection Hc as <-.
  rewrite length_take, length_drop. split; [lia |].
  intros Hnext. apply lookup_lt_is_Some in Hnext.
  rewrite groups_lookup in Hnext by done.
  case_decide; [lia | by destruct Hnext].
Qed.

End Groups.

(** The index chunks of the hand-written loop are the consecutive groups
    of [batch_size] indices. *)
Lemma batch_index_lists_groups (indices : list Z) (batch_size : Z) :
  1 <= batch_size ->
  Manual.batch_index_lists indices batch_size =
    Ok (TFData.groups (length indices) (Z.to_nat batch_size) indices).
Proof.
  intros Hbs. unfold Manual.batch_index_lists, range, bind.
  destruct (Z.eqb_spec batch_size 0) as [? | _]; [lia |].
  f_equal. apply list_eq. intros k.
  rewrite groups_lookup by lia.
  unfold range_items. rewrite !list_lookup_fmap.
  pose proof (range_length_lt (Z.of_nat (length indices)) batch_size
                (Z.of_nat k) ltac:(lia) ltac:(lia) ltac:(lia)) as Hlt.
  case_decide as Hk.
  - rewrite lookup_seq_lt by lia. cbn.
    rewrite getslice_chunk by lia. do 3 f_equal. lia.
  - rewrite lookup_seq_ge by lia. reflexivity.
Qed.

(* ===================================================================== *)
(** ** Facts about [random.shuffle] *)
(* ===================================================================== *)

Section ShuffleFacts.
Context {A : Type}.
Implicit Types (x p : list A) (g d : rng) (i j k n : nat).
Local Open Scope nat_scope.

Lemma length_swap x i j : length (swap x i j) = length x.
Proof.
  unfold swap. destruct (x !! i), (x !! j); try done.
  by rewrite !length_insert.
Qed.

Lemma swap_Permutation x i j : swap x i j ≡ₚ x.
Proof.
  unfold swap. destruct (x !! i) as [xi |] eqn:Hi; [| done].
  destruct (x !! j) as [xj |] eqn:Hj; [| done].
  by apply Permutation_insert_swap.
Qed.

Lemma swap_lookup_l x i j :
  i < length x -> j < length x -> swap x i j !! i = x !! j.
Proof.
  intros Hi Hj. unfold swap.
  destruct (lookup_lt_is_Some_2 x i Hi) as [xi Hxi].
  destruct (lookup_lt_is_Some_2 x j Hj) as [xj Hxj].
  rewrite Hxi, Hxj. destruct (decide (j = i)) as [-> | Hne].
  - rewrite list_lookup_insert_eq by (by rewrite length_insert). congruence.
  - rewrite list_lookup_insert_ne by done.
    by rewrite list_lookup_insert_eq.
Qed.

Lemma swap_lookup_other x i j k :
  k ≠ i -> k ≠ j -> swap x i j !! k = x !! k.
Proof.
  intros Hi Hj. unfold swap. destruct (x !! i), (x !! j); try done.
  by rewrite !list_lookup_insert_ne.
Qed.

Lemma randbelow_lt n g : 0 < n -> (randbelow n g).1 < n.
Proof.
  intros Hn. destruct g as [| r g]; cbn; [done |].
  apply Nat.mod_upper_bound. lia.
Qed.

Lemma randbelow_cons n r d : r < n -> randbelow n (r :: d) = (r, d).
Proof. intros Hr. cbn. by rewrite Nat.mod_small. Qed.

Lemma shuffle_from_Permutation i x g : (shuffle_from i x g).1 ≡ₚ x.
Proof.
  revert x g. induction i as [| i IH]; intros x g; [done |].
  cbn [shuffle_from]. destruct (randbelow (S (S i)) g) as [j g'].
  rewrite IH. apply swap_Permutation.
Qed.

Lemma shuffle_Permutation x g : (shuffle x g).1 ≡ₚ x.
Proof. apply shuffle_from_Permutation. Qed.

Lemma length_shuffle x g : length (shuffle x g).1 = length x.
Proof. apply Permutation_length, shuffle_Permutation. Qed.

(** The loop entered at [i] never touches a position above [i]. *)
Lemma shuffle_from_above i x g k :
  i < k -> (shuffle_from i x g).1 !! k = x !! k.
Proof.
  revert x g. induction i as [| i IH]; intros x g Hk; [done |].
  cbn [shuffle_from].
  pose proof (randbelow_lt (S (S i)) g ltac:(lia)) as Hj.
  destruct (randbelow (S (S i)) g) as [j g']. cbn [fst] in Hj.
  rewrite IH by lia. apply swap_lookup_other; lia.
Qed.

(** What the first draw [j] of the loop entered at [S i] selects ends up
    at position [S i]. *)
Lemma shuffle_from_top i x j d :
  S i < length x -> j <= S i ->
  (shuffle_from (S i) x (j :: d)).1 !! S i = x !! j.
Proof.
  intros Hi Hj. cbn [shuffle_from].
  rewrite randbelow_cons by lia.
  rewrite shuffle_from_above by lia.
  apply swap_lookup_l; lia.
Qed.

End ShuffleFacts.

Section ShuffleUniform.
Context {A : Type}.
Implicit Types (x p : list A) (g d : rng) (i j k n : nat).
Local Open Scope nat_scope.

Lemma Permutation_same_tail (a c : A) (t : list A) :
  a :: t ≡ₚ c :: t -> a = c.
Proof.
  intros H. apply Permutation_singleton_inj.
  apply (Permutation_app_inv_r t [a] [c]). exact H.
Qed.

(** Each arrangement of the first [S i] items is produced by exactly one
    tape of in-range draws. *)
Lemma shuffle_from_bijective i : forall x p,
  NoDup x -> i < length x -> p ≡ₚ x -> drop (S i) p = drop (S i) x ->
  exists d, shuffle_draws (S i) d /\ (shuffle_from i x d).1 = p /\
    forall d', shuffle_draws (S i) d' -> (shuffle_from i x d').1 = p -> d' = d.
Proof.
  induction i as [| i IH]; intros x p Hnd Hi Hp Hdrop.
  - exists []. split; [| split].
    + split; [done |]. intros k r Hr. done.
    + cbn. destruct x as [| a t]; [cbn in Hi; lia |].
      destruct p as [| c t'];
        [by apply Permutation_length in Hp |].
      change (t' = t) in Hdrop. subst t'. f_equal. symmetry.
      by apply (Permutation_same_tail c a t).
    + intros d' [Hlen _] _. by destruct d'.
  - assert (length p = length x) as Hlen by (by apply Permutation_length).
    destruct (lookup_lt_is_Some_2 p (S i) ltac:(lia)) as [e He].
    assert (e ∈ x) as Hex.
    { rewrite <- Hp. by eapply list_elem_of_lookup_2. }
    apply list_elem_of_lookup_1 in Hex as [j Hj].
    assert (j < length x) as Hjlen by (by eapply lookup_lt_Some).
    assert (NoDup p) as Hndp by (by rewrite Hp).
    assert (j <= S i) as Hji.
    { destruct (decide (j <= S i)) as [| Hgt]; [done |]. exfalso.
      assert (p !! j = Some e) as Hpj.
      { assert (drop (S (S i)) p !! (j - S (S i))
                = drop (S (S i)) x !! (j - S (S i))) as Heq
          by (by rewrite Hdrop).
        rewrite !lookup_drop in Heq.
        replace (S (S i) + (j - S (S i))) with j in Heq by lia.
        congruence. }
      pose proof (NoDup_lookup p j (S i) e Hndp Hpj He). lia. }
    assert (swap x (S i) j !! S i = Some e) as Htop.
    { rewrite swap_lookup_l by lia. done. }
    destruct (IH (swap x (S i) j) p) as (d & Hd & Hres & Huniq).
    + by rewrite swap_Permutation.
    + rewrite length_swap. lia.
    + rewrite Hp. symmetry. apply swap_Permutation.
    + rewrite (drop_S p e (S i) He), (drop_S _ e (S i) Htop).
      f_equal. rewrite Hdrop. apply list_eq. intros k.
      rewrite !lookup_drop. symmetry. apply swap_lookup_other; lia.
    + destruct Hd as [Hdlen Hdb].
      exists (j :: d). split; [| split].
      * split; [cbn; lia |].
        intros [| k] r Hr; cbn in Hr.
        -- injection Hr as <-. lia.
        -- apply Hdb in Hr. lia.
      * cbn [shuffle_from]. by rewrite randbelow_cons by lia.
      * intros d' [Hl' Hb'] Hres'.
        destruct d' as [| r d']; [cbn in Hl'; lia |].
        assert (r <= S i) as Hr by (specialize (Hb' 0 r eq_refl); lia).
        assert (r = j) as ->.
        { pose proof (shuffle_from_top i x r d' Hi Hr) as Hsel.
          rewrite Hres', He in Hsel.
          by eapply (NoDup_lookup x r j e). }
        f_equal. apply Huniq.
        -- split; [cbn in Hl'; lia |].
           intros k r Hk. specialize (Hb' (S k) r Hk). lia.
        -- cbn [shuffle_from] in Hres'.
           by rewrite randbelow_cons in Hres' by lia.
Qed.

(** [random.shuffle] is a bijection between the tapes of in-range draws
    and the arrangements of a duplicate-free list: every arrangement is
    the outcome of exactly one tape, so equally likely draws give equally
    likely arrangements. *)
Lemma shuffle_bijective x p :
  NoDup x -> p ≡ₚ x ->
  exists d, shuffle_draws (length x) d /\ (shuffle x d).1 = p /\
    forall d', shuffle_draws (length x) d' -> (shuffle x d').1 = p -> d' = d.
Proof.
  intros Hnd Hp. destruct x as [| a t].
  - apply Permutation_nil_r in Hp as ->. exists [].
    split; [| split]; [by split | done |].
    intros d' [Hlen _] _. by destruct d'.
  - unfold shuffle. cbn [length]. rewrite Nat.sub_1_r, Nat.pred_succ.
    apply shuffle_from_bijective; [done | cbn; lia | done |].
    rewrite !drop_ge; [done | cbn; lia |].
    apply Permutation_length in Hp. cbn in *. lia.
Qed.

End ShuffleUniform.

(* ===================================================================== *)
(** ** The hand-written loader: index order, chunks and batch sizes *)
(* ===================================================================== *)

Lemma groups_contiguous {A} (l : list A) (n : Z) :
  1 <= n ->
  contiguous_chunks n l (TFData.groups (length l) (Z.to_nat n) l).
Proof.
  intros Hn. split.
  - apply groups_concat; lia.
  - intros k c Hc.
    destruct (groups_sizes (length l) (Z.to_nat n) l k c) as [Hsize Hfull];
      [lia | lia | done |].
    split; [lia |]. intros Hnext. rewrite Hfull by done. lia.
Qed.

Lemma loader_of_indices (self : SyntheticRegressionData) (train : bool)
    (g g' : rng) (indices : list Z) :
  1 <= batch_size self ->
  Manual.epoch_indices self train g = (indices, g') ->
  Manual.get_dataloader self train g =
    (Ok (Manual.yielded self
           <$> TFData.groups (length indices) (Z.to_nat (batch_size self))
                 indices), g').
Proof.
  intros Hbs Hidx. unfold Manual.get_dataloader. rewrite Hidx.
  by rewrite batch_index_lists_groups.
Qed.

Lemma getitem_lookup (a : matrix) (c : list Z) (k : nat) (i : Z) :
  0 <= i < Z.of_nat (nrows a) -> c !! k = Some i ->
  rows (getitem a c) !! k = rows a !! Z.to_nat i.
Proof.
  intros Hi Hk. cbn [getitem rows]. rewrite list_lookup_fmap, Hk. cbn.
  unfold row_at, axis_index. destruct (Z.ltb_spec i 0) as [? | _]; [lia |].
  rewrite Z.min_l, Z.max_r by lia.
  destruct (lookup_lt_is_Some_2 (rows a) (Z.to_nat i)) as [r Hr];
    [unfold nrows in Hi; lia |].
  by rewrite Hr.
Qed.

Lemma yielded_holds_rows (self : SyntheticRegressionData) (c : list Z) :
  holds_rows_at self c (Manual.yielded self c).
Proof.
  unfold holds_rows_at, Manual.yielded, nrows. cbn [fst snd].
  split; [done |]. split; [done |].
  split; [cbn; by rewrite length_fmap |].
  split; [cbn; by rewrite length_fmap |].
  intros j i Hj. split; intros Hi; by apply getitem_lookup.
Qed.

Lemma loader_loads_chunks (self : SyntheticRegressionData) (train : bool)
    (g g' : rng) (indices : list Z) :
  1 <= batch_size self ->
  Manual.epoch_indices self train g = (indices, g') ->
  loads_chunks_of self train g indices g'.
Proof.
  intros Hbs Hidx.
  exists (TFData.groups (length indices) (Z.to_nat (batch_size self))
            indices).
  eexists. split; [by apply groups_contiguous |].
  split; [by apply loader_of_indices |].
  apply Forall2_fmap_r, Forall_Forall2_diag, Forall_forall.
  intros c _. apply yielded_holds_rows.
Qed.

(** C1. With [batch_size >= 1]: in training mode the loader shuffles the
    materialised range [0, num_train) with [random.shuffle] (the result is
    a permutation of the range, and every arrangement of the range is the
    outcome of exactly one tape of in-range draws, so uniform draws give a
    uniform permutation), cuts the shuffled list into contiguous chunks of
    [batch_size], the last possibly short, and yields one batch per
    chunk, holding the feature rows and the label rows stored at the
    indices of the chunk, in their order; in validation mode it does the
    same with the range [num_train, num_train + num_val) in ascending
    order, and draws nothing.  In a well-formed data module every index of
    either range lies inside both arrays. *)
Theorem manual_loader_shuffles_then_chunks
    (self : SyntheticRegressionData) (g : rng) :
  1 <= batch_size self ->
  (exists (indices : list Z) (g' : rng),
     shuffle (seqZ 0 (num_train self)) g = (indices, g') /\
     indices ≡ₚ seqZ 0 (num_train self) /\
     loads_chunks_of self true g indices g') /\
  (forall p : list Z, p ≡ₚ seqZ 0 (num_train self) ->
     exists d : rng,
       shuffle_draws (Z.to_nat (num_train self)) d /\
       (Manual.epoch_indices self true d).1 = p /\
       forall d' : rng,
         shuffle_draws (Z.to_nat (num_train self)) d' ->
         (Manual.epoch_indices self true d').1 = p -> d' = d) /\
  loads_chunks_of self false g
    (seqZ (num_train self) (num_val self)) g /\
  (well_formed self ->
   forall i : Z,
     i ∈ seqZ 0 (num_train self)
       ++ seqZ (num_train self) (num_val self) ->
     0 <= i < Z.of_nat (nrows (X self)) /\
     0 <= i < Z.of_nat (nrows (y self))).
Proof.
  intros Hbs.
  assert (range2 0 (num_train self) = seqZ 0 (num_train self)) as Htrain
    by (rewrite range2_seqZ; f_equal; lia).
  assert (range2 (num_train self) (num_train self + num_val self)
          = seqZ (num_train self) (num_val self)) as Hval
    by (rewrite range2_seqZ; f_equal; lia).
  split; [| split; [| split]].
  - destruct (shuffle (seqZ 0 (num_train self)) g) as [indices g'] eqn:Hsh.
    exists indices, g'. split; [done |]. split.
    + change indices with (indices, g').1. rewrite <- Hsh.
      apply shuffle_Permutation.
    + apply loader_loads_chunks; [done |].
      unfold Manual.epoch_indices. by rewrite Htrain.
  - intros p Hp. unfold Manual.epoch_indices. rewrite Htrain.
    rewrite <- (length_seqZ 0 (num_train self)).
    apply shuffle_bijective; [apply NoDup_seqZ | done].
  - apply loader_loads_chunks; [done |].
    unfold Manual.epoch_indices. by rewrite Hval.
  - intros (Hnt & Hnv & HX & Hy) i Hi. rewrite Hy, HX.
    apply elem_of_app in Hi as [Hi | Hi];
      apply elem_of_seqZ in Hi; lia.
Qed.

(** C1 at a concrete input: ten training and three validation examples in
    batches of four, with a tape of ten draws. *)
Lemma manual_loader_shuffles_then_chunks_small :
  1 <= batch_size small_data /\
  ((exists (indices : list Z) (g' : rng),
      shuffle (seqZ 0 (num_train small_data)) ten_draws
        = (indices, g') /\
      indices ≡ₚ seqZ 0 (num_train small_data) /\
      loads_chunks_of small_data true ten_draws
        indices g') /\
   (forall p : list Z, p ≡ₚ seqZ 0 (num_train small_data) ->
      exists d : rng,
        shuffle_draws (Z.to_nat (num_train small_data)) d /\
        (Manual.epoch_indices small_data true d).1 = p /\
        forall d' : rng,
          shuffle_draws (Z.to_nat (num_train small_data)) d' ->
          (Manual.epoch_indices small_data true d').1 = p -> d' = d) /\
   loads_chunks_of small_data false ten_draws
     (seqZ (num_train small_data) (num_val small_data))
     ten_draws /\
   (well_formed small_data ->
    forall i : Z,
      i ∈ seqZ 0 (num_train small_data)
        ++ seqZ (num_train small_data) (num_val small_data) ->
      0 <= i < Z.of_nat (nrows (X small_data)) /\
      0 <= i < Z.of_nat (nrows (y small_data)))).
Proof.
  assert (1 <= batch_size small_data) as Hbs by (vm_compute; discriminate).
  split; [exact Hbs |].
  exact (manual_loader_shuffles_then_chunks small_data
           ten_draws Hbs).
Defined.

Lemma sum_list_length_concat {A} (ls : list (list A)) :
  sum_list (length <$> ls) = length (concat ls).
Proof.
  induction ls as [| l ls IH]; [done |].
  cbn. rewrite length_app. by f_equal.
Qed.

Lemma batch_len_yielded (self : SyntheticRegressionData) (c : list Z) :
  batch_len (Manual.yielded self c) = length c.
Proof. unfold batch_len, nrows. cbn. apply length_fmap. Qed.

Lemma batch_len_yielded_groups (self : SyntheticRegressionData)
    (chunks : list (list Z)) :
  batch_len <$> (Manual.yielded self <$> chunks) = length <$> chunks.
Proof.
  rewrite <- list_fmap_compose. apply list_fmap_ext.
  intros _ c _. apply batch_len_yielded.
Qed.

Lemma epoch_indices_length (self : SyntheticRegressionData) (train : bool)
    (g : rng) :
  length (Manual.epoch_indices self train g).1 =
    Z.to_nat (if train then num_train self else num_val self).
Proof.
  unfold Manual.epoch_indices. destruct train.
  - rewrite length_shuffle, length_range2. f_equal. lia.
  - cbn [fst]. rewrite length_range2. f_equal. lia.
Qed.

(** One pass of the hand-written loader, spelled out. *)
Lemma manual_pass (self : SyntheticRegressionData) (train : bool) (g : rng) :
  1 <= batch_size self ->
  exists (indices : list Z) (g' : rng),
    Manual.epoch_indices self train g = (indices, g') /\
    length indices
      = Z.to_nat (if train then num_train self else num_val self) /\
    Manual.get_dataloader self train g =
      (Ok (Manual.yielded self
             <$> TFData.groups (length indices)
                   (Z.to_nat (batch_size self)) indices), g').
Proof.
  intros Hbs.
  destruct (Manual.epoch_indices self train g) as [indices g'] eqn:Hidx.
  exists indices, g'. split; [done |]. split.
  - change indices with (indices, g').1. rewrite <- Hidx.
    apply epoch_indices_length.
  - by apply loader_of_indices.
Qed.

(** C3. With [batch_size >= 1] and non-negative counts, the sizes of the
    batches of one training pass add up to [num_train], and those of one
    validation pass to [num_val]. *)
Theorem manual_loader_covers_split (self : SyntheticRegressionData)
    (g : rng) :
  1 <= batch_size self -> 0 <= num_train self -> 0 <= num_val self ->
  (exists (bt : list batch) (g' : rng),
     Manual.get_dataloader self true g = (Ok bt, g') /\
     Z.of_nat (sum_list (batch_len <$> bt)) = num_train self) /\
  (exists (bt : list batch) (g' : rng),
     Manual.get_dataloader self false g = (Ok bt, g') /\
     Z.of_nat (sum_list (batch_len <$> bt)) = num_val self).
Proof.
  intros Hbs Htrain Hval.
  split.
  - destruct (manual_pass self true g Hbs) as (indices & g' & _ & Hlen & Hrun).
    eexists _, g'. split; [exact Hrun |].
    rewrite batch_len_yielded_groups, sum_list_length_concat.
    rewrite groups_concat by lia. lia.
  - destruct (manual_pass self false g Hbs) as (indices & g' & _ & Hlen & Hrun).
    eexists _, g'. split; [exact Hrun |].
    rewrite batch_len_yielded_groups, sum_list_length_concat.
    rewrite groups_concat by lia. lia.
Qed.

(** C3 at the notebook's data module: 1000 training and 1000 validation
    examples in batches of 32. *)
Lemma manual_loader_covers_split_notebook :
  (1 <= batch_size notebook_data /\ 0 <= num_train notebook_data /\
   0 <= num_val notebook_data) /\
  (exists (bt : list batch) (g' : rng),
     Manual.get_dataloader notebook_data true [] = (Ok bt, g') /\
     Z.of_nat (sum_list (batch_len <$> bt)) = num_train notebook_data) /\
  (exists (bt : list batch) (g' : rng),
     Manual.get_dataloader notebook_data false [] = (Ok bt, g') /\
     Z.of_nat (sum_list (batch_len <$> bt)) = num_val notebook_data).
Proof.
  assert (1 <= batch_size notebook_data) as Hbs by (vm_compute; discriminate).
  assert (0 <= num_train notebook_data) as Htrain
    by (vm_compute; discriminate).
  assert (0 <= num_val notebook_data) as Hval by (vm_compute; discriminate).
  split; [by repeat split |].
  exact (manual_loader_covers_split notebook_data [] Hbs Htrain Hval).
Defined.

(* ===================================================================== *)
(** ** Facts about the dataset utility *)
(* ===================================================================== *)

Lemma tf_cardinality_ceil (n batch_size : Z) :
  0 < batch_size ->
  n / batch_size + (if n mod batch_size =? 0 then 0 else 1)
  = ceil_div n batch_size.
Proof.
  intros Hbs. unfold ceil_div.
  pose proof (Z.div_mod n batch_size ltac:(lia)) as Hdm.
  pose proof (Z.mod_pos_bound n batch_size Hbs) as Hr.
  destruct (Z.eqb_spec (n mod batch_size) 0) as [Hz | Hnz].
  - apply (Z.div_unique _ _ _ (batch_size - 1)); lia.
  - apply (Z.div_unique _ _ _ (n mod batch_size - 1)); lia.
Qed.

Section ShuffleBuffer.
Context {A : Type}.
Implicit Types (buffer input out : list A) (g d : rng) (r n fuel size : nat).
Local Open Scope nat_scope.

(** Emitting the element at [r] and moving the front element into its
    place keeps the buffered elements. *)
Lemma pick_Permutation (front c : A) (rest : list A) r :
  (front :: rest) !! r = Some c ->
  c :: drop 1 (<[r := front]> (front :: rest)) ≡ₚ front :: rest.
Proof.
  intros Hc. destruct r as [| r].
  - cbn in Hc. injection Hc as <-. done.
  - cbn in Hc.
    pose proof (Permutation_insert_swap (front :: rest) 0 (S r) front c
                  eq_refl Hc) as Hswap.
    exact Hswap.
Qed.

Lemma shuffle_elements_Permutation fuel size : forall buffer input g,
  1 <= size -> length buffer <= size ->
  length buffer + length input <= fuel ->
  (TFData.shuffle_elements fuel size buffer input g).1 ≡ₚ buffer ++ input.
Proof.
  induction fuel as [| fuel IH]; intros buffer input g Hsize Hbuf Hfuel.
  - destruct buffer, input; cbn in Hfuel; try lia. done.
  - cbn [TFData.shuffle_elements].
    set (room := size - length buffer).
    assert (length (buffer ++ take room input) <= size) as Hlen1
      by (rewrite length_app, length_take; lia).
    assert (length (buffer ++ take room input) + length (drop room input)
            = length buffer + length input) as Hsum
      by (rewrite length_app, length_take, length_drop; lia).
    assert ((buffer ++ take room input) ++ drop room input = buffer ++ input)
      as Hsame by (by rewrite <- app_assoc, take_drop).
    destruct (buffer ++ take room input) as [| front rest] eqn:Hb1.
    + apply app_eq_nil in Hb1 as [-> Htake].
      destruct input as [| a t]; [done |].
      subst room. destruct size; [lia | discriminate Htake].
    + pose proof (randbelow_lt (length (front :: rest)) g ltac:(cbn; lia))
        as Hr.
      destruct (randbelow (length (front :: rest)) g) as [r g1].
      cbn [fst] in Hr.
      destruct (lookup_lt_is_Some_2 _ _ Hr) as [c Hc].
      rewrite Hc. cbn [default].
      pose proof (pick_Permutation front c rest r Hc) as Hpick.
      set (buffer2 := drop 1 (<[r := front]> (front :: rest))) in *.
      assert (length buffer2 = length rest) as Hlen2.
      { apply Permutation_length in Hpick. cbn in Hpick. lia. }
      pose proof (IH buffer2 (drop room input) g1 Hsize
                    ltac:(cbn in Hlen1; lia) ltac:(cbn in Hsum; lia)) as Hrec.
      destruct (TFData.shuffle_elements fuel size buffer2 (drop room input) g1)
        as [out g2].
      cbn [fst] in *. rewrite Hrec, <- Hsame.
      exact (Permutation_app_tail (drop room input) Hpick).
Qed.

(** A buffer of one element leaves the order of the input unchanged,
    whatever is drawn. *)
Lemma shuffle_elements_unbuffered fuel : forall input g,
  length input <= fuel ->
  (TFData.shuffle_elements fuel 1 [] input g).1 = input.
Proof.
  induction fuel as [| fuel IH]; intros input g Hfuel.
  - by destruct input; [| cbn in Hfuel; lia].
  - destruct input as [| a t]; [done |].
    cbn [TFData.shuffle_elements].
    change (1 - length (@nil A)) with 1.
    change ([] ++ take 1 (a :: t)) with [a].
    change (drop 1 (a :: t)) with t. cbn [length].
    pose proof (randbelow_lt 1 g ltac:(lia)) as Hr.
    destruct (randbelow 1 g) as [r g1]. cbn [fst] in Hr.
    replace r with 0 by lia. cbn [lookup list_lookup default].
    change (drop 1 (<[0 := a]> [a])) with (@nil A).
    pose proof (IH t g1 ltac:(cbn in Hfuel; lia)) as Hrec.
    destruct (TFData.shuffle_elements fuel 1 [] t g1) as [out g2].
    cbn [fst] in *. by f_equal.
Qed.

(** With the buffer spanning the whole input, the first draw decides which
    element is emitted first. *)
Lemma shuffle_elements_first fuel size input r d :
  length input <= size -> r < length input ->
  (TFData.shuffle_elements (S fuel) size [] input (r :: d)).1 !! 0
  = input !! r.
Proof.
  intros Hsize Hr. cbn [TFData.shuffle_elements length app].
  rewrite Nat.sub_0_r, take_ge by done.
  destruct input as [| front rest]; [cbn in Hr; lia |].
  rewrite randbelow_cons by done.
  destruct (lookup_lt_is_Some_2 _ _ Hr) as [c Hc]. rewrite Hc.
  destruct (TFData.shuffle_elements fuel size _ _ d) as [out g2].
  done.
Qed.

End ShuffleBuffer.

(* ===================================================================== *)
(** ** The library-backed loader, spelled out *)
(* ===================================================================== *)

Lemma groups_chunk_sizes {A} (fuel n : nat) : forall l : list A,
  length <$> TFData.groups fuel n l = chunk_sizes fuel n (length l).
Proof.
  induction fuel as [| fuel IH]; intros l; [done |].
  destruct l as [| a l']; [done |].
  cbn [TFData.groups chunk_sizes length fmap list_fmap].
  rewrite IH, length_take, length_drop. done.
Qed.

Lemma batch_len_stack (spec : nat * nat) (group : list TFData.example) :
  batch_len (TFData.stack spec group) = length group.
Proof. unfold batch_len, nrows. cbn. apply length_fmap. Qed.

Lemma split_rows_slice (self : SyntheticRegressionData) (train : bool)
    (a : matrix) :
  0 <= num_train self ->
  rows (getitem_slice a (if train then (0, Some (num_train self))
                         else (num_train self, None)))
  = split_rows self train a.
Proof.
  intros Hnt. unfold split_rows. destruct train; cbn [getitem_slice rows].
  - by apply getslice_prefix.
  - by apply getslice_suffix.
Qed.

Lemma length_split_rows (self : SyntheticRegressionData) (train : bool)
    (a : matrix) :
  0 <= num_train self -> 0 <= num_val self ->
  Z.of_nat (nrows a) = num_train self + num_val self ->
  length (split_rows self train a)
  = Z.to_nat (if train then num_train self else num_val self).
Proof.
  intros Hnt Hnv Hrows. unfold split_rows, nrows in *.
  destruct train; [rewrite length_take | rewrite length_drop]; lia.
Qed.

Lemma length_split_examples (self : SyntheticRegressionData) (train : bool) :
  well_formed self ->
  length (split_examples self train)
  = Z.to_nat (if train then num_train self else num_val self).
Proof.
  intros (Hnt & Hnv & HX & Hy). unfold split_examples.
  rewrite length_zip, !length_split_rows by (done || by rewrite Hy).
  lia.
Qed.

(** The dataset that the library-backed [get_dataloader] returns: its
    length, and what a pass over it yields. *)
Lemma concise_pass (self : SyntheticRegressionData) (train : bool) :
  well_formed self -> 1 <= batch_size self ->
  (train = false \/ 1 <= num_train self) ->
  exists ds : TFData.Dataset batch,
    Concise.get_dataloader self train = Ok ds /\
    TFData.len ds
    = ceil_div (if train then num_train self else num_val self)
        (batch_size self) /\
    forall g : rng,
      let examples := split_examples self train in
      let buffer := if train then length examples else 1%nat in
      let out := (TFData.shuffle_elements (length examples) buffer []
                    examples g).1 in
      (TFData.iterate ds g).1
      = TFData.stack (ncols (X self), ncols (y self))
          <$> TFData.groups (length out) (Z.to_nat (batch_size self)) out.
Proof.
  intros Hwf Hbs Hne.
  pose proof (length_split_examples self train Hwf) as Hlen.
  destruct Hwf as (Hnt & Hnv & HX & Hy).
  unfold Concise.get_dataloader, Concise.get_tensorloader,
    TFData.from_tensor_slices, split_examples in *.
  cbn [fst snd]. unfold nrows at 1 2.
  rewrite !split_rows_slice by done.
  assert (length (split_rows self train (X self))
          = length (split_rows self train (y self))) as Hsame
    by (rewrite !length_split_rows by (done || by rewrite Hy); done).
  rewrite Hsame, Nat.eqb_refl. cbn [bind].
  unfold TFData.shuffle. cbn [TFData.cardinality TFData.element_spec
    TFData.iterate].
  unfold nrows at 1. rewrite split_rows_slice by done.
  rewrite length_zip, <- Hsame, Nat.min_id in Hlen.
  set (buffer := if train then
                   Z.of_nat (length (split_rows self train (X self)))
                 else 1).
  assert (0 < buffer) as Hbuf.
  { subst buffer. destruct train; [| lia].
    destruct Hne as [? | ?]; [done | lia]. }
  destruct (Z.leb_spec buffer 0) as [? | _]; [lia |]. cbn [bind].
  unfold TFData.batch. cbn [TFData.cardinality TFData.element_spec
    TFData.iterate].
  destruct (Z.leb_spec (batch_size self) 0) as [? | _]; [lia |]. cbn [bind].
  eexists. split; [reflexivity |]. split.
  - unfold TFData.len, TFData.as_numpy. cbn [TFData.cardinality].
    unfold nrows. rewrite split_rows_slice by done.
    rewrite tf_cardinality_ceil by lia. f_equal.
    rewrite Hlen. destruct train; lia.
  - intros g. unfold TFData.as_numpy.
    cbn [TFData.iterate getitem_slice ncols].
    rewrite length_zip, <- Hsame, Nat.min_id.
    unfold nrows. rewrite split_rows_slice by done.
    replace (Z.to_nat _)
      with (if train then length (split_rows self train (X self)) else 1%nat)
      by (destruct train; lia).
    destruct (TFData.shuffle_elements _ _ _ _ g) as [out g1]. done.
Qed.

(* ===================================================================== *)
(** ** Batch counts and batch sizes *)
(* ===================================================================== *)

Lemma length_chunk_sizes (n len : nat) :
  (0 < n)%nat ->
  Z.of_nat (length (chunk_sizes len n len))
  = ceil_div (Z.of_nat len) (Z.of_nat n).
Proof.
  intros Hn.
  pose proof (groups_chunk_sizes len n (replicate len tt)) as Hsizes.
  rewrite length_replicate in Hsizes. rewrite <- Hsizes, length_fmap.
  rewrite <- (length_replicate len tt) at 1 3.
  apply groups_length; [done |]. by rewrite length_replicate.
Qed.

Lemma manual_batch_sizes_eq (self : SyntheticRegressionData) (train : bool)
    (g : rng) :
  1 <= batch_size self ->
  let len := Z.to_nat (if train then num_train self else num_val self) in
  manual_batch_sizes self train g
  = Ok (chunk_sizes len (Z.to_nat (batch_size self)) len).
Proof.
  intros Hbs len.
  destruct (manual_pass self train g Hbs) as (indices & g' & _ & Hlen & Hrun).
  unfold manual_batch_sizes. rewrite Hrun. cbn [fst bind].
  rewrite batch_len_yielded_groups, groups_chunk_sizes, Hlen. done.
Qed.

Lemma concise_batch_sizes_eq (self : SyntheticRegressionData) (train : bool)
    (g : rng) :
  well_formed self -> 1 <= batch_size self ->
  (train = false \/ 1 <= num_train self) ->
  let len := Z.to_nat (if train then num_train self else num_val self) in
  concise_batch_sizes self train g
  = Ok (chunk_sizes len (Z.to_nat (batch_size self)) len).
Proof.
  intros Hwf Hbs Hne len.
  destruct (concise_pass self train Hwf Hbs Hne) as (ds & Hds & _ & Hiter).
  pose proof (length_split_examples self train Hwf) as Hlen.
  unfold concise_batch_sizes. rewrite Hds. cbn [bind].
  rewrite (Hiter g). clear Hiter.
  set (examples := split_examples self train) in *.
  set (buffer := if train then length examples else 1%nat).
  assert (1 <= buffer)%nat as Hbuf.
  { subst buffer. destruct train; [| done].
    destruct Hne as [? | ?]; [done | lia]. }
  pose proof (shuffle_elements_Permutation (length examples) buffer []
                examples g Hbuf ltac:(cbn; lia) ltac:(cbn; lia)) as Hperm.
  apply Permutation_length in Hperm. cbn [app] in Hperm.
  rewrite <- list_fmap_compose.
  erewrite list_fmap_ext; [| intros _ c _; apply batch_len_stack].
  rewrite groups_chunk_sizes, Hperm, Hlen. done.
Qed.

(** The batch counts where the loaders are built.  For a well-formed data
    module and [batch_size >= 1], a pass over a split of [L] examples
    yields [ceil(L / batch_size)] batches with either loader, and [len()]
    of the library-backed loader is that number, in validation mode and
    over a training split that is not empty (over an empty one the
    library-backed loader is not built: see
    [empty_training_split_is_refused]).  With
    [num_train = 1000] and [batch_size = 32] a training pass yields 32
    batches, 31 of size 32 and a last one of size 8; with [num_train = 10]
    and [batch_size = 4] it yields batches of sizes 4, 4 and 2. *)
Theorem batch_count_is_ceiling (self : SyntheticRegressionData)
    (train : bool) (g : rng) :
  well_formed self -> 1 <= batch_size self ->
  let L := if train then num_train self else num_val self in
  (exists sizes : list nat,
     manual_batch_sizes self train g = Ok sizes /\
     Z.of_nat (length sizes) = ceil_div L (batch_size self)) /\
  ((train = false \/ 1 <= num_train self) ->
   concise_len self train = Ok (ceil_div L (batch_size self)) /\
   exists sizes : list nat,
     concise_batch_sizes self train g = Ok sizes /\
     Z.of_nat (length sizes) = ceil_div L (batch_size self)) /\
  (num_train self = 1000 -> batch_size self = 32 ->
   ceil_div (num_train self) (batch_size self) = 32 /\
   manual_batch_sizes self true g = Ok (replicate 31 32%nat ++ [8%nat]) /\
   concise_batch_sizes self true g = Ok (replicate 31 32%nat ++ [8%nat]) /\
   concise_len self true = Ok 32) /\
  (num_train self = 10 -> batch_size self = 4 ->
   manual_batch_sizes self true g = Ok [4; 4; 2]%nat /\
   concise_batch_sizes self true g = Ok [4; 4; 2]%nat /\
   concise_len self true = Ok 3).
Proof.
  intros Hwf Hbs L.
  assert (0 <= L) as HL by (destruct Hwf as (? & ? & _); subst L;
                            destruct train; lia).
  assert (forall len : nat, Z.of_nat len = L ->
            Z.of_nat (length (chunk_sizes len (Z.to_nat (batch_size self)) len))
            = ceil_div L (batch_size self)) as Hcount.
  { intros len <-. rewrite length_chunk_sizes by lia. f_equal. lia. }
  assert (forall tr, (tr = false \/ 1 <= num_train self) ->
            concise_len self tr
            = Ok (ceil_div (if tr then num_train self else num_val self)
                    (batch_size self))) as Hlen.
  { intros tr Hne.
    destruct (concise_pass self tr Hwf Hbs Hne) as (ds & Hds & Hcard & _).
    unfold concise_len. rewrite Hds. cbn [bind]. by rewrite Hcard. }
  split; [| split; [| split]].
  - eexists. split; [by apply manual_batch_sizes_eq |].
    apply Hcount. subst L. lia.
  - intros Hne. split; [by apply Hlen |].
    eexists. split; [by apply concise_batch_sizes_eq |].
    apply Hcount. subst L. lia.
  - intros Hnt Hb.
    rewrite (manual_batch_sizes_eq self true g Hbs).
    rewrite (concise_batch_sizes_eq self true g Hwf Hbs) by (right; lia).
    rewrite (Hlen true) by (right; lia).
    rewrite Hnt, Hb. by vm_compute.
  - intros Hnt Hb.
    rewrite (manual_batch_sizes_eq self true g Hbs).
    rewrite (concise_batch_sizes_eq self true g Hwf Hbs) by (right; lia).
    rewrite (Hlen true) by (right; lia).
    rewrite Hnt, Hb. by vm_compute.
Qed.

(* ===================================================================== *)
(** ** Features and labels stay paired *)
(* ===================================================================== *)

Lemma groups_elem {A} (fuel n : nat) (l c : list A) (k j : nat) (a : A) :
  (0 < n)%nat -> (length l <= fuel)%nat ->
  TFData.groups fuel n l !! k = Some c -> c !! j = Some a -> a ∈ l.
Proof.
  intros Hn Hfuel Hc Ha. rewrite groups_lookup in Hc by done.
  case_decide; [| done]. injection Hc as <-.
  apply lookup_take_Some in Ha as [Ha _]. rewrite lookup_drop in Ha.
  by eapply list_elem_of_lookup_2.
Qed.

Lemma epoch_indices_bounds (self : SyntheticRegressionData) (train : bool)
    (g : rng) (i : Z) :
  i ∈ (Manual.epoch_indices self train g).1 ->
  (split_bounds self train).1 <= i < (split_bounds self train).2.
Proof.
  unfold Manual.epoch_indices, split_bounds. destruct train; cbn [fst snd].
  - rewrite shuffle_Permutation, range2_seqZ, elem_of_seqZ. lia.
  - rewrite range2_seqZ, elem_of_seqZ. lia.
Qed.

Lemma split_bounds_inside (self : SyntheticRegressionData) (train : bool)
    (i : Z) :
  well_formed self ->
  (split_bounds self train).1 <= i < (split_bounds self train).2 ->
  0 <= i < Z.of_nat (nrows (X self)) /\ 0 <= i < Z.of_nat (nrows (y self)).
Proof.
  intros (Hnt & Hnv & HX & Hy). rewrite Hy, HX.
  unfold split_bounds. destruct train; cbn [fst snd]; lia.
Qed.

Lemma manual_batch_paired (self : SyntheticRegressionData) (train : bool)
    (c : list Z) :
  well_formed self ->
  (forall i : Z, i ∈ c ->
     (split_bounds self train).1 <= i < (split_bounds self train).2) ->
  rows_paired self train (Manual.yielded self c).
Proof.
  intros Hwf Hc. split.
  - unfold Manual.yielded, nrows. cbn. by rewrite !length_fmap.
  - intros k xr yr Hx Hy. cbn [Manual.yielded fst snd] in Hx, Hy.
    destruct (c !! k) as [i |] eqn:Hk.
    2:{ cbn [getitem rows] in Hx. by rewrite list_lookup_fmap, Hk in Hx. }
    pose proof (Hc i (list_elem_of_lookup_2 _ _ _ Hk)) as Hb.
    destruct (split_bounds_inside self train i Hwf Hb) as [HiX Hiy].
    rewrite (getitem_lookup _ c k i HiX Hk) in Hx.
    rewrite (getitem_lookup _ c k i Hiy Hk) in Hy.
    exists (Z.to_nat i). rewrite Z2Nat.id by lia. done.
Qed.

Lemma split_examples_lookup (self : SyntheticRegressionData) (train : bool)
    (xr yr : list float32) :
  well_formed self -> (xr, yr) ∈ split_examples self train ->
  exists i : nat,
    (split_bounds self train).1 <= Z.of_nat i
      < (split_bounds self train).2 /\
    rows (X self) !! i = Some xr /\ rows (y self) !! i = Some yr.
Proof.
  intros (Hnt & Hnv & HX & Hy) Hin.
  apply list_elem_of_lookup_1 in Hin as [j Hj].
  unfold split_examples in Hj. apply lookup_zip_Some in Hj as [Hx Hyr].
  unfold split_rows, split_bounds in *. destruct train; cbn [fst snd].
  - apply lookup_take_Some in Hx as [Hx Hlt].
    apply lookup_take_Some in Hyr as [Hyr _].
    exists j. split; [lia | done].
  - rewrite lookup_drop in Hx, Hyr.
    exists (Z.to_nat (num_train self) + j)%nat. split; [| done].
    apply lookup_lt_Some in Hx. unfold nrows in HX. lia.
Qed.

Lemma stacked_group_paired (self : SyntheticRegressionData) (train : bool)
    (spec : nat * nat) (group : list TFData.example) :
  well_formed self ->
  (forall e, e ∈ group -> e ∈ split_examples self train) ->
  rows_paired self train (TFData.stack spec group).
Proof.
  intros Hwf Hgroup. split.
  - unfold TFData.stack, nrows. cbn. by rewrite !length_fmap.
  - intros k xr yr Hx Hy. cbn [TFData.stack fst snd rows] in Hx, Hy.
    apply list_lookup_fmap_Some_1 in Hx as ([xr' yr'] & -> & Hk).
    rewrite list_lookup_fmap, Hk in Hy. injection Hy as <-.
    apply (split_examples_lookup self train); [done |].
    apply Hgroup. by eapply list_elem_of_lookup_2.
Qed.

(** C10. For a well-formed data module and [batch_size >= 1], either
    loader yields only batches in which, at every position, the feature
    row and the label row are those of one and the same example of the
    split, in training and in validation mode. *)
Theorem loaders_keep_rows_paired (self : SyntheticRegressionData)
    (train : bool) (g : rng) :
  well_formed self -> 1 <= batch_size self ->
  (exists (bt : list batch) (g' : rng),
     Manual.get_dataloader self train g = (Ok bt, g') /\
     Forall (rows_paired self train) bt) /\
  ((train = false \/ 1 <= num_train self) ->
   exists ds : TFData.Dataset batch,
     Concise.get_dataloader self train = Ok ds /\
     Forall (rows_paired self train) (TFData.iterate ds g).1).
Proof.
  intros Hwf Hbs. split.
  - destruct (manual_pass self train g Hbs)
      as (indices & g' & Hidx & _ & Hrun).
    eexists _, g'. split; [exact Hrun |].
    apply Forall_fmap, Forall_lookup. intros k c Hc.
    apply manual_batch_paired; [done |].
    intros i Hi. apply list_elem_of_lookup_1 in Hi as [j Hj].
    apply (epoch_indices_bounds self train g). rewrite Hidx. cbn [fst].
    apply (groups_elem (length indices) (Z.to_nat (batch_size self))
             indices c k j i); [lia | lia | done | done].
  - intros Hne.
    destruct (concise_pass self train Hwf Hbs Hne) as (ds & Hds & _ & Hiter).
    exists ds. split; [done |]. rewrite (Hiter g). clear Hiter.
    set (examples := split_examples self train).
    set (buffer := if train then length examples else 1%nat).
    assert (1 <= buffer)%nat as Hbuf.
    { subst buffer. destruct train; [| done].
      pose proof (length_split_examples self true Hwf) as Hlen.
      fold examples in Hlen.
      destruct Hne as [? | ?]; [done | lia]. }
    pose proof (shuffle_elements_Permutation (length examples) buffer []
                  examples g Hbuf ltac:(cbn; lia) ltac:(cbn; lia)) as Hperm.
    cbn [app] in Hperm.
    set (out := (TFData.shuffle_elements _ _ _ _ g).1) in *.
    apply Forall_fmap, Forall_lookup. intros k group Hgroup.
    apply stacked_group_paired; [done |].
    intros e He. apply list_elem_of_lookup_1 in He as [j Hj].
    fold examples. rewrite <- Hperm.
    apply (groups_elem (length out) (Z.to_nat (batch_size self))
             out group k j e); [lia | lia | done | done].
Qed.

(* ===================================================================== *)
(** ** Shuffled training passes, ordered validation passes *)
(* ===================================================================== *)

Lemma yielded_feature_rows (self : SyntheticRegressionData)
    (chunks : list (list Z)) :
  concat ((fun bt : batch => rows bt.1) <$> (Manual.yielded self <$> chunks))
  = row_at (X self) <$> concat chunks.
Proof.
  induction chunks as [| c chunks IH]; [done |].
  cbn [fmap list_fmap concat]. rewrite fmap_app, <- IH. done.
Qed.

Lemma yielded_label_rows (self : SyntheticRegressionData)
    (chunks : list (list Z)) :
  concat ((fun bt : batch => rows bt.2) <$> (Manual.yielded self <$> chunks))
  = row_at (y self) <$> concat chunks.
Proof.
  induction chunks as [| c chunks IH]; [done |].
  cbn [fmap list_fmap concat]. rewrite fmap_app, <- IH. done.
Qed.

Lemma stacked_rows (spec : nat * nat) (gs : list (list TFData.example)) :
  zip (concat ((fun bt : batch => rows bt.1) <$> (TFData.stack spec <$> gs)))
      (concat ((fun bt : batch => rows bt.2) <$> (TFData.stack spec <$> gs)))
  = concat gs.
Proof.
  induction gs as [| grp gs IH]; [done |].
  cbn [fmap list_fmap concat TFData.stack fst snd rows].
  rewrite zip_with_app by (by rewrite !length_fmap).
  rewrite zip_fst_snd. by f_equal.
Qed.

Lemma row_at_lookup (a : matrix) (i : nat) (r : list float32) :
  rows a !! i = Some r -> row_at a (Z.of_nat i) = r.
Proof.
  intros Hr. pose proof (lookup_lt_Some _ _ _ Hr) as Hlt.
  unfold row_at, axis_index, nrows.
  destruct (Z.ltb_spec (Z.of_nat i) 0) as [? | _]; [lia |].
  rewrite Z.min_l, Z.max_r, Nat2Z.id by lia. by rewrite Hr.
Qed.

Lemma split_examples_train_lookup (self : SyntheticRegressionData)
    (i : nat) (e : TFData.example) :
  split_examples self true !! i = Some e ->
  rows (X self) !! i = Some e.1 /\ rows (y self) !! i = Some e.2 /\
  (i < Z.to_nat (num_train self))%nat.
Proof.
  destruct e as [xr yr]. unfold split_examples, split_rows.
  intros [Hx Hy]%lookup_zip_Some.
  apply lookup_take_Some in Hx as [Hx Hlt].
  apply lookup_take_Some in Hy as [Hy _]. done.
Qed.

(** Some two tapes make the hand-written loader visit the training
    examples in different orders, and yield different batches, as soon as
    the training split holds two different examples. *)
Lemma manual_order_varies (self : SyntheticRegressionData) (i j : nat)
    (ei ej : TFData.example) :
  1 <= batch_size self ->
  split_examples self true !! i = Some ei ->
  split_examples self true !! j = Some ej -> ei ≠ ej ->
  exists g1 g2 : rng,
    (Manual.epoch_indices self true g1).1
      ≠ (Manual.epoch_indices self true g2).1 /\
    (Manual.get_dataloader self true g1).1
      ≠ (Manual.get_dataloader self true g2).1.
Proof.
  intros Hbs Hi Hj Hne.
  apply split_examples_train_lookup in Hi as (HiX & Hiy & Hilt).
  apply split_examples_train_lookup in Hj as (HjX & Hjy & Hjlt).
  set (x := seqZ 0 (num_train self)).
  assert (length x = Z.to_nat (num_train self)) as Hlen
    by apply length_seqZ.
  assert (x !! i = Some (Z.of_nat i)) as Hxi
    by (unfold x; rewrite lookup_seqZ_lt by lia; f_equal; lia).
  assert (x !! j = Some (Z.of_nat j)) as Hxj
    by (unfold x; rewrite lookup_seqZ_lt by lia; f_equal; lia).
  assert (swap x i j !! i = Some (Z.of_nat j)) as Hsw
    by (rewrite swap_lookup_l by lia; done).
  destruct (shuffle_bijective x x (NoDup_seqZ _ _) (reflexivity _))
    as (d1 & _ & H1 & _).
  destruct (shuffle_bijective x (swap x i j) (NoDup_seqZ _ _)
              (swap_Permutation x i j)) as (d2 & _ & H2 & _).
  assert (forall d, (Manual.epoch_indices self true d).1 = (shuffle x d).1)
    as Hepoch.
  { intros d. unfold Manual.epoch_indices. rewrite range2_seqZ.
    unfold x. do 3 f_equal. lia. }
  assert (forall d p, (shuffle x d).1 = p ->
            exists g', Manual.get_dataloader self true d
              = (Ok (Manual.yielded self
                       <$> TFData.groups (length p)
                             (Z.to_nat (batch_size self)) p), g')) as Hrun.
  { intros d p Hp.
    destruct (manual_pass self true d Hbs) as (idx & g' & Hidx & _ & Hload).
    exists g'. rewrite Hload. do 4 f_equal;
      rewrite <- Hp, <- Hepoch, Hidx; done. }
  destruct (Hrun d1 x H1) as [g1' Hrun1].
  destruct (Hrun d2 (swap x i j) H2) as [g2' Hrun2].
  exists d1, d2. split.
  - rewrite !Hepoch, H1, H2. intros Heq.
    rewrite <- Heq, Hxi in Hsw. injection Hsw as Hsw.
    apply Nat2Z.inj in Hsw. subst j. apply Hne.
    destruct ei, ej; cbn in *. congruence.
  - rewrite Hrun1, Hrun2. cbn [fst]. intros Heq. injection Heq as Heq.
    pose proof (f_equal (fun bts => concat ((fun bt : batch => rows bt.1)
                                              <$> bts)) Heq) as HX.
    pose proof (f_equal (fun bts => concat ((fun bt : batch => rows bt.2)
                                              <$> bts)) Heq) as Hy.
    cbn beta in HX, Hy.
    rewrite !yielded_feature_rows, !groups_concat in HX by lia.
    rewrite !yielded_label_rows, !groups_concat in Hy by lia.
    pose proof (f_equal (fun l => l !! i) HX) as HXi.
    pose proof (f_equal (fun l => l !! i) Hy) as Hyi.
    cbn beta in HXi, Hyi.
    rewrite !list_lookup_fmap, Hxi, Hsw in HXi, Hyi. cbn in HXi, Hyi.
    rewrite (row_at_lookup _ _ _ HiX), (row_at_lookup _ _ _ HjX) in HXi.
    rewrite (row_at_lookup _ _ _ Hiy), (row_at_lookup _ _ _ Hjy) in Hyi.
    apply Hne. destruct ei, ej; cbn in *. congruence.
Qed.

(** The same for the library-backed loader: with the buffer spanning the
    training split, the first draw decides which example comes first. *)
Lemma concise_order_varies (self : SyntheticRegressionData) (i j : nat)
    (ei ej : TFData.example) :
  well_formed self -> 1 <= batch_size self ->
  split_examples self true !! i = Some ei ->
  split_examples self true !! j = Some ej -> ei ≠ ej ->
  exists ds : TFData.Dataset batch,
    Concise.get_dataloader self true = Ok ds /\
    exists g1 g2 : rng, (TFData.iterate ds g1).1 ≠ (TFData.iterate ds g2).1.
Proof.
  intros Hwf Hbs Hi Hj Hne.
  pose proof (length_split_examples self true Hwf) as Hlen.
  pose proof (lookup_lt_Some _ _ _ Hi) as Hilt.
  pose proof (lookup_lt_Some _ _ _ Hj) as Hjlt.
  destruct (concise_pass self true Hwf Hbs ltac:(right; lia))
    as (ds & Hds & _ & Hiter).
  exists ds. split; [done |]. exists [i], [j].
  rewrite !Hiter. clear Hiter.
  set (examples := split_examples self true) in *.
  destruct (length examples) as [| fuel] eqn:Hfuel; [lia |].
  pose proof (shuffle_elements_first fuel (S fuel) examples i []
                ltac:(lia) ltac:(lia)) as Hfirst1.
  pose proof (shuffle_elements_first fuel (S fuel) examples j []
                ltac:(lia) ltac:(lia)) as Hfirst2.
  set (out1 := (TFData.shuffle_elements (S fuel) (S fuel) [] examples [i]).1)
    in *.
  set (out2 := (TFData.shuffle_elements (S fuel) (S fuel) [] examples [j]).1)
    in *.
  intros Heq.
  pose proof (f_equal (fun bts =>
                zip (concat ((fun bt : batch => rows bt.1) <$> bts))
                    (concat ((fun bt : batch => rows bt.2) <$> bts))) Heq)
    as Hrows.
  cbn beta in Hrows. rewrite !stacked_rows, !groups_concat in Hrows by lia.
  rewrite Hrows, Hfirst2, Hj in Hfirst1. rewrite Hi in Hfirst1.
  by injection Hfirst1.
Qed.

Lemma manual_validation_fixed (self : SyntheticRegressionData) (g : rng) :
  1 <= batch_size self ->
  Manual.get_dataloader self false g
  = (Ok (Manual.yielded self
           <$> TFData.groups (Z.to_nat (num_val self))
                 (Z.to_nat (batch_size self))
                 (seqZ (num_train self) (num_val self))), g).
Proof.
  intros Hbs.
  rewrite (loader_of_indices self false g g
             (seqZ (num_train self) (num_val self)) Hbs).
  - by rewrite length_seqZ.
  - unfold Manual.epoch_indices. rewrite range2_seqZ. do 2 f_equal. lia.
Qed.

Lemma concise_validation_fixed (self : SyntheticRegressionData) :
  well_formed self -> 1 <= batch_size self ->
  exists ds : TFData.Dataset batch,
    Concise.get_dataloader self false = Ok ds /\
    forall g : rng,
      (TFData.iterate ds g).1
      = TFData.stack (ncols (X self), ncols (y self))
          <$> TFData.groups (length (split_examples self false))
                (Z.to_nat (batch_size self)) (split_examples self false).
Proof.
  intros Hwf Hbs.
  destruct (concise_pass self false Hwf Hbs ltac:(by left))
    as (ds & Hds & _ & Hiter).
  exists ds. split; [done |]. intros g. rewrite (Hiter g).
  by rewrite shuffle_elements_unbuffered.
Qed.

(** C5. For a well-formed data module and [batch_size >= 1]: as soon as
    the training split holds two different examples, there are two
    generator states (seeds) for which a training pass visits the examples
    in different orders and yields different batches, with either loader;
    a validation pass yields the same batches whatever the generator
    state, with either loader, and the hand-written one draws nothing.
    In the library-backed loader the examples go through a shuffle buffer
    whose size is the length of the split in training mode and 1 in
    validation mode. *)
Theorem shuffle_in_training_only (self : SyntheticRegressionData) :
  well_formed self -> 1 <= batch_size self ->
  (forall (i j : nat) (ei ej : TFData.example),
     split_examples self true !! i = Some ei ->
     split_examples self true !! j = Some ej -> ei ≠ ej ->
     (exists g1 g2 : rng,
        (Manual.epoch_indices self true g1).1
          ≠ (Manual.epoch_indices self true g2).1 /\
        (Manual.get_dataloader self true g1).1
          ≠ (Manual.get_dataloader self true g2).1) /\
     (exists ds : TFData.Dataset batch,
        Concise.get_dataloader self true = Ok ds /\
        exists g1 g2 : rng,
          (TFData.iterate ds g1).1 ≠ (TFData.iterate ds g2).1)) /\
  (forall g1 g2 : rng,
     (Manual.get_dataloader self false g1).1
       = (Manual.get_dataloader self false g2).1 /\
     (Manual.get_dataloader self false g1).2 = g1) /\
  (exists ds : TFData.Dataset batch,
     Concise.get_dataloader self false = Ok ds /\
     forall g1 g2 : rng,
       (TFData.iterate ds g1).1 = (TFData.iterate ds g2).1) /\
  (forall train : bool, train = false \/ 1 <= num_train self ->
     exists ds : TFData.Dataset batch,
       Concise.get_dataloader self train = Ok ds /\
       forall g : rng,
         let examples := split_examples self train in
         let buffer := if train then length examples else 1%nat in
         let out := (TFData.shuffle_elements (length examples) buffer []
                       examples g).1 in
         (TFData.iterate ds g).1
         = TFData.stack (ncols (X self), ncols (y self))
             <$> TFData.groups (length out) (Z.to_nat (batch_size self)) out).
Proof.
  intros Hwf Hbs. split; [| split; [| split]].
  - intros i j ei ej Hi Hj Hne. split.
    + by apply (manual_order_varies self i j ei ej).
    + by apply (concise_order_varies self i j ei ej).
  - intros g1 g2. by rewrite !manual_validation_fixed.
  - destruct (concise_validation_fixed self Hwf Hbs) as (ds & Hds & Hiter).
    exists ds. split; [done |]. intros g1 g2. by rewrite !Hiter.
  - intros train Hne.
    destruct (concise_pass self train Hwf Hbs Hne) as (ds & Hds & _ & Hiter).
    by exists ds.
Qed.

(* ===================================================================== *)
(** ** The generator *)
(* ===================================================================== *)

Lemma same_number_trans (u v t : float32) :
  same_number u v -> same_number v t -> same_number u t.
Proof.
  intros [-> | (s1 & s2 & -> & ->)] [<- | (s3 & s4 & Hv & ->)].
  - by left.
  - right. destruct v; try done. eauto.
  - right. eauto.
  - right. eauto.
Qed.

(** Addition does not tell the zeros apart in its first argument. *)
Lemma f32_add_same_number_l (u u' v : float32) :
  same_number u u' -> same_number (f32_add u v) (f32_add u' v).
Proof.
  intros [-> | (s & t & -> & ->)]; [by left |].
  destruct v as [sv | sv | | sv m e].
  - right. destruct s, t, sv; cbn; eauto.
  - by left.
  - by left.
  - by left.
Qed.

Lemma f32_add_zero_r (v : float32) (s : bool) :
  same_number (f32_add v (S754_zero s)) v.
Proof.
  destruct v as [sv | sv | | sv m e].
  - right. destruct sv, s; cbn; eauto.
  - left. done.
  - left. done.
  - left. done.
Qed.

Lemma f32_mul_zero_r (v : float32) (s : bool) :
  finite32 v = true -> exists t : bool, f32_mul v (S754_zero s) = S754_zero t.
Proof. destruct v; cbn; intros Hv; try done; eauto. Qed.

Lemma column_reshape_column (a : ndarray) :
  column 0 (reshape_column a) = data a.
Proof.
  unfold column, reshape_column. cbn [rows].
  induction (data a) as [| v l IH]; [done |]. cbn. by f_equal.
Qed.

Lemma matmul_column `{MatmulArithmetic} (a : matrix) (c : ndarray) :
  ncols a = length (data c) ->
  matmul a (reshape_column c)
  = Ok {| ncols := 1;
          rows := (fun r => [dot r (data c)]) <$> rows a |}.
Proof.
  intros Hdim. unfold matmul, nrows.
  cbn [reshape_column rows ncols]. rewrite length_fmap, Hdim, Nat.eqb_refl.
  do 2 f_equal. apply list_fmap_ext. intros _ r _. cbn.
  do 2 f_equal. apply (column_reshape_column c).
Qed.

Lemma matmul_mismatch `{MatmulArithmetic} (a : matrix) (c : ndarray) :
  ncols a ≠ length (data c) ->
  matmul a (reshape_column c) = Raise ContractionMismatch.
Proof.
  intros Hdim. unfold matmul, nrows.
  cbn [reshape_column rows ncols]. rewrite length_fmap.
  by destruct (Nat.eqb_spec (ncols a) (length (data c))).
Qed.

Section Generator.
Context (J : JaxRandom) (Hsampler : sampler_well_behaved J)
  (L : MatmulArithmetic).
Implicit Types (w : ndarray) (b noise : float32) (d : nat).

(** A construction that passes the shape checks, spelled out. *)
Lemma init_ok w b noise (num_train num_val batch_size : Z) d :
  len w = Some d -> length (data w) = d ->
  0 <= num_train + num_val ->
  let n := Z.to_nat (num_train + num_val) in
  __init__ w b noise num_train num_val batch_size
  = Ok {| w := w; b := b; noise := noise;
          num_train := num_train; num_val := num_val;
          batch_size := batch_size;
          X := normal (split (PRNGKey 0)).1 n d;
          y := add (add_scalar
                      {| ncols := 1;
                         rows := (fun r => [dot r (data w)])
                                   <$> rows (normal (split (PRNGKey 0)).1
                                               n d) |} b)
                   (mul_scalar (normal (split (PRNGKey 0)).2 n 1) noise) |}.
Proof.
  intros Hlen Hdata Hn n. unfold __init__, shape0, random_normal, len in *.
  destruct (split (PRNGKey 0)) as [k1 k2]. cbn [fst snd].
  destruct (shape w) as [| d0 rest]; [done |]. injection Hlen as ->.
  cbn [bind]. destruct (Z.ltb_spec (num_train + num_val) 0) as [? | _];
    [lia |].
  cbn [bind]. rewrite matmul_column; [done |].
  rewrite Hdata. apply Hsampler.
Qed.

(** A construction whose weights do not fit the feature width raises. *)
Lemma init_mismatch w b noise (num_train num_val batch_size : Z) d :
  len w = Some d -> length (data w) ≠ d ->
  0 <= num_train + num_val ->
  __init__ w b noise num_train num_val batch_size
  = Raise ContractionMismatch.
Proof.
  intros Hlen Hdata Hn. unfold __init__, shape0, random_normal, len in *.
  destruct (split (PRNGKey 0)) as [k1 k2].
  destruct (shape w) as [| d0 rest]; [done |]. injection Hlen as ->.
  cbn [bind]. destruct (Z.ltb_spec (num_train + num_val) 0) as [? | _];
    [lia |].
  cbn [bind]. rewrite matmul_mismatch; [done |].
  destruct (Hsampler k1 (Z.to_nat (num_train + num_val)) d) as (Hcols & _).
  by rewrite Hcols.
Qed.

End Generator.

Section GeneratorClaims.
Context (J : JaxRandom) (Hsampler : sampler_well_behaved J)
  (L : MatmulArithmetic) (Hmatmul : matmul_well_behaved L).
Implicit Types (w : ndarray) (b noise : float32) (d : nat).

(** C8. For a weight array [w] whose entries fit its length [len(w)] and
    for non-negative counts, construction succeeds and the generated
    arrays satisfy [len(X) == len(y) == ntrain + nval], [X] has
    [len(w)] columns (as its shape says, and as each of its rows is that
    long), and the object keeps the counts it was given. *)
Theorem generated_shapes w b noise (ntrain nval bsize : Z) d :
  len w = Some d -> length (data w) = d ->
  0 <= ntrain -> 0 <= nval ->
  exists self : SyntheticRegressionData,
    __init__ w b noise ntrain nval bsize = Ok self /\
    Z.of_nat (nrows (X self)) = ntrain + nval /\
    Z.of_nat (nrows (y self)) = ntrain + nval /\
    ncols (X self) = d /\
    Forall (fun r : list float32 => length r = d) (rows (X self)) /\
    num_train self = ntrain /\
    num_val self = nval /\
    well_formed self.
Proof.
  intros Hlen Hdata Hnt Hnv.
  eexists. split; [by apply init_ok; [| | | lia] |].
  set (n := Z.to_nat (ntrain + nval)).
  destruct (Hsampler (split (PRNGKey 0)).1 n d) as (HXc & HXr & HXrows).
  destruct (Hsampler (split (PRNGKey 0)).2 n 1%nat) as (_ & Her & _).
  assert (nrows (add (add_scalar
                        {| ncols := 1;
                           rows := (fun r => [dot r (data w)])
                                     <$> rows (normal (split (PRNGKey 0)).1
                                                 n d) |} b)
                     (mul_scalar (normal (split (PRNGKey 0)).2 n 1) noise))
          = n) as Hyr.
  { unfold nrows, add, add_scalar, mul_scalar in *. cbn [rows].
    rewrite length_zip_with, !length_fmap. lia. }
  unfold well_formed. cbn [X y num_train num_val].
  rewrite HXr, Hyr.
  assert (Z.of_nat n = ntrain + nval) as Hn by lia.
  repeat split; try done.
  eapply Forall_impl; [| exact HXrows]. by intros r [? _].
Qed.

(** C7. For a weight array [w] whose entries fit its length and for
    non-negative counts: with a noise standard deviation of zero,
    construction succeeds and every label is the same number as
    [X_i . w + b], where [X_i . w] is the inner product of the feature row
    with the weights as [jnp.matmul] computes it, and [+ b] one [float32]
    addition; the noise term contributes nothing.  Where the arithmetic
    is exact (a feature row and weights that hold small integers), the
    label is therefore the sum of the products [x_j * w_j], plus [b]. *)
Theorem noiseless_labels_exact w b (s : bool)
    (ntrain nval bsize : Z) d :
  len w = Some d -> length (data w) = d ->
  0 <= ntrain -> 0 <= nval ->
  exists self : SyntheticRegressionData,
    __init__ w b (S754_zero s) ntrain nval bsize = Ok self /\
    Z.of_nat (nrows (y self)) = ntrain + nval /\
    forall (i : nat) (xr : list float32),
      rows (X self) !! i = Some xr ->
      exists v : float32,
        rows (y self) !! i = Some [v] /\
        same_number v (f32_add (dot xr (data w)) b) /\
        forall zs ws : list Z,
          xr = int_row zs -> data w = int_row ws ->
          small_integers zs -> small_integers ws ->
          (length zs <= 16)%nat ->
          same_number v (f32_add (f32_of_Z (inner_product zs ws)) b).
Proof.
  intros Hlen Hdata Hnt Hnv.
  eexists. split.
  { apply (init_ok J Hsampler L w b (S754_zero s) ntrain nval bsize d);
      [done | done | lia]. }
  set (n := Z.to_nat (ntrain + nval)) in *.
  destruct (Hsampler (split (PRNGKey 0)).1 n d) as (_ & HXr & HXrows).
  destruct (Hsampler (split (PRNGKey 0)).2 n 1%nat) as (_ & Her & Herows).
  cbn [X y]. split.
  { unfold nrows, add, add_scalar, mul_scalar in *. cbn [rows].
    rewrite length_zip_with, !length_fmap. lia. }
  intros i xr Hxr.
  pose proof (lookup_lt_Some _ _ _ Hxr) as Hi. unfold nrows in *.
  destruct (lookup_lt_is_Some_2 (rows (normal (split (PRNGKey 0)).2 n 1)) i
              ltac:(lia)) as [er Her_i].
  destruct (Forall_lookup_1 _ _ _ _ Herows Her_i) as [Hlen1 Hfin].
  destruct (Forall_lookup_1 _ _ _ _ HXrows Hxr) as [Hwidth _].
  destruct er as [| e [| ? ?]]; try discriminate Hlen1.
  apply Forall_inv in Hfin.
  destruct (f32_mul_zero_r e s Hfin) as [t Ht].
  assert (same_number
            (f32_add (f32_add (dot xr (data w)) b) (S754_zero t))
            (f32_add (dot xr (data w)) b)) as Hsame
    by apply f32_add_zero_r.
  eexists. split; [| split].
  - unfold add, add_scalar, mul_scalar. cbn [rows].
    rewrite lookup_zip_with, !list_lookup_fmap, Hxr, Her_i. cbn.
    rewrite Ht. reflexivity.
  - exact Hsame.
  - intros zs ws Hzs Hws Hsmall_zs Hsmall_ws Hshort.
    apply (same_number_trans _ _ _ Hsame).
    apply f32_add_same_number_l. rewrite Hzs, Hws.
    apply Hmatmul; [| done | done | done].
    rewrite <- (length_fmap f32_of_Z zs), <- (length_fmap f32_of_Z ws).
    fold (int_row zs) (int_row ws). rewrite <- Hzs, <- Hws. lia.
Qed.

(** C2, as the code has it.  The constructor takes no seed: it always
    draws from [PRNGKey(0)].  For a weight array [w] whose entries fit its
    length and for non-negative counts, construction succeeds, [X] is the
    sample of the first key split off [PRNGKey(0)], the noise is the
    sample of the second, and so every construction with the same
    arguments yields the same [X] and the same [y]. *)
Theorem construction_draws_from_key_zero w b noise
    (ntrain nval bsize : Z) d :
  len w = Some d -> length (data w) = d ->
  0 <= ntrain -> 0 <= nval ->
  exists self : SyntheticRegressionData,
    __init__ w b noise ntrain nval bsize = Ok self /\
    X self = normal (split (PRNGKey 0)).1
               (Z.to_nat (ntrain + nval)) d /\
    y self = add (add_scalar
                    {| ncols := 1;
                       rows := (fun r => [dot r (data w)])
                                 <$> rows (X self) |} b)
                 (mul_scalar
                    (normal (split (PRNGKey 0)).2
                       (Z.to_nat (ntrain + nval)) 1) noise) /\
    forall again : SyntheticRegressionData,
      __init__ w b noise ntrain nval bsize = Ok again ->
      X again = X self /\ y again = y self.
Proof.
  intros Hlen Hdata Hnt Hnv.
  eexists. split; [by apply init_ok; [| | | lia] |].
  cbn [X y]. split; [done |]. split; [done |].
  intros again Hagain.
  rewrite (init_ok J Hsampler L w b noise ntrain nval bsize d)
    in Hagain by (done || lia).
  by injection Hagain as <-.
Qed.

End GeneratorClaims.

(* ===================================================================== *)
(** ** The claims at concrete inputs *)
(* ===================================================================== *)

Lemma f32_of_Z_finite (z : Z) :
  -3 <= z <= 3 -> finite32 (f32_of_Z z) = true.
Proof.
  intros Hz.
  assert (z = -3 \/ z = -2 \/ z = -1 \/ z = 0 \/ z = 1 \/ z = 2 \/ z = 3)
    as Hcases by lia.
  destruct Hcases as [-> | [-> | [-> | [-> | [-> | [-> | ->]]]]]];
    reflexivity.
Qed.

Lemma same_numberb_true (u v : float32) :
  same_numberb u v = true -> same_number u v.
Proof.
  destruct u as [s | s | | s m e], v as [t | t | | t n f]; cbn; try done.
  - intros _. right. eauto.
  - intros ->%Bool.eqb_prop. by left.
  - by left.
  - intros [[->%Bool.eqb_prop ->%Pos.eqb_eq]%andb_prop ->%Z.eqb_eq]%andb_prop.
    by left.
Qed.

Lemma variants_spec (u : float32) (z : Z) :
  same_number u (f32_of_Z z) -> In u (variants z).
Proof.
  intros [-> | (s & t & -> & Ht)]; [by left |].
  right. rewrite Ht. cbn. destruct s; auto.
Qed.

Lemma In_seqZ (lo len z : Z) : lo <= z < lo + len -> In z (seqZ lo len).
Proof. intros Hz. apply list_elem_of_In, elem_of_seqZ. lia. Qed.

Lemma f32_mul_small (z w : Z) :
  -4 <= z <= 4 -> -4 <= w <= 4 ->
  same_number (f32_mul (f32_of_Z z) (f32_of_Z w)) (f32_of_Z (z * w)).
Proof.
  intros Hz Hw. apply same_numberb_true.
  assert (mul_check = true) as Hcheck by (vm_compute; reflexivity).
  unfold mul_check in Hcheck. rewrite forallb_forall in Hcheck.
  specialize (Hcheck z (In_seqZ (-4) 9 z ltac:(lia))).
  rewrite forallb_forall in Hcheck.
  exact (Hcheck w (In_seqZ (-4) 9 w ltac:(lia))).
Qed.

Lemma f32_add_small (s p : Z) (acc q : float32) :
  -256 <= s <= 256 -> -16 <= p <= 16 ->
  same_number acc (f32_of_Z s) -> same_number q (f32_of_Z p) ->
  same_number (f32_add acc q) (f32_of_Z (s + p)).
Proof.
  intros Hs Hp Hacc Hq. apply same_numberb_true.
  assert (add_check = true) as Hcheck by (vm_compute; reflexivity).
  unfold add_check in Hcheck. rewrite forallb_forall in Hcheck.
  specialize (Hcheck s (In_seqZ (-256) 513 s ltac:(lia))).
  rewrite forallb_forall in Hcheck.
  specialize (Hcheck p (In_seqZ (-16) 33 p ltac:(lia))).
  rewrite forallb_forall in Hcheck.
  specialize (Hcheck acc (variants_spec _ _ Hacc)).
  rewrite forallb_forall in Hcheck.
  exact (Hcheck q (variants_spec _ _ Hq)).
Qed.

(** The sequential arithmetic started from an accumulator that holds the
    integer [s]. *)
Lemma sequential_dot_from (zs : list Z) : forall (ws : list Z)
    (acc : float32) (s : Z),
  length zs = length ws -> small_integers zs -> small_integers ws ->
  same_number acc (f32_of_Z s) ->
  -256 + 16 * Z.of_nat (length zs) <= s
    <= 256 - 16 * Z.of_nat (length zs) ->
  same_number
    (foldl (fun a p => f32_add a (f32_mul (fst p) (snd p))) acc
       (zip (int_row zs) (int_row ws)))
    (f32_of_Z (s + inner_product zs ws)).
Proof.
  induction zs as [| z zs IH]; intros ws acc s Hlen Hzs Hws Hacc Hs.
  - destruct ws; [| done]. cbn. by rewrite Z.add_0_r.
  - destruct ws as [| w ws]; [done |].
    unfold small_integers in Hzs, Hws.
    apply list.Forall_cons in Hzs as [Hz Hzs].
    apply list.Forall_cons in Hws as [Hw Hws].
    cbn [int_row fmap list_fmap zip zip_with foldl fst snd inner_product
         length] in *.
    rewrite Z.add_assoc. apply IH; [lia | done | done | | nia].
    apply f32_add_small; [lia | nia | done |].
    by apply f32_mul_small.
Qed.

Lemma sequential_arithmetic_well_behaved :
  matmul_well_behaved sequential_arithmetic.
Proof.
  intros zs ws Hlen Hshort Hzs Hws. cbn [dot sequential_arithmetic].
  unfold sequential_dot.
  rewrite <- (Z.add_0_l (inner_product zs ws)).
  apply sequential_dot_from; [done | done | done | by left | lia].
Qed.

Lemma counter_random_well_behaved : sampler_well_behaved counter_random.
Proof.
  intros k n d. cbn [counter_random normal ncols rows].
  split; [done |].
  split; [unfold nrows; cbn; by rewrite length_fmap, length_seq |].
  apply Forall_fmap, Forall_forall. intros i _. cbn.
  split; [by rewrite length_fmap, length_seq |].
  apply Forall_fmap, Forall_forall. intros j _. cbn.
  apply f32_of_Z_finite.
  pose proof (Z.mod_pos_bound (k + 3 * Z.of_nat i + 5 * Z.of_nat j) 7
                ltac:(lia)).
  lia.
Qed.

(** Running the model: the constructor on the notebook's arguments, on a
    weight array that does not fit, and outside its contract. *)
Example notebook_data_shape :
  nrows (X notebook_data) = 2000%nat /\ ncols (X notebook_data) = 2%nat /\
  nrows (y notebook_data) = 2000%nat /\ ncols (y notebook_data) = 1%nat.
Proof. by vm_compute. Qed.

Example init_matrix_weights_raise :
  @__init__ counter_random sequential_arithmetic
      w_matrix b_true noise_default 10 3 4
  = Raise ContractionMismatch.
Proof. reflexivity. Qed.

Example init_scalar_weights_raise :
  @__init__ counter_random sequential_arithmetic
      w_scalar b_true noise_default 10 3 4
  = Raise TupleIndexOutOfRange.
Proof. reflexivity. Qed.

Example init_negative_count_raises :
  @__init__ counter_random sequential_arithmetic
      w_true b_true noise_default 2 (-5) 4
  = Raise NegativeDimension.
Proof. reflexivity. Qed.

(** Running the model: one training pass and one validation pass over the
    small data module, with either loader. *)
Example small_manual_training_pass :
  (Manual.epoch_indices small_data true ten_draws).1
    = [9; 6; 0; 2; 7; 5; 8; 4; 1; 3] /\
  manual_batch_sizes small_data true ten_draws
    = Ok [4; 4; 2]%nat /\
  manual_batch_sizes small_data false [] = Ok [3%nat].
Proof. by vm_compute. Qed.

Example small_concise_passes :
  concise_len small_data true = Ok 3 /\
  concise_batch_sizes small_data true ten_draws
    = Ok [4; 4; 2]%nat /\
  concise_len small_data false = Ok 1 /\
  concise_batch_sizes small_data false ten_draws = Ok [3%nat].
Proof. by vm_compute. Qed.

Example notebook_len : concise_len notebook_data true = Ok 32.
Proof. by vm_compute. Qed.

(** Running the model: over an empty training split the hand-written
    loader yields nothing, and the library refuses the shuffle buffer of
    size zero. *)
Example empty_training_split :
  manual_batch_sizes no_data true ten_draws = Ok [] /\
  concise_len no_data true = Raise BufferSizeNotPositive /\
  concise_len no_data false = Ok 0.
Proof. by vm_compute. Qed.

Lemma notebook_data_well_formed : well_formed notebook_data.
Proof. unfold well_formed. repeat split; by vm_compute. Qed.

Lemma small_data_well_formed : well_formed small_data.
Proof. unfold well_formed. repeat split; by vm_compute. Qed.

(** The batch counts at the notebook's data module (a training pass of
    1000 examples in batches of 32) and at the small one (ten training
    examples in batches of four, then its three validation examples). *)
Lemma batch_count_is_ceiling_scenarios :
  ((well_formed notebook_data /\ 1 <= batch_size notebook_data) /\
   ((exists sizes : list nat,
      manual_batch_sizes notebook_data true [] = Ok sizes /\
      Z.of_nat (length sizes)
        = ceil_div (num_train notebook_data) (batch_size notebook_data)) /\
   ((true = false \/ 1 <= num_train notebook_data) ->
    concise_len notebook_data true
      = Ok (ceil_div (num_train notebook_data) (batch_size notebook_data)) /\
    exists sizes : list nat,
      concise_batch_sizes notebook_data true [] = Ok sizes /\
      Z.of_nat (length sizes)
        = ceil_div (num_train notebook_data) (batch_size notebook_data)) /\
   (num_train notebook_data = 1000 -> batch_size notebook_data = 32 ->
    ceil_div (num_train notebook_data) (batch_size notebook_data) = 32 /\
    manual_batch_sizes notebook_data true []
      = Ok (replicate 31 32%nat ++ [8%nat]) /\
    concise_batch_sizes notebook_data true []
      = Ok (replicate 31 32%nat ++ [8%nat]) /\
    concise_len notebook_data true = Ok 32) /\
   (num_train notebook_data = 10 -> batch_size notebook_data = 4 ->
    manual_batch_sizes notebook_data true [] = Ok [4; 4; 2]%nat /\
    concise_batch_sizes notebook_data true [] = Ok [4; 4; 2]%nat /\
    concise_len notebook_data true = Ok 3))) /\
  ((well_formed small_data /\ 1 <= batch_size small_data) /\
   ((exists sizes : list nat,
      manual_batch_sizes small_data true ten_draws = Ok sizes /\
      Z.of_nat (length sizes)
        = ceil_div (num_train small_data) (batch_size small_data)) /\
   ((true = false \/ 1 <= num_train small_data) ->
    concise_len small_data true
      = Ok (ceil_div (num_train small_data) (batch_size small_data)) /\
    exists sizes : list nat,
      concise_batch_sizes small_data true ten_draws = Ok sizes /\
      Z.of_nat (length sizes)
        = ceil_div (num_train small_data) (batch_size small_data)) /\
   (num_train small_data = 1000 -> batch_size small_data = 32 ->
    ceil_div (num_train small_data) (batch_size small_data) = 32 /\
    manual_batch_sizes small_data true ten_draws
      = Ok (replicate 31 32%nat ++ [8%nat]) /\
    concise_batch_sizes small_data true ten_draws
      = Ok (replicate 31 32%nat ++ [8%nat]) /\
    concise_len small_data true = Ok 32) /\
   (num_train small_data = 10 -> batch_size small_data = 4 ->
    manual_batch_sizes small_data true ten_draws = Ok [4; 4; 2]%nat /\
    concise_batch_sizes small_data true ten_draws = Ok [4; 4; 2]%nat /\
    concise_len small_data true = Ok 3))) /\
  ((well_formed small_data /\ 1 <= batch_size small_data) /\
   ((exists sizes : list nat,
      manual_batch_sizes small_data false ten_draws = Ok sizes /\
      Z.of_nat (length sizes)
        = ceil_div (num_val small_data) (batch_size small_data)) /\
   ((false = false \/ 1 <= num_train small_data) ->
    concise_len small_data false
      = Ok (ceil_div (num_val small_data) (batch_size small_data)) /\
    exists sizes : list nat,
      concise_batch_sizes small_data false ten_draws = Ok sizes /\
      Z.of_nat (length sizes)
        = ceil_div (num_val small_data) (batch_size small_data)) /\
   (num_train small_data = 1000 -> batch_size small_data = 32 ->
    ceil_div (num_train small_data) (batch_size small_data) = 32 /\
    manual_batch_sizes small_data true ten_draws
      = Ok (replicate 31 32%nat ++ [8%nat]) /\
    concise_batch_sizes small_data true ten_draws
      = Ok (replicate 31 32%nat ++ [8%nat]) /\
    concise_len small_data true = Ok 32) /\
   (num_train small_data = 10 -> batch_size small_data = 4 ->
    manual_batch_sizes small_data true ten_draws = Ok [4; 4; 2]%nat /\
    concise_batch_sizes small_data true ten_draws = Ok [4; 4; 2]%nat /\
    concise_len small_data true = Ok 3))).
Proof.
  assert (1 <= batch_size notebook_data) as Hbig by (by vm_compute).
  assert (1 <= batch_size small_data) as Hsmall by (by vm_compute).
  split; [| split].
  - split; [split; [exact notebook_data_well_formed | exact Hbig] |].
    exact (batch_count_is_ceiling notebook_data true []
             notebook_data_well_formed Hbig).
  - split; [split; [exact small_data_well_formed | exact Hsmall] |].
    exact (batch_count_is_ceiling small_data true ten_draws
             small_data_well_formed Hsmall).
  - split; [split; [exact small_data_well_formed | exact Hsmall] |].
    exact (batch_count_is_ceiling small_data false ten_draws
             small_data_well_formed Hsmall).
Defined.

(** C10 at the small data module, in training and in validation mode. *)
Lemma loaders_keep_rows_paired_small :
  (well_formed small_data /\ 1 <= batch_size small_data) /\
  ((exists (bt : list batch) (g' : rng),
      Manual.get_dataloader small_data true ten_draws = (Ok bt, g') /\
      Forall (rows_paired small_data true) bt) /\
   ((true = false \/ 1 <= num_train small_data) ->
    exists ds : TFData.Dataset batch,
      Concise.get_dataloader small_data true = Ok ds /\
      Forall (rows_paired small_data true)
        (TFData.iterate ds ten_draws).1)) /\
  ((exists (bt : list batch) (g' : rng),
      Manual.get_dataloader small_data false ten_draws = (Ok bt, g') /\
      Forall (rows_paired small_data false) bt) /\
   ((false = false \/ 1 <= num_train small_data) ->
    exists ds : TFData.Dataset batch,
      Concise.get_dataloader small_data false = Ok ds /\
      Forall (rows_paired small_data false)
        (TFData.iterate ds ten_draws).1)).
Proof.
  assert (1 <= batch_size small_data) as Hsmall by (by vm_compute).
  split; [split; [exact small_data_well_formed | exact Hsmall] |].
  split.
  - exact (loaders_keep_rows_paired small_data true ten_draws
             small_data_well_formed Hsmall).
  - exact (loaders_keep_rows_paired small_data false ten_draws
             small_data_well_formed Hsmall).
Defined.

(** C5 at the small data module, whose first two training examples
    differ. *)
Lemma shuffle_in_training_only_small :
  (well_formed small_data /\ 1 <= batch_size small_data) /\
  (exists ei ej : TFData.example,
     split_examples small_data true !! 0%nat = Some ei /\
     split_examples small_data true !! 1%nat = Some ej /\ ei ≠ ej) /\
  (forall (i j : nat) (ei ej : TFData.example),
     split_examples small_data true !! i = Some ei ->
     split_examples small_data true !! j = Some ej -> ei ≠ ej ->
     (exists g1 g2 : rng,
        (Manual.epoch_indices small_data true g1).1
          ≠ (Manual.epoch_indices small_data true g2).1 /\
        (Manual.get_dataloader small_data true g1).1
          ≠ (Manual.get_dataloader small_data true g2).1) /\
     (exists ds : TFData.Dataset batch,
        Concise.get_dataloader small_data true = Ok ds /\
        exists g1 g2 : rng,
          (TFData.iterate ds g1).1 ≠ (TFData.iterate ds g2).1)) /\
  (forall g1 g2 : rng,
     (Manual.get_dataloader small_data false g1).1
       = (Manual.get_dataloader small_data false g2).1 /\
     (Manual.get_dataloader small_data false g1).2 = g1) /\
  (exists ds : TFData.Dataset batch,
     Concise.get_dataloader small_data false = Ok ds /\
     forall g1 g2 : rng,
       (TFData.iterate ds g1).1 = (TFData.iterate ds g2).1) /\
  (forall train : bool, train = false \/ 1 <= num_train small_data ->
     exists ds : TFData.Dataset batch,
       Concise.get_dataloader small_data train = Ok ds /\
       forall g : rng,
         let examples := split_examples small_data train in
         let buffer := if train then length examples else 1%nat in
         let out := (TFData.shuffle_elements (length examples) buffer []
                       examples g).1 in
         (TFData.iterate ds g).1
         = TFData.stack (ncols (X small_data), ncols (y small_data))
             <$> TFData.groups (length out)
                   (Z.to_nat (batch_size small_data)) out).
Proof.
  assert (1 <= batch_size small_data) as Hsmall by (by vm_compute).
  split; [split; [exact small_data_well_formed | exact Hsmall] |].
  split.
  - eexists _, _. split; [by vm_compute |]. split; [by vm_compute |].
    discriminate.
  - exact (shuffle_in_training_only small_data small_data_well_formed
             Hsmall).
Defined.

(** C8 at the notebook's arguments. *)
Lemma generated_shapes_notebook :
  (sampler_well_behaved counter_random /\ len w_true = Some 2%nat /\
   length (data w_true) = 2%nat /\ 0 <= 1000 /\ 0 <= 1000) /\
  exists self : SyntheticRegressionData,
    @__init__ counter_random sequential_arithmetic
        w_true b_true noise_default 1000 1000 32
      = Ok self /\
    Z.of_nat (nrows (X self)) = 1000 + 1000 /\
    Z.of_nat (nrows (y self)) = 1000 + 1000 /\
    ncols (X self) = 2%nat /\
    Forall (fun r : list float32 => length r = 2%nat) (rows (X self)) /\
    num_train self = 1000 /\
    num_val self = 1000 /\
    well_formed self.
Proof.
  split;
    [split; [exact counter_random_well_behaved | by repeat split] |].
  exact (generated_shapes counter_random counter_random_well_behaved
           sequential_arithmetic
           w_true b_true noise_default 1000 1000 32 2 eq_refl eq_refl
           ltac:(done) ltac:(done)).
Defined.

(** C7 at integer weights, with [noise = 0]: ten training and three
    validation examples. *)
Lemma noiseless_labels_exact_integers :
  (sampler_well_behaved counter_random /\
   matmul_well_behaved sequential_arithmetic /\
   len w_integers = Some 2%nat /\ length (data w_integers) = 2%nat /\
   0 <= 10 /\ 0 <= 3) /\
  exists self : SyntheticRegressionData,
    @__init__ counter_random sequential_arithmetic w_integers b_integer
      (S754_zero false) 10 3 4
      = Ok self /\
    Z.of_nat (nrows (y self)) = 10 + 3 /\
    forall (i : nat) (xr : list float32),
      rows (X self) !! i = Some xr ->
      exists v : float32,
        rows (y self) !! i = Some [v] /\
        same_number v
          (f32_add (@dot sequential_arithmetic xr (data w_integers))
             b_integer) /\
        forall zs ws : list Z,
          xr = int_row zs -> data w_integers = int_row ws ->
          small_integers zs -> small_integers ws ->
          (length zs <= 16)%nat ->
          same_number v
            (f32_add (f32_of_Z (inner_product zs ws)) b_integer).
Proof.
  split.
  { split; [exact counter_random_well_behaved |].
    split; [exact sequential_arithmetic_well_behaved | by repeat split]. }
  exact (noiseless_labels_exact counter_random counter_random_well_behaved
           sequential_arithmetic sequential_arithmetic_well_behaved
           w_integers b_integer false 10 3 4 2 eq_refl eq_refl
           ltac:(done) ltac:(done)).
Defined.

(** C2, as the code has it, at the notebook's arguments. *)
Lemma construction_draws_from_key_zero_notebook :
  (sampler_well_behaved counter_random /\ len w_true = Some 2%nat /\
   length (data w_true) = 2%nat /\ 0 <= 1000 /\ 0 <= 1000) /\
  exists self : SyntheticRegressionData,
    @__init__ counter_random sequential_arithmetic
        w_true b_true noise_default 1000 1000 32
      = Ok self /\
    X self = @normal counter_random (@split counter_random
                                       (@PRNGKey counter_random 0)).1
               (Z.to_nat (1000 + 1000)) 2 /\
    y self = add (add_scalar
                    {| ncols := 1;
                       rows := (fun r =>
                                   [@dot sequential_arithmetic r (data w_true)])
                                 <$> rows (X self) |} b_true)
                 (mul_scalar
                    (@normal counter_random
                       (@split counter_random (@PRNGKey counter_random 0)).2
                       (Z.to_nat (1000 + 1000)) 1) noise_default) /\
    forall again : SyntheticRegressionData,
      @__init__ counter_random sequential_arithmetic
          w_true b_true noise_default 1000 1000 32
        = Ok again ->
      X again = X self /\ y again = y self.
Proof.
  split;
    [split; [exact counter_random_well_behaved | by repeat split] |].
  exact (construction_draws_from_key_zero counter_random
           counter_random_well_behaved sequential_arithmetic
             w_true b_true noise_default
           1000 1000 32 2 eq_refl eq_refl ltac:(done) ltac:(done)).
Defined.

(** C2 as the specification words it does not hold: construction
    succeeds on the notebook's arguments, and no two constructions with
    the same arguments, whatever the sampler and the arithmetic of
    [matmul], differ in [X] or in [y]. *)
Lemma unseeded_constructions_agree :
  (exists self : SyntheticRegressionData,
     @__init__ counter_random sequential_arithmetic
         w_true b_true noise_default 1000 1000 32
       = Ok self /\
     X notebook_data = X self /\ y notebook_data = y self) /\
  ~ (exists (J : JaxRandom) (L : MatmulArithmetic) (w : ndarray)
       (b noise : float32) (ntrain nval bsize : Z)
       (first second : SyntheticRegressionData),
       @__init__ J L w b noise ntrain nval bsize = Ok first /\
       @__init__ J L w b noise ntrain nval bsize = Ok second /\
       (X first ≠ X second \/ y first ≠ y second)).
Proof.
  split.
  - eexists. split.
    + apply (init_ok counter_random counter_random_well_behaved
           sequential_arithmetic
           w_true b_true noise_default 1000 1000 32 2 eq_refl eq_refl).
      done.
    + unfold notebook_data.
      by rewrite (init_ok counter_random counter_random_well_behaved
           sequential_arithmetic
           w_true b_true noise_default 1000 1000 32 2 eq_refl
                    eq_refl ltac:(done)).
  - intros (J & L & w & b & noise & ntrain & nval & bsize & first & second
            & Hfirst & Hsecond & Hdiff).
    rewrite Hfirst in Hsecond. injection Hsecond as <-.
    by destruct Hdiff.
Qed.

(* ===================================================================== *)
(** ** Further properties of the loaders *)
(* ===================================================================== *)

(** X1. The two slices that the library-backed [get_dataloader] takes,
    [slice(0, num_train)] for training and [slice(num_train, None)] for
    validation, cut the features and the labels in two: the training rows
    followed by the validation rows are the rows of the array, whatever
    [num_train] is (negative or beyond the end included). *)
Theorem split_slices_partition (self : SyntheticRegressionData) :
  rows (getitem_slice (X self) (0, Some (num_train self)))
    ++ rows (getitem_slice (X self) (num_train self, None))
  = rows (X self) /\
  rows (getitem_slice (y self) (0, Some (num_train self)))
    ++ rows (getitem_slice (y self) (num_train self, None))
  = rows (y self).
Proof.
  assert (forall l : list (list float32),
            getslice l (0, Some (num_train self))
              ++ getslice l (num_train self, None) = l) as Hsplit.
  { intros l. unfold getslice, slice_bound. cbn [fst snd].
    replace (0 <? 0) with false by reflexivity.
    rewrite (Z.min_l 0) by lia. rewrite Z.sub_0_r.
    set (cut := if num_train self <? 0
                then Z.max 0 (num_train self + Z.of_nat (length l))
                else Z.min (num_train self) (Z.of_nat (length l))).
    assert (0 <= cut <= Z.of_nat (length l)) as Hcut
      by (subst cut; destruct (Z.ltb_spec (num_train self) 0); lia).
    clearbody cut. change (Z.to_nat 0) with 0%nat. rewrite drop_0.
    rewrite (take_ge (drop (Z.to_nat cut) l))
      by (rewrite length_drop; lia).
    apply take_drop. }
  split; apply Hsplit.
Qed.

(** X2. With non-negative counts, the indices that the hand-written
    loader visits in a training pass and those it visits in a validation
    pass are disjoint, and together they are the indices
    [0 .. num_train + num_val - 1] of the data set, each exactly once. *)
Theorem manual_passes_partition_indices (self : SyntheticRegressionData)
    (g1 g2 : rng) :
  0 <= num_train self -> 0 <= num_val self ->
  (Manual.epoch_indices self true g1).1
    ++ (Manual.epoch_indices self false g2).1
  ≡ₚ seqZ 0 (num_train self + num_val self) /\
  NoDup ((Manual.epoch_indices self true g1).1
           ++ (Manual.epoch_indices self false g2).1).
Proof.
  intros Hnt Hnv.
  assert ((Manual.epoch_indices self true g1).1
            ++ (Manual.epoch_indices self false g2).1
          ≡ₚ seqZ 0 (num_train self + num_val self)) as Hperm.
  { unfold Manual.epoch_indices. cbn [fst].
    rewrite shuffle_Permutation, !range2_seqZ, seqZ_app by lia.
    replace (num_train self - 0) with (num_train self) by lia.
    replace (num_train self + num_val self - num_train self)
      with (num_val self) by lia.
    by rewrite Z.add_0_l. }
  split; [done |]. rewrite Hperm. apply NoDup_seqZ.
Qed.

Lemma manual_passes_partition_indices_small :
  (0 <= num_train small_data /\ 0 <= num_val small_data) /\
  (Manual.epoch_indices small_data true ten_draws).1
    ++ (Manual.epoch_indices small_data false []).1
  ≡ₚ seqZ 0 (num_train small_data + num_val small_data) /\
  NoDup ((Manual.epoch_indices small_data true ten_draws).1
           ++ (Manual.epoch_indices small_data false []).1).
Proof.
  assert (0 <= num_train small_data) as Hnt by (by vm_compute).
  assert (0 <= num_val small_data) as Hnv by (by vm_compute).
  split; [by split |].
  exact (manual_passes_partition_indices small_data ten_draws [] Hnt Hnv).
Defined.

(** X3. The hand-written loader does not check [batch_size].  With
    [batch_size = 0] it raises the [ValueError] of [range] when it is
    iterated, after the training indices have been shuffled; with a
    negative [batch_size] it raises nothing and yields no batch at all. *)
Theorem manual_loader_nonpositive_batch_size
    (self : SyntheticRegressionData) (train : bool) (g : rng) :
  batch_size self <= 0 ->
  Manual.get_dataloader self train g
  = (if batch_size self =? 0 then Raise RangeStepZero else Ok [],
     (Manual.epoch_indices self train g).2).
Proof.
  intros Hbs. unfold Manual.get_dataloader.
  destruct (Manual.epoch_indices self train g) as [indices g'].
  cbn [snd]. f_equal.
  unfold Manual.batch_index_lists, range.
  destruct (Z.eqb_spec (batch_size self) 0) as [Hz | Hnz]; [done |].
  cbn [bind]. unfold range_items, range_length.
  destruct (Z.ltb_spec 0 (batch_size self)) as [? | _]; [lia |].
  destruct (Z.ltb_spec (batch_size self) 0) as [_ | ?]; [| lia].
  destruct (Z.ltb_spec (Z.of_nat (length indices)) 0) as [? | _]; [lia |].
  reflexivity.
Qed.

Lemma manual_loader_nonpositive_batch_size_cases :
  (batch_size zero_batch_data <= 0 /\
   Manual.get_dataloader zero_batch_data true ten_draws
   = (if batch_size zero_batch_data =? 0 then Raise RangeStepZero
      else Ok [],
      (Manual.epoch_indices zero_batch_data true ten_draws).2)) /\
  (batch_size negative_batch_data <= 0 /\
   Manual.get_dataloader negative_batch_data true ten_draws
   = (if batch_size negative_batch_data =? 0 then Raise RangeStepZero
      else Ok [],
      (Manual.epoch_indices negative_batch_data true ten_draws).2)).
Proof.
  assert (batch_size zero_batch_data <= 0) as Hzero by (by vm_compute).
  assert (batch_size negative_batch_data <= 0) as Hneg by (by vm_compute).
  split.
  - split; [exact Hzero |].
    exact (manual_loader_nonpositive_batch_size zero_batch_data true
             ten_draws Hzero).
  - split; [exact Hneg |].
    exact (manual_loader_nonpositive_batch_size negative_batch_data true
             ten_draws Hneg).
Defined.

(** Running the model on those two instances. *)
Example nonpositive_batch_size_runs :
  Manual.get_dataloader zero_batch_data true ten_draws
    = (Raise RangeStepZero, [3%nat]) /\
  Manual.get_dataloader negative_batch_data false ten_draws
    = (Ok [], ten_draws).
Proof. by vm_compute. Qed.

(* ===================================================================== *)
(** ** The examples of a pass *)
(* ===================================================================== *)

Lemma zip_fmap_same {A B C} (f : A -> B) (h : A -> C) (l : list A) :
  zip (f <$> l) (h <$> l) = (fun a => (f a, h a)) <$> l.
Proof. induction l as [| a l IH]; [done |]. cbn. by f_equal. Qed.

Lemma batch_examples_yielded (self : SyntheticRegressionData)
    (c : list Z) :
  batch_examples (Manual.yielded self c) = example_at self <$> c.
Proof. apply zip_fmap_same. Qed.

Lemma pass_examples_yielded (self : SyntheticRegressionData)
    (chunks : list (list Z)) :
  pass_examples (Manual.yielded self <$> chunks)
  = example_at self <$> concat chunks.
Proof.
  unfold pass_examples.
  induction chunks as [| c chunks IH]; [done |].
  cbn [fmap list_fmap concat].
  by rewrite fmap_app, <- IH, batch_examples_yielded.
Qed.

Lemma batch_examples_stack (spec : nat * nat)
    (group : list TFData.example) :
  batch_examples (TFData.stack spec group) = group.
Proof. apply zip_fst_snd. Qed.

Lemma pass_examples_stack (spec : nat * nat)
    (gs : list (list TFData.example)) :
  pass_examples (TFData.stack spec <$> gs) = concat gs.
Proof.
  unfold pass_examples.
  induction gs as [| grp gs IH]; [done |].
  cbn [fmap list_fmap concat].
  by rewrite batch_examples_stack, <- IH.
Qed.

(** Indexing with the integers of a range inside the array gives the rows
    of the corresponding slice. *)
Lemma rows_at_range (a : matrix) (lo n : Z) :
  0 <= lo -> 0 <= n -> lo + n <= Z.of_nat (nrows a) ->
  row_at a <$> seqZ lo n
  = take (Z.to_nat n) (drop (Z.to_nat lo) (rows a)).
Proof.
  intros Hlo Hn Hin. unfold nrows in Hin. apply list_eq. intros k.
  rewrite list_lookup_fmap.
  destruct (decide (k < Z.to_nat n)%nat) as [Hk | Hk].
  - rewrite lookup_seqZ_lt by lia. cbn [fmap option_fmap option_map].
    rewrite lookup_take_lt, lookup_drop by done.
    destruct (lookup_lt_is_Some_2 (rows a) (Z.to_nat lo + k)%nat
                ltac:(lia)) as [r Hr].
    rewrite Hr. f_equal.
    replace (lo + Z.of_nat k) with (Z.of_nat (Z.to_nat lo + k)) by lia.
    by apply row_at_lookup.
  - rewrite lookup_seqZ_ge by lia.
    by rewrite lookup_take_ge by lia.
Qed.

Lemma split_examples_at (self : SyntheticRegressionData) (train : bool) :
  well_formed self ->
  split_examples self train
  = example_at self <$> split_indices self train.
Proof.
  intros (Hnt & Hnv & HX & Hy).
  unfold split_examples, split_rows, split_indices, example_at.
  rewrite <- zip_fmap_same. destruct train.
  - rewrite !rows_at_range by lia. by rewrite !drop_0.
  - rewrite !rows_at_range by lia.
    by rewrite !take_ge by (rewrite length_drop; unfold nrows in *; lia).
Qed.

Lemma epoch_indices_Permutation (self : SyntheticRegressionData)
    (train : bool) (g : rng) :
  (Manual.epoch_indices self train g).1 ≡ₚ split_indices self train.
Proof.
  unfold Manual.epoch_indices, split_indices. destruct train.
  - rewrite shuffle_Permutation, range2_seqZ. by rewrite Z.sub_0_r.
  - cbn [fst]. rewrite range2_seqZ.
    by replace (num_train self + num_val self - num_train self)
      with (num_val self) by lia.
Qed.

Lemma groups_fmap {A B} (f : A -> B) (fuel n : nat) : forall l : list A,
  TFData.groups fuel n (f <$> l)
  = (fun c : list A => f <$> c) <$> TFData.groups fuel n l.
Proof.
  induction fuel as [| fuel IH]; intros l; [done |].
  destruct l as [| a l']; [done |].
  change (f <$> a :: l') with (f a :: (f <$> l')) at 1.
  cbn [TFData.groups fmap list_fmap].
  change (f a :: (f <$> l')) with (f <$> a :: l').
  by rewrite <- fmap_take, <- fmap_drop, IH.
Qed.

Lemma stack_examples_at (self : SyntheticRegressionData) (c : list Z) :
  TFData.stack (ncols (X self), ncols (y self)) (example_at self <$> c)
  = Manual.yielded self c.
Proof.
  unfold TFData.stack, Manual.yielded, getitem. cbn [fst snd].
  by rewrite <- !list_fmap_compose.
Qed.

(** X4. For a well-formed data module and [batch_size >= 1], the batches
    of one pass of either loader, taken together, hold every example of
    the split exactly once (each feature row with its own label row):
    nothing is dropped, repeated or mispaired, whatever the generator
    draws.  (The library-backed loader is constructed only when the
    shuffle buffer is not empty.) *)
Theorem pass_yields_each_example_once (self : SyntheticRegressionData)
    (train : bool) (g : rng) :
  well_formed self -> 1 <= batch_size self ->
  (exists bts : list batch,
     (Manual.get_dataloader self train g).1 = Ok bts /\
     pass_examples bts ≡ₚ split_examples self train) /\
  ((train = false \/ 1 <= num_train self) ->
   exists ds : TFData.Dataset batch,
     Concise.get_dataloader self train = Ok ds /\
     pass_examples (TFData.iterate ds g).1 ≡ₚ split_examples self train).
Proof.
  intros Hwf Hbs. split.
  - destruct (manual_pass self train g Hbs)
      as (indices & g' & Hidx & Hlen & Hload).
    eexists. split; [by rewrite Hload |].
    rewrite pass_examples_yielded, groups_concat by lia.
    rewrite (split_examples_at self train Hwf).
    apply fmap_Permutation.
    change indices with (indices, g').1. rewrite <- Hidx.
    apply epoch_indices_Permutation.
  - intros Hne.
    destruct (concise_pass self train Hwf Hbs Hne)
      as (ds & Hds & _ & Hiter).
    exists ds. split; [done |]. rewrite (Hiter g). cbn zeta.
    rewrite pass_examples_stack, groups_concat by lia.
    rewrite shuffle_elements_Permutation; [done | | cbn [length] ..].
    + destruct train; [| lia].
      rewrite (length_split_examples self true Hwf).
      destruct Hne as [? | ?]; [done | lia].
    + destruct train; lia.
    + lia.
Qed.

Lemma pass_yields_each_example_once_small :
  (well_formed small_data /\ 1 <= batch_size small_data) /\
  (exists bts : list batch,
     (Manual.get_dataloader small_data true ten_draws).1 = Ok bts /\
     pass_examples bts ≡ₚ split_examples small_data true) /\
  ((true = false \/ 1 <= num_train small_data) ->
   exists ds : TFData.Dataset batch,
     Concise.get_dataloader small_data true = Ok ds /\
     pass_examples (TFData.iterate ds ten_draws).1
       ≡ₚ split_examples small_data true).
Proof.
  assert (1 <= batch_size small_data) as Hbs by (by vm_compute).
  split; [split; [exact small_data_well_formed | exact Hbs] |].
  exact (pass_yields_each_example_once small_data true ten_draws
           small_data_well_formed Hbs).
Defined.

(** X5. For a well-formed data module and [batch_size >= 1], a validation
    pass of the library-backed loader yields the very batches that a
    validation pass of the hand-written loader yields, in the same order,
    whatever the states of the generators. *)
Theorem loaders_agree_on_validation (self : SyntheticRegressionData)
    (g g' : rng) :
  well_formed self -> 1 <= batch_size self ->
  exists ds : TFData.Dataset batch,
    Concise.get_dataloader self false = Ok ds /\
    (Manual.get_dataloader self false g).1 = Ok (TFData.iterate ds g').1.
Proof.
  intros Hwf Hbs.
  destruct (concise_validation_fixed self Hwf Hbs) as (ds & Hds & Hiter).
  exists ds. split; [done |].
  rewrite (Hiter g'), manual_validation_fixed by done. cbn [fst].
  rewrite (length_split_examples self false Hwf).
  rewrite (split_examples_at self false Hwf). unfold split_indices.
  rewrite groups_fmap, <- list_fmap_compose. f_equal.
  apply list_fmap_ext. intros _ c _. cbn.
  symmetry. apply stack_examples_at.
Qed.

Lemma loaders_agree_on_validation_small :
  (well_formed small_data /\ 1 <= batch_size small_data) /\
  exists ds : TFData.Dataset batch,
    Concise.get_dataloader small_data false = Ok ds /\
    (Manual.get_dataloader small_data false ten_draws).1
    = Ok (TFData.iterate ds []).1.
Proof.
  assert (1 <= batch_size small_data) as Hbs by (by vm_compute).
  split; [split; [exact small_data_well_formed | exact Hbs] |].
  exact (loaders_agree_on_validation small_data ten_draws []
           small_data_well_formed Hbs).
Defined.

(* ===================================================================== *)
(** ** Further properties of the generator *)
(* ===================================================================== *)

Section GeneratorOutcomes.
Context (J : JaxRandom) (Hsampler : sampler_well_behaved J)
  (L : MatmulArithmetic) (Hmatmul : matmul_well_behaved L).
Implicit Types (w : ndarray) (b noise : float32) (d : nat).

Lemma init_scalar w b noise (ntrain nval bsize : Z) :
  len w = None ->
  __init__ w b noise ntrain nval bsize = Raise TupleIndexOutOfRange.
Proof.
  intros Hlen. unfold __init__, shape0, len in *.
  destruct (split (PRNGKey 0)) as [k1 k2].
  by destruct (shape w).
Qed.

Lemma init_negative w b noise (ntrain nval bsize : Z) d :
  len w = Some d -> ntrain + nval < 0 ->
  __init__ w b noise ntrain nval bsize = Raise NegativeDimension.
Proof.
  intros Hlen Hn. unfold __init__, shape0, random_normal, len in *.
  destruct (split (PRNGKey 0)) as [k1 k2].
  destruct (shape w) as [| d0 rest]; [done |]. cbn [bind].
  by destruct (Z.ltb_spec (ntrain + nval) 0) as [_ | ?]; [| lia].
Qed.

(** What a successful construction tells about its arguments. *)
Lemma init_success_inv w b noise (ntrain nval bsize : Z)
    (self : SyntheticRegressionData) :
  __init__ w b noise ntrain nval bsize = Ok self ->
  exists d, len w = Some d /\ length (data w) = d /\ 0 <= ntrain + nval.
Proof.
  intros Hok. destruct (len w) as [d |] eqn:Hlen.
  2:{ by rewrite init_scalar in Hok. }
  exists d. split; [done |].
  destruct (Z_lt_le_dec (ntrain + nval) 0) as [Hneg | Hpos].
  { by rewrite (init_negative _ _ _ _ _ _ d) in Hok. }
  destruct (decide (length (data w) = d)) as [Hfit | Hne]; [done |].
  by rewrite (init_mismatch J Hsampler L _ _ _ _ _ _ d) in Hok.
Qed.

(** Settles the four equivalences on the outcome once the outcome is
    known. *)
Local Ltac outcome_cases d :=
  split; [| split; [| split]]; split; intros H;
  repeat match goal with
         | H : _ /\ _ |- _ => destruct H
         | H : exists _, _ |- _ => destruct H
         end;
  try done; try lia; try congruence;
  try (by eexists); try (by exists d);
  try (split; [by exists d | lia]); try (split; [done | lia]).

(** X6. The outcome of a construction, for all arguments.  It succeeds
    exactly when [w] has a leading axis whose length is the number of its
    entries and [num_train + num_val] is not negative: [batch_size] is
    never looked at, and neither is the sign of [num_train] or of
    [num_val] alone.  Otherwise exactly one of three exceptions is raised,
    checked in this order: the index error of [w.shape[0]] for a
    zero-dimensional [w], the rejection of a negative row count by the
    sampler, the contraction mismatch of [matmul]. *)
Theorem construction_outcome w b noise (ntrain nval bsize : Z) :
  ((exists self : SyntheticRegressionData,
      __init__ w b noise ntrain nval bsize = Ok self) <->
   (exists d, len w = Some d /\ length (data w) = d) /\
   0 <= ntrain + nval) /\
  (__init__ w b noise ntrain nval bsize = Raise TupleIndexOutOfRange <->
   len w = None) /\
  (__init__ w b noise ntrain nval bsize = Raise NegativeDimension <->
   len w ≠ None /\ ntrain + nval < 0) /\
  (__init__ w b noise ntrain nval bsize = Raise ContractionMismatch <->
   exists d, len w = Some d /\ length (data w) ≠ d /\
             0 <= ntrain + nval).
Proof.
  destruct (len w) as [d |] eqn:Hlen.
  2:{ rewrite init_scalar by done.
      outcome_cases 0%nat. }
  destruct (Z_lt_le_dec (ntrain + nval) 0) as [Hneg | Hpos].
  { rewrite (init_negative _ _ _ _ _ _ d) by done.
    outcome_cases d. }
  destruct (decide (length (data w) = d)) as [Hfit | Hne].
  - rewrite (init_ok J Hsampler L _ _ _ _ _ _ d) by done.
    outcome_cases d.
  - rewrite (init_mismatch J Hsampler L _ _ _ _ _ _ d) by done.
    outcome_cases d.
Qed.

(** X7. In a constructed data module the labels form one column, and the
    label of example [i] is computed from its own feature row and its own
    noise draw [e_i] (the [i]-th draw of the second key split off
    [PRNGKey(0)]) as [(X_i . w + b) + e_i * noise]: the inner product as
    [jnp.matmul] computes it, then two [float32] additions in that order.
    Where the arithmetic of the inner product is exact (a feature row and
    weights that hold small integers), [X_i . w] is the sum of the
    products [x_j * w_j]. *)
Theorem labels_follow_linear_model w b noise (ntrain nval bsize : Z)
    (self : SyntheticRegressionData) :
  __init__ w b noise ntrain nval bsize = Ok self ->
  ncols (y self) = 1%nat /\
  nrows (y self) = nrows (X self) /\
  forall (i : nat) (xr : list float32),
    rows (X self) !! i = Some xr ->
    exists e : float32,
      rows (normal (split (PRNGKey 0)).2
              (Z.to_nat (ntrain + nval)) 1) !! i = Some [e] /\
      rows (y self) !! i
      = Some [f32_add (f32_add (dot xr (data w)) b) (f32_mul e noise)] /\
      forall zs ws : list Z,
        xr = int_row zs -> data w = int_row ws ->
        small_integers zs -> small_integers ws ->
        (length zs <= 16)%nat ->
        exists v : float32,
          rows (y self) !! i = Some [v] /\
          same_number v
            (f32_add (f32_add (f32_of_Z (inner_product zs ws)) b)
               (f32_mul e noise)).
Proof.
  intros Hok.
  destruct (init_success_inv _ _ _ _ _ _ _ Hok)
    as (d & Hlen & Hfit & Hn).
  rewrite (init_ok J Hsampler L _ _ _ _ _ _ d) in Hok by done.
  injection Hok as <-. cbn [X y].
  set (n := Z.to_nat (ntrain + nval)).
  destruct (Hsampler (split (PRNGKey 0)).1 n d) as (_ & HXr & HXrows).
  destruct (Hsampler (split (PRNGKey 0)).2 n 1%nat) as (_ & Her & Herows).
  split; [done |]. split.
  { unfold nrows, add, add_scalar, mul_scalar in *. cbn [rows].
    rewrite length_zip_with, !length_fmap. lia. }
  intros i xr Hxr.
  pose proof (lookup_lt_Some _ _ _ Hxr) as Hi. unfold nrows in *.
  destruct (lookup_lt_is_Some_2 (rows (normal (split (PRNGKey 0)).2 n 1)) i
              ltac:(lia)) as [er Her_i].
  destruct (Forall_lookup_1 _ _ _ _ Herows Her_i) as [Hlen1 _].
  destruct (Forall_lookup_1 _ _ _ _ HXrows Hxr) as [Hwidth _].
  destruct er as [| e [| ? ?]]; try discriminate Hlen1.
  exists e. split; [done |].
  assert (rows (add (add_scalar
                       {| ncols := 1;
                          rows := (fun r => [dot r (data w)])
                                    <$> rows (normal (split (PRNGKey 0)).1
                                                n d) |} b)
                    (mul_scalar (normal (split (PRNGKey 0)).2 n 1) noise))
            !! i
          = Some [f32_add (f32_add (dot xr (data w)) b) (f32_mul e noise)])
    as Hlabel.
  { unfold add, add_scalar, mul_scalar. cbn [rows].
    by rewrite lookup_zip_with, !list_lookup_fmap, Hxr, Her_i. }
  split; [exact Hlabel |].
  intros zs ws Hzs Hws Hsmall_zs Hsmall_ws Hshort.
  eexists. split; [exact Hlabel |].
  do 2 apply f32_add_same_number_l. rewrite Hzs, Hws.
  apply Hmatmul; [| done | done | done].
  rewrite <- (length_fmap f32_of_Z zs), <- (length_fmap f32_of_Z ws).
  fold (int_row zs) (int_row ws). rewrite <- Hzs, <- Hws. lia.
Qed.

(** X8. The generated arrays depend on the counts only through their sum:
    two successful constructions with the same [num_train + num_val] and
    weights of the same length have the same features, whatever the
    split, the batch size, the bias, the noise level and the values of
    the weights; if the weights, the bias and the noise level agree as
    well, they have the same labels. *)
Theorem data_depends_on_total_only w b noise (ntrain nval bsize : Z)
    w' b' noise' (ntrain' nval' bsize' : Z)
    (self self' : SyntheticRegressionData) :
  __init__ w b noise ntrain nval bsize = Ok self ->
  __init__ w' b' noise' ntrain' nval' bsize' = Ok self' ->
  ntrain + nval = ntrain' + nval' -> len w = len w' ->
  X self = X self' /\
  (data w = data w' -> b = b' -> noise = noise' -> y self = y self').
Proof.
  intros Hok Hok' Hsum Hlens.
  destruct (init_success_inv _ _ _ _ _ _ _ Hok) as (d & Hlen & Hfit & Hn).
  destruct (init_success_inv _ _ _ _ _ _ _ Hok')
    as (d' & Hlen' & Hfit' & Hn').
  rewrite (init_ok J Hsampler L _ _ _ _ _ _ d) in Hok by done.
  rewrite (init_ok J Hsampler L _ _ _ _ _ _ d') in Hok' by done.
  injection Hok as <-. injection Hok' as <-. cbn [X y].
  assert (d' = d) as -> by congruence.
  rewrite <- Hsum. split; [done |].
  by intros -> -> ->.
Qed.

End GeneratorOutcomes.

(* ===================================================================== *)
(** ** The batches of a constructed data module *)
(* ===================================================================== *)

(** What holds of the batch of every chunk of at most [batch_size]
    indices of the split holds of every batch of a pass of the
    hand-written loader. *)
Lemma manual_batches_Forall (self : SyntheticRegressionData) (train : bool)
    (g : rng) (P : batch -> Prop) :
  1 <= batch_size self ->
  (forall c : list Z,
     1 <= Z.of_nat (length c) <= batch_size self ->
     (forall i : Z, i ∈ c ->
        (split_bounds self train).1 <= i < (split_bounds self train).2) ->
     P (Manual.yielded self c)) ->
  exists bts : list batch,
    (Manual.get_dataloader self train g).1 = Ok bts /\ Forall P bts.
Proof.
  intros Hbs HP.
  destruct (manual_pass self train g Hbs)
    as (indices & g' & Hidx & _ & Hrun).
  eexists. split; [by rewrite Hrun |].
  apply Forall_fmap, Forall_lookup. intros k c Hc. apply HP.
  - destruct (groups_sizes (length indices) (Z.to_nat (batch_size self))
                indices k c) as [Hsize _]; [lia | lia | done | lia].
  - intros i Hi. apply list_elem_of_lookup_1 in Hi as [j Hj].
    apply (epoch_indices_bounds self train g). rewrite Hidx. cbn [fst].
    apply (groups_elem (length indices) (Z.to_nat (batch_size self))
             indices c k j i); [lia | lia | done | done].
Qed.

(** The same for the library-backed loader and groups of examples of the
    split. *)
Lemma concise_batches_Forall (self : SyntheticRegressionData) (train : bool)
    (g : rng) (P : batch -> Prop) :
  well_formed self -> 1 <= batch_size self ->
  (train = false \/ 1 <= num_train self) ->
  (forall group : list TFData.example,
     1 <= Z.of_nat (length group) <= batch_size self ->
     (forall e, e ∈ group -> e ∈ split_examples self train) ->
     P (TFData.stack (ncols (X self), ncols (y self)) group)) ->
  exists ds : TFData.Dataset batch,
    Concise.get_dataloader self train = Ok ds /\
    Forall P (TFData.iterate ds g).1.
Proof.
  intros Hwf Hbs Hne HP.
  destruct (concise_pass self train Hwf Hbs Hne) as (ds & Hds & _ & Hiter).
  exists ds. split; [done |]. rewrite (Hiter g). clear Hiter.
  set (examples := split_examples self train).
  set (buffer := if train then length examples else 1%nat).
  assert (1 <= buffer)%nat as Hbuf.
  { subst buffer. destruct train; [| done].
    pose proof (length_split_examples self true Hwf) as Hlen.
    fold examples in Hlen.
    destruct Hne as [? | ?]; [done | lia]. }
  pose proof (shuffle_elements_Permutation (length examples) buffer []
                examples g Hbuf ltac:(cbn; lia) ltac:(cbn; lia)) as Hperm.
  cbn [app] in Hperm.
  set (out := (TFData.shuffle_elements _ _ _ _ g).1) in *.
  apply Forall_fmap, Forall_lookup. intros k group Hgroup. apply HP.
  - destruct (groups_sizes (length out) (Z.to_nat (batch_size self))
                out k group) as [Hsize _]; [lia | lia | done | lia].
  - intros e He. apply list_elem_of_lookup_1 in He as [j Hj].
    fold examples. rewrite <- Hperm.
    apply (groups_elem (length out) (Z.to_nat (batch_size self))
             out group k j e); [lia | lia | done | done].
Qed.

Lemma row_at_length (a : matrix) (n d : nat) (i : Z) :
  has_shape a n d -> 0 <= i < Z.of_nat (nrows a) ->
  length (row_at a i) = d.
Proof.
  intros (_ & _ & Hrows) Hi. unfold nrows in Hi.
  destruct (lookup_lt_is_Some_2 (rows a) (Z.to_nat i) ltac:(lia))
    as [r Hr].
  replace i with (Z.of_nat (Z.to_nat i)) by lia.
  rewrite (row_at_lookup a _ r Hr).
  exact (Forall_lookup_1 _ _ _ _ Hrows Hr).
Qed.

(** The batches of a well-formed data module have the shapes of its
    arrays. *)
Lemma batches_shaped (self : SyntheticRegressionData) (train : bool)
    (g : rng) (n d : nat) :
  well_formed self -> 1 <= batch_size self ->
  has_shape (X self) n d -> has_shape (y self) n 1 ->
  (exists bts : list batch,
     (Manual.get_dataloader self train g).1 = Ok bts /\
     Forall (batch_shaped (batch_size self) d) bts) /\
  ((train = false \/ 1 <= num_train self) ->
   exists ds : TFData.Dataset batch,
     Concise.get_dataloader self train = Ok ds /\
     Forall (batch_shaped (batch_size self) d) (TFData.iterate ds g).1).
Proof.
  intros Hwf Hbs HX Hy. split.
  - apply manual_batches_Forall; [done |]. intros c Hsize Hc.
    exists (length c). split; [done |].
    unfold has_shape, Manual.yielded, getitem, nrows.
    cbn [fst snd rows ncols]. rewrite !length_fmap.
    destruct HX as (HXn & HXd & HXrows). destruct Hy as (Hyn & Hyd & Hyrows).
    repeat split; try done.
    + apply Forall_fmap, list.Forall_forall. intros i Hi.
      apply (row_at_length (X self) n d); [done |].
      by destruct (split_bounds_inside self train i Hwf (Hc i Hi)).
    + apply Forall_fmap, list.Forall_forall. intros i Hi.
      apply (row_at_length (y self) n 1); [done |].
      by destruct (split_bounds_inside self train i Hwf (Hc i Hi)).
  - intros Hne. apply concise_batches_Forall; [done | done | done |].
    intros group Hsize Hgroup.
    exists (length group). split; [done |].
    unfold has_shape, TFData.stack, nrows.
    cbn [fst snd rows ncols]. rewrite !length_fmap.
    destruct HX as (HXn & HXd & HXrows). destruct Hy as (Hyn & Hyd & Hyrows).
    repeat split; try done.
    + apply Forall_fmap, list.Forall_forall. intros [xr yr] He. cbn [fst].
      destruct (split_examples_lookup self train xr yr Hwf (Hgroup _ He))
        as (i & _ & Hxr & _).
      exact (Forall_lookup_1 _ _ _ _ HXrows Hxr).
    + apply Forall_fmap, list.Forall_forall. intros [xr yr] He. cbn [snd].
      destruct (split_examples_lookup self train xr yr Hwf (Hgroup _ He))
        as (i & _ & _ & Hyr).
      exact (Forall_lookup_1 _ _ _ _ Hyrows Hyr).
Qed.

Section ConstructedBatches.
Context (J : JaxRandom) (Hsampler : sampler_well_behaved J)
  (L : MatmulArithmetic).
Implicit Types (w : ndarray) (b noise : float32) (d : nat).

(** The shapes of the arrays of a constructed data module. *)
Lemma init_shapes w b noise (ntrain nval bsize : Z) d
    (self : SyntheticRegressionData) :
  __init__ w b noise ntrain nval bsize = Ok self ->
  len w = Some d -> 0 <= ntrain -> 0 <= nval ->
  well_formed self /\
  num_train self = ntrain /\ num_val self = nval /\
  batch_size self = bsize /\
  has_shape (X self) (Z.to_nat (ntrain + nval)) d /\
  has_shape (y self) (Z.to_nat (ntrain + nval)) 1.
Proof.
  intros Hok Hlen Hnt Hnv.
  destruct (init_success_inv J Hsampler L _ _ _ _ _ _ _ Hok)
    as (d' & Hlen' & Hfit & Hn).
  assert (d' = d) as -> by congruence.
  rewrite (init_ok J Hsampler L _ _ _ _ _ _ d) in Hok by done.
  injection Hok as <-.
  set (n := Z.to_nat (ntrain + nval)).
  destruct (Hsampler (split (PRNGKey 0)).1 n d) as (HXc & HXr & HXrows).
  destruct (Hsampler (split (PRNGKey 0)).2 n 1%nat) as (_ & Her & Herows).
  assert (has_shape
            (add (add_scalar
                    {| ncols := 1;
                       rows := (fun r => [dot r (data w)])
                                 <$> rows (normal (split (PRNGKey 0)).1
                                             n d) |} b)
                 (mul_scalar (normal (split (PRNGKey 0)).2 n 1) noise))
            n 1) as Hy.
  { unfold has_shape, nrows, add, add_scalar, mul_scalar in *.
    cbn [rows ncols].
    split; [rewrite length_zip_with, !length_fmap; lia |].
    split; [done |].
    apply Forall_lookup. intros i r Hr.
    apply lookup_zip_with_Some in Hr as (r1 & r2 & -> & Hr1 & Hr2).
    rewrite !list_lookup_fmap in Hr1.
    destruct (rows (normal (split (PRNGKey 0)).1 n d) !! i) as [xr |];
      [| done].
    injection Hr1 as <-.
    apply list_lookup_fmap_Some_1 in Hr2 as (er & -> & Her_i).
    destruct (Forall_lookup_1 _ _ _ _ Herows Her_i) as [Hlen1 _].
    rewrite length_zip_with, !length_fmap, Hlen1. done. }
  assert (has_shape (normal (split (PRNGKey 0)).1 n d) n d) as HX.
  { repeat split; try done.
    eapply Forall_impl; [| exact HXrows]. by intros r [? _]. }
  split.
  { unfold well_formed. cbn [X y num_train num_val].
    rewrite HXr, (proj1 Hy). repeat split; lia. }
  cbn [X y num_train num_val batch_size].
  split; [done | split; [done | split; [done | split; [exact HX | exact Hy]]]].
Qed.

(** X9. Constructing a data module and loading from it: for weights of
    length [d], non-negative counts and a batch size of at least 1, every
    batch of a pass of either loader over the constructed module has
    features of shape [(m, d)] and labels of shape [(m, 1)] for one and
    the same [m] with [1 <= m <= batch_size] (the notebook prints
    [(32, 2)] and [(32, 1)] for its first training batch). *)
Theorem constructed_batches_shaped w b noise (ntrain nval bsize : Z) d
    (self : SyntheticRegressionData) (train : bool) (g : rng) :
  __init__ w b noise ntrain nval bsize = Ok self ->
  len w = Some d -> 0 <= ntrain -> 0 <= nval -> 1 <= bsize ->
  (exists bts : list batch,
     (Manual.get_dataloader self train g).1 = Ok bts /\
     Forall (batch_shaped bsize d) bts) /\
  ((train = false \/ 1 <= ntrain) ->
   exists ds : TFData.Dataset batch,
     Concise.get_dataloader self train = Ok ds /\
     Forall (batch_shaped bsize d) (TFData.iterate ds g).1).
Proof.
  intros Hok Hlen Hnt Hnv Hbs.
  destruct (init_shapes _ _ _ _ _ _ _ _ Hok Hlen Hnt Hnv)
    as (Hwf & Hnt' & _ & Hbs' & HX & Hy).
  rewrite <- Hbs' in Hbs |- *. rewrite <- Hnt' at 1.
  by apply (batches_shaped self train g (Z.to_nat (ntrain + nval)) d).
Qed.

End ConstructedBatches.

(* ===================================================================== *)
(** ** When the library-backed loader is refused *)
(* ===================================================================== *)

(** The library-backed loader of a well-formed data module, after the
    slicing: the examples of the split go through the shuffle and the
    batching. *)
Lemma concise_after_slices (self : SyntheticRegressionData) (train : bool) :
  well_formed self ->
  Concise.get_dataloader self train
  = attempt shuffled :=
      TFData.shuffle
        {| TFData.element_spec := (ncols (X self), ncols (y self));
           TFData.cardinality :=
             if train then num_train self else num_val self;
           TFData.iterate := fun g => (split_examples self train, g) |}
        (if train then num_train self else 1) in
    attempt batched := TFData.batch shuffled (batch_size self) in
    Ok (TFData.as_numpy batched).
Proof.
  intros Hwf.
  pose proof (length_split_examples self train Hwf) as Hlen.
  destruct Hwf as (Hnt & Hnv & HX & Hy).
  unfold Concise.get_dataloader, Concise.get_tensorloader,
    TFData.from_tensor_slices, split_examples in *.
  cbn [fst snd getitem_slice ncols]. unfold nrows. cbn [rows].
  change (getslice (rows ?a) ?s) with (rows (getitem_slice a s)).
  rewrite !split_rows_slice by done.
  assert (length (split_rows self train (X self))
          = length (split_rows self train (y self))) as Hsame
    by (rewrite !length_split_rows by (done || by rewrite Hy); done).
  rewrite length_zip, <- Hsame, Nat.min_id in Hlen.
  rewrite <- Hsame, Nat.eqb_refl. cbn [bind].
  replace (Z.of_nat (length (split_rows self train (X self))))
    with (if train then num_train self else num_val self)
    by (destruct train; lia).
  by destruct train.
Qed.

Lemma concise_empty_training (self : SyntheticRegressionData) :
  well_formed self -> num_train self = 0 ->
  Concise.get_dataloader self true = Raise BufferSizeNotPositive.
Proof.
  intros Hwf Hempty. rewrite concise_after_slices by done.
  unfold TFData.shuffle. by rewrite Hempty.
Qed.

Lemma concise_bad_batch (self : SyntheticRegressionData) (train : bool) :
  well_formed self -> (train = false \/ 1 <= num_train self) ->
  batch_size self <= 0 ->
  Concise.get_dataloader self train = Raise BatchSizeNotPositive.
Proof.
  intros Hwf Hne Hbad. rewrite concise_after_slices by done.
  unfold TFData.shuffle.
  destruct (Z.leb_spec (if train then num_train self else 1) 0)
    as [? | _]; [destruct train, Hne; done || lia |].
  cbn [bind]. unfold TFData.batch.
  by destruct (Z.leb_spec (batch_size self) 0) as [_ | ?]; [| lia].
Qed.

(** Settles the three equivalences on the outcome once the outcome is
    known. *)
Local Ltac concise_cases :=
  split; [| split]; split; intros H;
  repeat match goal with
         | H : _ /\ _ |- _ => destruct H
         | H : exists _, _ |- _ => destruct H
         end;
  try done; try lia; try tauto;
  try (split; [lia | done]); try (split; [done | lia]).

(** X10. When the library-backed [get_dataloader] returns a loader, for
    a well-formed data module: exactly when [batch_size >= 1] and, in
    training mode, the training split is not empty.  Over an empty
    training split the shuffle buffer of size [0] is refused, whatever
    [batch_size] is; otherwise a [batch_size] below 1 is refused.  (The
    hand-written loader raises in neither case but for
    [batch_size = 0].) *)
Theorem concise_loader_outcome (self : SyntheticRegressionData)
    (train : bool) :
  well_formed self ->
  ((exists ds : TFData.Dataset batch,
      Concise.get_dataloader self train = Ok ds) <->
   1 <= batch_size self /\ (train = false \/ 1 <= num_train self)) /\
  (Concise.get_dataloader self train = Raise BufferSizeNotPositive <->
   train = true /\ num_train self = 0) /\
  (Concise.get_dataloader self train = Raise BatchSizeNotPositive <->
   batch_size self <= 0 /\ (train = false \/ 1 <= num_train self)).
Proof.
  intros Hwf.
  assert (0 <= num_train self) as Hnt by apply Hwf.
  destruct (decide (train = true /\ num_train self = 0))
    as [[-> Hempty] | Hne].
  { rewrite concise_empty_training by done. concise_cases. }
  assert (train = false \/ 1 <= num_train self) as Hne'
    by (destruct train; [right | left]; [| done];
        destruct (Z.eq_dec (num_train self) 0); [by destruct Hne | lia]).
  destruct (Z_le_gt_dec (batch_size self) 0) as [Hbad | Hbs].
  { rewrite concise_bad_batch by done. concise_cases. }
  destruct (concise_pass self train Hwf ltac:(lia) Hne') as (ds & -> & _).
  concise_cases. by exists ds.
Qed.

Lemma concise_loader_outcome_cases :
  (well_formed no_data /\
   ((exists ds : TFData.Dataset batch,
       Concise.get_dataloader no_data true = Ok ds) <->
    1 <= batch_size no_data /\ (true = false \/ 1 <= num_train no_data)) /\
   (Concise.get_dataloader no_data true = Raise BufferSizeNotPositive <->
    true = true /\ num_train no_data = 0) /\
   (Concise.get_dataloader no_data true = Raise BatchSizeNotPositive <->
    batch_size no_data <= 0 /\
    (true = false \/ 1 <= num_train no_data))) /\
  (well_formed zero_batch_data /\
   ((exists ds : TFData.Dataset batch,
       Concise.get_dataloader zero_batch_data false = Ok ds) <->
    1 <= batch_size zero_batch_data /\
    (false = false \/ 1 <= num_train zero_batch_data)) /\
   (Concise.get_dataloader zero_batch_data false
    = Raise BufferSizeNotPositive <->
    false = true /\ num_train zero_batch_data = 0) /\
   (Concise.get_dataloader zero_batch_data false
    = Raise BatchSizeNotPositive <->
    batch_size zero_batch_data <= 0 /\
    (false = false \/ 1 <= num_train zero_batch_data))).
Proof.
  assert (well_formed no_data) as Hempty
    by (unfold well_formed; repeat split; by vm_compute).
  assert (well_formed zero_batch_data) as Hzero
    by (unfold well_formed; repeat split; by vm_compute).
  split.
  - split; [exact Hempty |].
    exact (concise_loader_outcome no_data true Hempty).
  - split; [exact Hzero |].
    exact (concise_loader_outcome zero_batch_data false Hzero).
Defined.

(** Running the model on these instances. *)
Example concise_refusals_run :
  Concise.get_dataloader no_data true = Raise BufferSizeNotPositive /\
  Concise.get_dataloader zero_batch_data false
    = Raise BatchSizeNotPositive /\
  Concise.get_dataloader negative_batch_data true
    = Raise BatchSizeNotPositive.
Proof. by vm_compute. Qed.

(* ===================================================================== *)
(** ** The further properties of the generator at concrete inputs *)
(* ===================================================================== *)

(** X6 at a negative [num_train] and a [batch_size] of 0 (with a
    non-negative total): the construction is accepted. *)
Lemma construction_outcome_negative_split :
  sampler_well_behaved counter_random /\
  ((exists self : SyntheticRegressionData,
      @__init__ counter_random sequential_arithmetic
          w_true b_true noise_default (-5) 10 0
      = Ok self) <->
   (exists d, len w_true = Some d /\ length (data w_true) = d) /\
   0 <= -5 + 10) /\
  (@__init__ counter_random sequential_arithmetic
      w_true b_true noise_default (-5) 10 0
   = Raise TupleIndexOutOfRange <->
   len w_true = None) /\
  (@__init__ counter_random sequential_arithmetic
      w_true b_true noise_default (-5) 10 0
   = Raise NegativeDimension <->
   len w_true ≠ None /\ -5 + 10 < 0) /\
  (@__init__ counter_random sequential_arithmetic
      w_true b_true noise_default (-5) 10 0
   = Raise ContractionMismatch <->
   exists d, len w_true = Some d /\ length (data w_true) ≠ d /\
             0 <= -5 + 10).
Proof.
  split; [exact counter_random_well_behaved |].
  exact (construction_outcome counter_random counter_random_well_behaved
           sequential_arithmetic w_true b_true noise_default (-5) 10 0).
Defined.

Example negative_split_accepted :
  num_train
    (constructed
       (@__init__ counter_random sequential_arithmetic
           w_true b_true noise_default (-5) 10 0))
  = -5 /\
  nrows
    (X (constructed
          (@__init__ counter_random sequential_arithmetic
              w_true b_true noise_default (-5) 10 0)))
  = 5%nat.
Proof. by vm_compute. Qed.

Lemma small_data_constructed :
  @__init__ counter_random sequential_arithmetic
      w_true b_true noise_default 10 3 4
  = Ok small_data.
Proof. reflexivity. Qed.

Lemma integer_data_constructed :
  @__init__ counter_random sequential_arithmetic w_integers b_integer
    noise_default 10 3 4
  = Ok integer_data.
Proof. reflexivity. Qed.

(** Running the model with integer weights and no noise: the features
    drawn are [(-2, 3)], [(1, -1)] and [(-3, 2)], and the labels are
    [2 * x_0 - 3 * x_1 + 4]. *)
Example integer_labels_run :
  let self :=
    constructed (@__init__ counter_random sequential_arithmetic
                   w_integers b_integer (S754_zero false) 2 1 4) in
  rows (X self) = [int_row [-2; 3]; int_row [1; -1]; int_row [-3; 2]] /\
  rows (y self) = [int_row [-9]; int_row [9]; int_row [-8]].
Proof. by vm_compute. Qed.

(** X7 at integer weights and the default noise level. *)
Lemma labels_follow_linear_model_integers :
  (sampler_well_behaved counter_random /\
   matmul_well_behaved sequential_arithmetic /\
   @__init__ counter_random sequential_arithmetic w_integers b_integer
     noise_default 10 3 4
   = Ok integer_data) /\
  ncols (y integer_data) = 1%nat /\
  nrows (y integer_data) = nrows (X integer_data) /\
  forall (i : nat) (xr : list float32),
    rows (X integer_data) !! i = Some xr ->
    exists e : float32,
      rows (@normal counter_random
              (@split counter_random (@PRNGKey counter_random 0)).2
              (Z.to_nat (10 + 3)) 1) !! i = Some [e] /\
      rows (y integer_data) !! i
      = Some [f32_add
                (f32_add (@dot sequential_arithmetic xr (data w_integers))
                   b_integer)
                (f32_mul e noise_default)] /\
      forall zs ws : list Z,
        xr = int_row zs -> data w_integers = int_row ws ->
        small_integers zs -> small_integers ws ->
        (length zs <= 16)%nat ->
        exists v : float32,
          rows (y integer_data) !! i = Some [v] /\
          same_number v
            (f32_add (f32_add (f32_of_Z (inner_product zs ws)) b_integer)
               (f32_mul e noise_default)).
Proof.
  split.
  { split; [exact counter_random_well_behaved |].
    split; [exact sequential_arithmetic_well_behaved
           | exact integer_data_constructed]. }
  exact (labels_follow_linear_model counter_random
           counter_random_well_behaved sequential_arithmetic
           sequential_arithmetic_well_behaved
           w_integers b_integer noise_default 10 3 4
           integer_data integer_data_constructed).
Defined.

(** X8 at the small instance and at one with the split and the batch
    size changed (three training and ten validation examples, batches of
    seven). *)
Lemma data_depends_on_total_only_small :
  (sampler_well_behaved counter_random /\
   @__init__ counter_random sequential_arithmetic
       w_true b_true noise_default 10 3 4
   = Ok small_data /\
   @__init__ counter_random sequential_arithmetic
       w_true b_true noise_default 3 10 7
   = Ok (constructed
           (@__init__ counter_random sequential_arithmetic
               w_true b_true noise_default 3 10 7)) /\
   10 + 3 = 3 + 10 /\ len w_true = len w_true) /\
  X small_data
  = X (constructed
         (@__init__ counter_random sequential_arithmetic
             w_true b_true noise_default 3 10 7)) /\
  (data w_true = data w_true -> b_true = b_true ->
   noise_default = noise_default ->
   y small_data
   = y (constructed
          (@__init__ counter_random sequential_arithmetic
              w_true b_true noise_default 3 10 7))).
Proof.
  split;
    [split; [exact counter_random_well_behaved | by repeat split] |].
  exact (data_depends_on_total_only counter_random
           counter_random_well_behaved sequential_arithmetic
           w_true b_true noise_default 10 3 4
           w_true b_true noise_default 3 10 7
           small_data _ small_data_constructed eq_refl eq_refl eq_refl).
Defined.

Lemma constructed_batches_shaped_small :
  (sampler_well_behaved counter_random /\
   @__init__ counter_random sequential_arithmetic
       w_true b_true noise_default 10 3 4
   = Ok small_data /\
   len w_true = Some 2%nat /\ 0 <= 10 /\ 0 <= 3 /\ 1 <= 4) /\
  (exists bts : list batch,
     (Manual.get_dataloader small_data true ten_draws).1 = Ok bts /\
     Forall (batch_shaped 4 2) bts) /\
  ((true = false \/ 1 <= 10) ->
   exists ds : TFData.Dataset batch,
     Concise.get_dataloader small_data true = Ok ds /\
     Forall (batch_shaped 4 2) (TFData.iterate ds ten_draws).1).
Proof.
  split;
    [split; [exact counter_random_well_behaved | by repeat split] |].
  exact (constructed_batches_shaped counter_random
           counter_random_well_behaved sequential_arithmetic
             w_true b_true noise_default 10 3 4
           2 small_data true ten_draws small_data_constructed eq_refl
           ltac:(done) ltac:(done) ltac:(done)).
Defined.

(* ===================================================================== *)
(** ** The custom initializer *)
(* ===================================================================== *)

Lemma shr_low_zeros (m : positive) (e : Z) :
  shr (Build_shr_record (Zpos (8388608 * m)) false false) e 23
  = (Build_shr_record (Zpos m) false false, e + 23).
Proof. reflexivity. Qed.

Lemma digits2_shift (m : positive) :
  Zpos (digits2_pos (8388608 * m)) = Zpos (digits2_pos m) + 23.
Proof. cbv beta iota delta [Pos.mul]. cbn [digits2_pos]. lia. Qed.

(** Multiplying a [float32] value by [1.0] is exact. *)
Lemma f32_mul_one_finite (s : bool) (m : positive) (e : Z) :
  valid_binary 24 128 (S754_finite s m e) = true ->
  f32_mul (S754_finite s m e) f32_one = S754_finite s m e.
Proof.
  intros Hv. cbn [valid_binary] in Hv.
  unfold bounded, canonical_mantissa in Hv.
  apply andb_prop in Hv as [Hcan Hle]. apply Z.eqb_eq in Hcan.
  unfold f32_mul, SFmul, f32_one, binary_round_aux, shr_fexp.
  rewrite Pos.mul_comm. cbn [Zdigits2]. rewrite digits2_shift.
  replace (Z.pos (digits2_pos m) + 23 + (e + -23))
    with (Z.pos (digits2_pos m) + e) by lia.
  rewrite Hcan. replace (e - (e + -23)) with 23 by lia.
  cbn [shr_record_of_loc]. rewrite shr_low_zeros.
  cbn [shr_m loc_of_shr_record round_nearest_even Zdigits2].
  replace (e + -23 + 23) with e by lia. rewrite Hcan, Z.sub_diag.
  cbn [shr shr_record_of_loc shr_m]. rewrite Hle.
  by destruct s.
Qed.

Lemma f32_mul_one (v : float32) :
  valid_binary 24 128 v = true -> f32_mul v f32_one = v.
Proof.
  destruct v as [s | s | | s m e]; intros Hv.
  - by destruct s.
  - by destruct s.
  - done.
  - by apply f32_mul_one_finite.
Qed.

(** What [MyInit] makes of one draw [d]. *)
Lemma masked_draw (lo d : float32) :
  valid_binary 24 128 d = true -> SFleb lo d = true ->
  let v := f32_mul d (if SFleb MyInit.five (SFabs d) then f32_one
                      else f32_zero) in
  if SFleb MyInit.five (SFabs d) then v = d else is_zero v.
Proof.
  intros Hv Hlo. cbn zeta.
  destruct (SFleb MyInit.five (SFabs d)) eqn:Hbig.
  - by apply f32_mul_one.
  - destruct d as [s | s | | s m e].
    + by exists (xorb s false).
    + discriminate Hbig.
    + by destruct lo.
    + by exists (xorb s false).
Qed.

(** X11. [MyInit] returns a tensor of the requested shape in which every
    entry is either the value drawn at its position, kept exactly when
    the magnitude of the draw is at least 5, or a zero otherwise; so no
    weight has a magnitude strictly between 0 and 5, and the weights that
    are not zero lie in [[-10, -5]] or in [[5, 10)].  (For a generator
    whose draws are [float32] values in [[-10, 10)].) *)
Theorem MyInit_keeps_large_draws (T : TfRandom) (sh : list nat)
    (st : tf_state) :
  uniform_well_behaved T MyInit.minus_ten MyInit.ten ->
  let drawn := (random_uniform sh MyInit.minus_ten MyInit.ten st).1 in
  let out := (MyInit.__call__ sh st).1 in
  shape out = sh /\
  length (data out) = length (data drawn) /\
  forall (k : nat) (d : float32),
    data drawn !! k = Some d ->
    exists v : float32,
      data out !! k = Some v /\
      (if SFleb MyInit.five (SFabs d) then v = d else is_zero v) /\
      (is_zero v \/
       SFleb MyInit.five (SFabs v) = true /\
       SFleb MyInit.minus_ten v = true /\ SFltb v MyInit.ten = true).
Proof.
  intros Hlaw drawn out.
  destruct (Hlaw sh st) as [Hshape Hentries]. fold drawn in Hshape, Hentries.
  assert (out = multiply drawn
                  (cast_float32 (greater_equal (tf_abs drawn) MyInit.five)))
    as ->.
  { subst out drawn. unfold MyInit.__call__.
    by destruct (random_uniform sh MyInit.minus_ten MyInit.ten st). }
  clearbody drawn.
  unfold multiply, cast_float32, greater_equal, tf_abs.
  cbn [shape data mask_shape mask_data].
  split; [done |]. split.
  { by rewrite length_zip_with, !length_fmap, Nat.min_id. }
  intros k d Hd.
  destruct (Forall_lookup_1 _ _ _ _ Hentries Hd) as (Hv & Hlo & Hhi).
  eexists. split.
  { unfold float32 in *.
    by rewrite lookup_zip_with, !list_lookup_fmap, Hd. }
  pose proof (masked_draw MyInit.minus_ten d Hv Hlo) as Hmask.
  cbn zeta in Hmask. split; [exact Hmask |].
  destruct (SFleb MyInit.five (SFabs d)) eqn:Hbig.
  - right. rewrite Hmask. done.
  - by left.
Qed.

Lemma f32_of_Z_in_range (z : Z) :
  -10 <= z <= 9 ->
  valid_binary 24 128 (f32_of_Z z) = true /\
  SFleb MyInit.minus_ten (f32_of_Z z) = true /\
  SFltb (f32_of_Z z) MyInit.ten = true.
Proof.
  intros Hz. replace z with (Z.of_nat (Z.to_nat (z + 10)) - 10) by lia.
  assert (Z.to_nat (z + 10) < 20)%nat as Hn by lia.
  remember (Z.to_nat (z + 10)) as n eqn:Heqn. clear Heqn Hz.
  do 20 (destruct n as [| n]; [vm_compute; auto |]).
  lia.
Qed.

Lemma counter_uniform_well_behaved :
  uniform_well_behaved counter_uniform MyInit.minus_ten MyInit.ten.
Proof.
  intros sh st. cbn [counter_uniform random_uniform fst shape data].
  split; [done |].
  apply Forall_fmap, Forall_lookup. intros k i _. cbn.
  apply f32_of_Z_in_range.
  pose proof (Z.mod_pos_bound (st + Z.of_nat i) 20 ltac:(lia)). lia.
Qed.

(** Running the model: the literals of [MyInit], and eight weights drawn
    from the stand-in generator in state 3 (the draws are the integers
    from [-7] to [0]). *)
Example MyInit_literals :
  MyInit.minus_ten = f32_of_Z (-10) /\ MyInit.ten = f32_of_Z 10 /\
  MyInit.five = f32_of_Z 5 /\ f32_one = f32_of_Z 1.
Proof. by vm_compute. Qed.

Example MyInit_run :
  data (@MyInit.__call__ counter_uniform [2; 4]%nat 3).1
  = [f32_of_Z (-7); f32_of_Z (-6); f32_of_Z (-5); S754_zero true;
     S754_zero true; S754_zero true; S754_zero true; S754_zero false].
Proof. by vm_compute. Qed.

Lemma MyInit_keeps_large_draws_run :
  uniform_well_behaved counter_uniform MyInit.minus_ten MyInit.ten /\
  shape (@MyInit.__call__ counter_uniform [2; 4]%nat 3).1 = [2; 4]%nat /\
  length (data (@MyInit.__call__ counter_uniform [2; 4]%nat 3).1)
  = length (data (@random_uniform counter_uniform [2; 4]%nat
                    MyInit.minus_ten MyInit.ten 3).1) /\
  forall (k : nat) (d : float32),
    data (@random_uniform counter_uniform [2; 4]%nat
            MyInit.minus_ten MyInit.ten 3).1 !! k = Some d ->
    exists v : float32,
      data (@MyInit.__call__ counter_uniform [2; 4]%nat 3).1 !! k
        = Some v /\
      (if SFleb MyInit.five (SFabs d) then v = d else is_zero v) /\
      (is_zero v \/
       SFleb MyInit.five (SFabs v) = true /\
       SFleb MyInit.minus_ten v = true /\ SFltb v MyInit.ten = true).
Proof.
  split; [exact counter_uniform_well_behaved |].
  exact (MyInit_keeps_large_draws counter_uniform [2; 4]%nat 3
           counter_uniform_well_behaved).
Defined.

(* ===================================================================== *)
(** ** The length of a loader over an empty training split *)
(* ===================================================================== *)

(** C4, where the code departs from it.  Over a training split of length
    [L = 0], with [batch_size = 4], the count [ceil(L / batch_size)] is 0
    and a pass of the hand-written loader yields no batch; the
    library-backed [get_dataloader] is called with a shuffle buffer of
    size 0, which the library refuses, so that neither [len()] nor a pass
    is available.  (In validation mode the same module has a loader of
    length [ceil(3 / 4) = 1].) *)
Theorem empty_training_split_is_refused :
  well_formed no_training_data /\
  num_train no_training_data = 0 /\ batch_size no_training_data = 4 /\
  ceil_div (num_train no_training_data) (batch_size no_training_data) = 0 /\
  manual_batch_sizes no_training_data true ten_draws = Ok [] /\
  concise_len no_training_data true = Raise BufferSizeNotPositive /\
  concise_batch_sizes no_training_data true ten_draws
    = Raise BufferSizeNotPositive /\
  concise_len no_training_data false = Ok 1.
Proof.
  split; [unfold well_formed; repeat split; by vm_compute |].
  by vm_compute.
Qed.

(* ===================================================================== *)
(** ** The errors of a construction *)
(* ===================================================================== *)

Section ConstructionErrors.
Context (J : JaxRandom) (Hsampler : sampler_well_behaved J)
  (L : MatmulArithmetic).
Implicit Types (w : ndarray) (b noise : float32) (d : nat).

(** C6, as the code has it.  A construction fails fast, raising before
    any object is built, in three cases and in no other: [w] is
    zero-dimensional ([w.shape[0]] raises the index error); [w] has an
    axis and [num_train + num_val] is negative (the sampler refuses the
    negative dimension); [w] has a leading axis, the total is not
    negative, and the number of entries of [w] differs from the length of
    that axis (the dimension mismatch of [matmul]).  For a
    one-dimensional [w] the feature width is read off [w] itself, so the
    mismatch cannot occur: such a construction succeeds whenever the
    total is not negative. *)
Theorem construction_fails_fast w b noise (ntrain nval bsize : Z) :
  (forall e : exn,
     __init__ w b noise ntrain nval bsize = Raise e ->
     (e = TupleIndexOutOfRange /\ shape w = []) \/
     (e = NegativeDimension /\ shape w ≠ [] /\ ntrain + nval < 0) \/
     (e = ContractionMismatch /\ 0 <= ntrain + nval /\
      exists d, len w = Some d /\ length (data w) ≠ d)) /\
  (shape w = [] ->
   __init__ w b noise ntrain nval bsize = Raise TupleIndexOutOfRange) /\
  (shape w ≠ [] -> ntrain + nval < 0 ->
   __init__ w b noise ntrain nval bsize = Raise NegativeDimension) /\
  (forall d, len w = Some d -> 0 <= ntrain + nval ->
     length (data w) ≠ d ->
     __init__ w b noise ntrain nval bsize = Raise ContractionMismatch) /\
  (forall d, shape w = [d] -> consistent w -> 0 <= ntrain + nval ->
     exists self : SyntheticRegressionData,
       __init__ w b noise ntrain nval bsize = Ok self).
Proof.
  assert (shape w = [] <-> len w = None) as Hnone
    by (unfold len; destruct (shape w); done).
  split; [| split; [| split; [| split]]].
  - intros e He. destruct (len w) as [d |] eqn:Hlen.
    2:{ rewrite init_scalar in He by done. injection He as <-.
        left. by rewrite Hnone. }
    assert (shape w ≠ []) as Hshape by (rewrite Hnone; congruence).
    destruct (Z_lt_le_dec (ntrain + nval) 0) as [Hneg | Hpos].
    { rewrite (init_negative _ _ _ _ _ _ _ _ d) in He by done.
      injection He as <-. right. left. done. }
    destruct (decide (length (data w) = d)) as [Hfit | Hne].
    + by rewrite (init_ok J Hsampler L _ _ _ _ _ _ d) in He.
    + rewrite (init_mismatch J Hsampler L _ _ _ _ _ _ d) in He by done.
      injection He as <-. right. right. eauto.
  - intros Hshape. apply init_scalar. by rewrite <- Hnone.
  - intros Hshape Hneg. destruct (len w) as [d |] eqn:Hlen.
    + by apply (init_negative _ _ _ _ _ _ _ _ d).
    + exfalso. by apply Hshape, Hnone.
  - intros d Hlen Hpos Hne.
    by apply (init_mismatch J Hsampler L _ _ _ _ _ _ d).
  - intros d Hshape Hcons Hpos. eexists.
    apply (init_ok J Hsampler L _ _ _ _ _ _ d); [| | done].
    + unfold len. by rewrite Hshape.
    + unfold consistent in Hcons. rewrite Hcons, Hshape. cbn. lia.
Qed.

End ConstructionErrors.

(** C6 as the specification words it does not hold: a zero-dimensional
    [w] and a negative total make the construction fail, and neither
    failure is the dimension mismatch. *)
Lemma construction_raises_other_errors :
  @__init__ counter_random sequential_arithmetic
    w_scalar b_true noise_default 10 3 4
  = Raise TupleIndexOutOfRange /\
  @__init__ counter_random sequential_arithmetic
    w_true b_true noise_default 2 (-5) 4
  = Raise NegativeDimension /\
  TupleIndexOutOfRange ≠ ContractionMismatch /\
  NegativeDimension ≠ ContractionMismatch /\
  ~ (forall e : exn,
       @__init__ counter_random sequential_arithmetic
         w_scalar b_true noise_default 10 3 4 = Raise e ->
       e = ContractionMismatch).
Proof.
  split; [reflexivity |]. split; [reflexivity |].
  split; [discriminate |]. split; [discriminate |].
  intros Honly. by specialize (Honly TupleIndexOutOfRange eq_refl).
Qed.

(** C6, as the code has it, at a weight array of shape [(2, 3)], whose six
    entries do not fit a feature width of two. *)
Lemma construction_fails_fast_matrix :
  sampler_well_behaved counter_random /\
  (forall e : exn,
     @__init__ counter_random sequential_arithmetic
       w_matrix b_true noise_default 10 3 4 = Raise e ->
     (e = TupleIndexOutOfRange /\ shape w_matrix = []) \/
     (e = NegativeDimension /\ shape w_matrix ≠ [] /\ 10 + 3 < 0) \/
     (e = ContractionMismatch /\ 0 <= 10 + 3 /\
      exists d, len w_matrix = Some d /\ length (data w_matrix) ≠ d)) /\
  (shape w_matrix = [] ->
   @__init__ counter_random sequential_arithmetic
     w_matrix b_true noise_default 10 3 4 = Raise TupleIndexOutOfRange) /\
  (shape w_matrix ≠ [] -> 10 + 3 < 0 ->
   @__init__ counter_random sequential_arithmetic
     w_matrix b_true noise_default 10 3 4 = Raise NegativeDimension) /\
  (forall d, len w_matrix = Some d -> 0 <= 10 + 3 ->
     length (data w_matrix) ≠ d ->
     @__init__ counter_random sequential_arithmetic
       w_matrix b_true noise_default 10 3 4 = Raise ContractionMismatch) /\
  (forall d, shape w_matrix = [d] -> consistent w_matrix -> 0 <= 10 + 3 ->
     exists self : SyntheticRegressionData,
       @__init__ counter_random sequential_arithmetic
         w_matrix b_true noise_default 10 3 4 = Ok self).
Proof.
  split; [exact counter_random_well_behaved |].
  exact (construction_fails_fast counter_random counter_random_well_behaved
           sequential_arithmetic w_matrix b_true noise_default 10 3 4).
Defined.

(* ===================================================================== *)
(** ** Saving a mapping and loading it back *)
(* ===================================================================== *)

Lemma load_saved {tensor} (file : String.string) (arr : FileIO.pyobj tensor)
    (fs : FileIO.files tensor) :
  FileIO.save file arr fs (FileIO.npy_name file)
  = Some (FileIO.asanyarray arr).
Proof. unfold FileIO.save. by rewrite String.eqb_refl. Qed.

(** C9, as the code has it.  Saving the mapping [{"x": t}] with
    [jnp.save] and loading the file back with
    [jnp.load(..., allow_pickle=True)] returns a zero-dimensional object
    array that wraps a mapping identical to the original: its element is
    the original mapping, whose value under ["x"] is [t].  The value
    returned is not itself the mapping.  Without [allow_pickle] the load
    is refused, and the other files are left as they were. *)
Theorem saved_mapping_comes_back_wrapped {tensor} (t : tensor)
    (file : String.string) (fs : FileIO.files tensor) :
  let mydict := FileIO.Dict [("x"%string, FileIO.Tensor t)] in
  let saved := FileIO.save file mydict fs in
  FileIO.load (FileIO.npy_name file) true saved
  = FileIO.Returns (FileIO.ObjectArray mydict) /\
  FileIO.element (FileIO.ObjectArray mydict) = Some mydict /\
  FileIO.lookup_key [("x"%string, FileIO.Tensor t)] "x"%string
  = Some (FileIO.Tensor t) /\
  FileIO.ObjectArray mydict ≠ mydict /\
  FileIO.load (FileIO.npy_name file) false saved
  = FileIO.Raises FileIO.ObjectArrayNotAllowed /\
  forall other : String.string,
    other ≠ FileIO.npy_name file ->
    FileIO.load other true saved = FileIO.load other true fs.
Proof.
  intros mydict saved.
  split; [| split; [| split; [| split; [| split]]]].
  - unfold FileIO.load. subst saved. by rewrite load_saved.
  - done.
  - done.
  - discriminate.
  - unfold FileIO.load. subst saved. by rewrite load_saved.
  - intros other Hother. unfold FileIO.load. subst saved.
    unfold FileIO.save.
    destruct (String.eqb_spec other (FileIO.npy_name file)); done.
Qed.

(** C9 as the specification words it does not hold: what comes back for
    the mapping [{"x": x}] of the notebook is not a value equal to that
    mapping but an object array that wraps it. *)
Lemma loaded_value_is_not_the_mapping :
  FileIO.load "mydict.npy"%string true
    (FileIO.save "mydict.npy"%string
       (FileIO.Dict [("x"%string, FileIO.Tensor x_arange)])
       FileIO.no_files)
  = FileIO.Returns
      (FileIO.ObjectArray
         (FileIO.Dict [("x"%string, FileIO.Tensor x_arange)])) /\
  FileIO.load "mydict.npy"%string true
    (FileIO.save "mydict.npy"%string
       (FileIO.Dict [("x"%string, FileIO.Tensor x_arange)])
       FileIO.no_files)
  ≠ FileIO.Returns (FileIO.Dict [("x"%string, FileIO.Tensor x_arange)]).
Proof. split; [reflexivity | discriminate]. Qed.

(** Running the model on the cells of the notebook: [x] saved on its own
    comes back as it is; the dict of the last cell comes back as the
    notebook records it, [array({'x': ..., 'y': ...}, dtype=object)]; a
    name without [.npy] is saved under the name with it. *)
Example file_cells_run :
  FileIO.load "x-file.npy"%string true
    (FileIO.save "x-file.npy"%string (FileIO.Tensor x_arange)
       FileIO.no_files)
  = FileIO.Returns (FileIO.Tensor x_arange) /\
  FileIO.load "mydict.npy"%string true
    (FileIO.save "mydict.npy"%string
       (FileIO.Dict [("x"%string, FileIO.Tensor x_arange);
                     ("y"%string, FileIO.Tensor y_zeros)])
       FileIO.no_files)
  = FileIO.Returns
      (FileIO.ObjectArray
         (FileIO.Dict [("x"%string, FileIO.Tensor x_arange);
                       ("y"%string, FileIO.Tensor y_zeros)])) /\
  FileIO.load "x-file"%string true
    (FileIO.save "x-file"%string (FileIO.Tensor x_arange) FileIO.no_files)
  = FileIO.Raises FileIO.FileNotFound /\
  FileIO.load "x-file.npy"%string true
    (FileIO.save "x-file"%string (FileIO.Tensor x_arange) FileIO.no_files)
  = FileIO.Returns (FileIO.Tensor x_arange).
Proof. by vm_compute. Qed.
